(** * FIRDS helpers ([firds.py]): a shallow embedding and its properties

    The Python module downloads ESMA FIRDS manifests and archives and keeps an
    ISIN -> LEI lookup table in SQLite.  Python values are modelled as follows:
    - [int] is [Z]; [str] is [string]; [None]-able values are [option];
    - an lxml element is a rose tree [Element];
    - exceptions are values of [exn]; a call either returns, raises, or (for
      the one [while] loop, which is run on fuel) runs out of fuel;
    - the outside world (clock, HTTP servers, file system, SQLite file) is a
      record [World] threaded through the [Py] monad.  State changes made
      before an exception is raised persist, as they do in Python. *)

From Stdlib Require Import ZArith Lia Ascii String.
From stdpp Require Import base option list strings gmap.

Local Set Warnings "-register-all,-clear-no-such-hyp".

Local Open Scope string_scope.
Local Open Scope list_scope.
Local Open Scope Z_scope.

(** ** Exceptions and outcomes *)

Inductive exn : Type :=
  | IndexError          (* [xs[0]] on an empty sequence *)
  | KeyError            (* missing mapping key *)
  | ValueError          (* [int(s)] on a non-numeral *)
  | TypeError           (* subscripting [None] *)
  | AttributeError      (* method call on [None] *)
  | OverflowError       (* date arithmetic out of range *)
  | ConnectionError     (* [requests.get]: transport failure *)
  | HTTPError (status : Z) (* [Response.raise_for_status] *)
  | XMLSyntaxError      (* [etree.fromstring] / [etree.parse] *)
  | BadZipFile          (* [ZipFile(...)] on bytes that are no archive *)
  | OperationalError    (* sqlite3: statement cannot run, storage failure *)
  | OSError.            (* file cannot be read *)

Inductive result (A : Type) : Type :=
  | Ok (a : A)
  | Raise (e : exn)
  | OutOfFuel.
Arguments Ok {A} a.
Arguments Raise {A} e.
Arguments OutOfFuel {A}.

Definition result_bind {A B} (r : result A) (k : A -> result B) : result B :=
  match r with
  | Ok a => k a
  | Raise e => Raise e
  | OutOfFuel => OutOfFuel
  end.

(** The spec's error taxonomy: which exceptions count as a NetworkError. *)
Definition is_NetworkError (e : exn) : bool :=
  match e with
  | ConnectionError | HTTPError _ => true
  | _ => false
  end.

(** ** lxml elements *)

Inductive Element : Type :=
  | Elem (tag : string) (attrib : gmap string string)
         (text : option string) (children : list Element).

Definition tag (e : Element) : string := let 'Elem t _ _ _ := e in t.
Definition attrib (e : Element) : gmap string string := let 'Elem _ a _ _ := e in a.
Definition text (e : Element) : option string := let 'Elem _ _ t _ := e in t.
Definition children (e : Element) : list Element := let 'Elem _ _ _ c := e in c.

(** All proper descendants, in document order. *)
Fixpoint descendants (e : Element) : list Element :=
  match e with
  | Elem _ _ _ cs => flat_map (fun c => c :: descendants c) cs
  end.

(** [seq[0]] *)
Definition first_item {A} (l : list A) : result A :=
  match l with
  | x :: _ => Ok x
  | [] => Raise IndexError
  end.

(** [e[i]]: the i-th child element. *)
Definition child_at (e : Element) (i : nat) : result Element :=
  match children e !! i with
  | Some c => Ok c
  | None => Raise IndexError
  end.

(** XPath [.//str[@name="<n>"]] relative to [e]. *)
Definition xpath_str_named (n : string) (e : Element) : list Element :=
  List.filter
    (fun d => bool_decide (tag d = "str" /\ attrib d !! "name" = Some n))
    (descendants e).

(** XPath child step [Document:<local>]: children of [e] with that Clark name. *)
Definition xpath_child (qname : string) (e : Element) : list Element :=
  List.filter (fun c => bool_decide (tag c = qname)) (children e).

(** ** Manifest parser: [_parse_file_urls] *)

Definition FNAME_START (f : ascii) : string := "FULINS_" +:+ String f "".

(** [fname.startswith(p)], where [fname] may be [None]. *)
Definition startswith (fname : option string) (p : string) : result bool :=
  match fname with
  | Some s => Ok (String.prefix p s)
  | None => Raise AttributeError
  end.

(** [any(fname.startswith(FNAME_START.format(f)) for f in ftype)]:
    lazy, stops at the first hit. *)
Fixpoint any_startswith (fname : option string) (ftype : list ascii) : result bool :=
  match ftype with
  | [] => Ok false
  | f :: rest =>
      result_bind (startswith fname (FNAME_START f))
        (fun b => if b then Ok true else any_startswith fname rest)
  end.

(** The loop body for one [entry]; returns the URLs it appends. *)
Definition parse_entry (ftype : string) (entry : Element)
  : result (list (option string)) :=
  result_bind (first_item (xpath_str_named "file_name" entry)) (fun fe =>
  let fname := text fe in
  result_bind (if bool_decide (ftype = "") then Ok true
               else any_startswith fname (list_ascii_of_string ftype)) (fun keep =>
  if keep then
    result_bind (first_item (xpath_str_named "download_link" entry)) (fun ue =>
    Ok [text ue])
  else Ok [])).

Fixpoint parse_entries (ftype : string) (entries : list Element)
  (urls : list (option string)) : result (list (option string)) :=
  match entries with
  | [] => Ok urls
  | entry :: rest =>
      result_bind (parse_entry ftype entry) (fun new =>
      parse_entries ftype rest (urls ++ new))
  end.

Definition _parse_file_urls (root : Element) (ftype : string)
  : result (list (option string)) :=
  result_bind (child_at root 1) (fun page =>
  parse_entries ftype (children page) []).

(** ** [int(s)] for a [str] argument

    Surrounding white space is dropped, one sign is allowed, and the digits
    may be separated by single underscores.  Only ASCII is modelled. *)

Definition is_space (c : ascii) : bool :=
  let n := Z.of_nat (nat_of_ascii c) in
  ((9 <=? n) && (n <=? 13)) || ((28 <=? n) && (n <=? 32)).

Fixpoint lstrip (l : list ascii) : list ascii :=
  match l with
  | c :: r => if is_space c then lstrip r else l
  | [] => []
  end.

Definition strip (l : list ascii) : list ascii := rev (lstrip (rev (lstrip l))).

Definition digit_val (c : ascii) : option Z :=
  let n := Z.of_nat (nat_of_ascii c) in
  if (48 <=? n) && (n <=? 57) then Some (n - 48) else None.

Fixpoint parse_digits (acc : Z) (after_digit : bool) (l : list ascii) : option Z :=
  match l with
  | [] => if after_digit then Some acc else None
  | c :: r =>
      match digit_val c with
      | Some d => parse_digits (10 * acc + d) true r
      | None =>
          if bool_decide (c = "_"%char) && after_digit
          then parse_digits acc false r
          else None
      end
  end.

Definition int_of_str (s : string) : result Z :=
  let body := strip (list_ascii_of_string s) in
  let '(sign, digits) :=
    match body with
    | "-"%char :: r => (-1, r)
    | "+"%char :: r => (1, r)
    | _ => (1, body)
    end in
  match parse_digits 0 false digits with
  | Some n => Ok (sign * n)
  | None => Raise ValueError
  end.

(** ** [datetime]

    A naive [datetime] is kept as its proleptic Gregorian day number
    ([toordinal()], day 1 is 0001-01-01) and the microseconds since midnight.
    [ord2ymd] is the standard library's conversion to year, month and day. *)

Record datetime : Type := mk_datetime { ordinal : Z; microsecond_of_day : Z }.

Definition MAXORDINAL : Z := 3652059.

Definition DAYS_IN_MONTH (month : Z) : Z :=
  match month with
  | 1 => 31 | 2 => 28 | 3 => 31 | 4 => 30 | 5 => 31 | 6 => 30
  | 7 => 31 | 8 => 31 | 9 => 30 | 10 => 31 | 11 => 30 | 12 => 31
  | _ => -1
  end.

Definition DAYS_BEFORE_MONTH (month : Z) : Z :=
  match month with
  | 1 => 0 | 2 => 31 | 3 => 59 | 4 => 90 | 5 => 120 | 6 => 151
  | 7 => 181 | 8 => 212 | 9 => 243 | 10 => 273 | 11 => 304 | 12 => 334
  | _ => -1
  end.

Definition Z_of_bool (b : bool) : Z := if b then 1 else 0.

Definition ord2ymd (n : Z) : Z * Z * Z :=
  let n := n - 1 in
  let n400 := n / 146097 in let n := n mod 146097 in
  let year := n400 * 400 + 1 in
  let n100 := n / 36524 in let n := n mod 36524 in
  let n4 := n / 1461 in let n := n mod 1461 in
  let n1 := n / 365 in let n := n mod 365 in
  let year := year + n100 * 100 + n4 * 4 + n1 in
  if (n1 =? 4) || (n100 =? 4) then (year - 1, 12, 31)
  else
    let leapyear := (n1 =? 3) && (negb (n4 =? 24) || (n100 =? 3)) in
    let month := Z.shiftr (n + 50) 5 in
    let preceding := DAYS_BEFORE_MONTH month + Z_of_bool ((2 <? month) && leapyear) in
    if n <? preceding then
      let month := month - 1 in
      let preceding :=
        preceding - (DAYS_IN_MONTH month + Z_of_bool ((month =? 2) && leapyear)) in
      (year, month, n - preceding + 1)
    else (year, month, n - preceding + 1).

Definition year (d : datetime) : Z := (ord2ymd (ordinal d)).1.1.
Definition month (d : datetime) : Z := (ord2ymd (ordinal d)).1.2.
Definition day (d : datetime) : Z := (ord2ymd (ordinal d)).2.

(** [timedelta(weeks=w)], in days. *)
Definition timedelta_weeks (w : Z) : Z := 7 * w.

(** [d - delta] for a [timedelta] of whole days. *)
Definition datetime_sub (d : datetime) (delta_days : Z) : result datetime :=
  let o := ordinal d - delta_days in
  if (1 <=? o) && (o <=? MAXORDINAL)
  then Ok (mk_datetime o (microsecond_of_day d))
  else Raise OverflowError.

(** ** The outside world *)

(** The fields [Q_URL.format] writes into the search URL. *)
Record Query : Type := mk_Query {
  from_year : Z; from_month : Z; from_day : Z;
  to_year : Z; to_month : Z; to_day : Z;
  start : Z; rows : Z
}.

(** A zip archive: its members in directory order, name and contents. *)
Definition Archive : Type := list (string * list ascii).

(** A [requests] response to an archive download.  [content] is [None] when
    the body is not a zip archive. *)
Record Response : Type := mk_Response {
  status_code : Z;
  content : option Archive
}.

Inductive Request : Type :=
  | SearchRequest (q : Query)
  | DownloadRequest (url : string).

(** One row of a lookup table.  SQLite lets a non-integer PRIMARY KEY column
    hold NULL, so [isin] is optional; [lei] is NOT NULL. *)
Definition Row : Type := option string * string.
Definition Table : Type := list Row.

Record World : Type := mk_World {
  today : datetime;
    (* value of [datetime.today()] *)
  search_endpoint : Query -> result Element;
    (* [etree.fromstring(requests.get(Q_URL.format(...)).content)] *)
  archive_server : string -> result Response;
    (* [requests.get(url)] *)
  requests_log : list Request;
    (* every GET issued so far, oldest first *)
  dirs : gset string;
    (* existing directories, by normalised path *)
  files : gmap string (list ascii);
    (* existing regular files and their bytes, by normalised path *)
  etree_parse : string -> result Element;
    (* [etree.parse(path)] for the documents on disk *)
  sqlite : gmap string (gmap string Table);
    (* committed tables of each database file, by table name *)
  storage_fault : option nat
    (* the row of a bulk insert at which the storage layer gives up
       (disk full, database locked), if any *)
}.

Definition log_request (r : Request) (w : World) : World :=
  mk_World (today w) (search_endpoint w) (archive_server w)
    (requests_log w ++ [r]) (dirs w) (files w) (etree_parse w) (sqlite w)
    (storage_fault w).

Definition set_dirs (d : gset string) (w : World) : World :=
  mk_World (today w) (search_endpoint w) (archive_server w)
    (requests_log w) d (files w) (etree_parse w) (sqlite w) (storage_fault w).

Definition set_files (f : gmap string (list ascii)) (w : World) : World :=
  mk_World (today w) (search_endpoint w) (archive_server w)
    (requests_log w) (dirs w) f (etree_parse w) (sqlite w) (storage_fault w).

Definition set_sqlite (s : gmap string (gmap string Table)) (w : World) : World :=
  mk_World (today w) (search_endpoint w) (archive_server w)
    (requests_log w) (dirs w) (files w) (etree_parse w) s (storage_fault w).

(** ** The [Py] monad: world passing with exceptions *)

Definition Py (A : Type) : Type := World -> result A * World.

Definition ret {A} (a : A) : Py A := fun w => (Ok a, w).
Definition raise {A} (e : exn) : Py A := fun w => (Raise e, w).
Definition lift {A} (r : result A) : Py A := fun w => (r, w).
Definition bind {A B} (c : Py A) (k : A -> Py B) : Py B :=
  fun w =>
    match c w with
    | (Ok a, w') => k a w'
    | (Raise e, w') => (Raise e, w')
    | (OutOfFuel, w') => (OutOfFuel, w')
    end.

Declare Scope py_scope.
Delimit Scope py_scope with py.
Notation "x <- c ;; k" := (bind c (fun x => k))
  (at level 100, c at next level, right associativity) : py_scope.
Notation "c ;;; k" := (bind c (fun _ => k))
  (at level 100, right associativity) : py_scope.
Local Open Scope py_scope.

(** ** Date range paginator: [_request_file_urls] and [get_file_urls] *)

Definition _request_file_urls (from_date to_date : datetime) (start rows : Z)
  : Py Element :=
  fun w =>
    let q := mk_Query (year from_date) (month from_date) (day from_date)
                      (year to_date) (month to_date) (day to_date) start rows in
    (search_endpoint w q, log_request (SearchRequest q) w).

Definition datetime_today : Py datetime := fun w => (Ok (today w), w).

(** Lines 79-83: the defaults of the time window. *)
Definition default_window (from_date to_date : option datetime)
  : Py (datetime * datetime) :=
  match from_date with
  | None =>
      to_date <- datetime_today ;;
      from_date <- lift (datetime_sub to_date (timedelta_weeks 1)) ;;
      ret (from_date, to_date)
  | Some from_date =>
      match to_date with
      | None => ret (from_date, from_date)
      | Some to_date => ret (from_date, to_date)
      end
  end.

(** [int(root[1].attrib['numFound'])] *)
Definition numFound (root : Element) : result Z :=
  result_bind (child_at root 1) (fun page =>
  match attrib page !! "numFound" with
  | Some s => int_of_str s
  | None => Raise KeyError
  end).

(** The [while] loop of [get_file_urls]; one unit of fuel per iteration. *)
Fixpoint get_file_urls_loop (fuel : nat) (from_date to_date : datetime)
  (ftype : string) (num_results start rows : Z) (urls : list (option string))
  : Py (list (option string)) :=
  if num_results >? start + rows then
    match fuel with
    | O => lift OutOfFuel
    | S fuel' =>
        let start := start + rows in
        root <- _request_file_urls from_date to_date start rows ;;
        new <- lift (_parse_file_urls root ftype) ;;
        get_file_urls_loop fuel' from_date to_date ftype num_results start rows
          (urls ++ new)
    end
  else ret urls.

Definition get_file_urls (fuel : nat) (from_date to_date : option datetime)
  (ftype : string) : Py (list (option string)) :=
  let start := 0 in
  let rows := 100 in
  window <- default_window from_date to_date ;;
  let '(from_date, to_date) := window in
  root <- _request_file_urls from_date to_date start rows ;;
  num_results <- lift (numFound root) ;;
  urls <- lift (_parse_file_urls root ftype) ;;
  get_file_urls_loop fuel from_date to_date ftype num_results start rows urls.

(** ** POSIX paths ([posixpath]) *)

(** [s.split(sep)] for a one-character separator. *)
Fixpoint split_on (sep : ascii) (s : string) : list string :=
  match s with
  | EmptyString => [""]
  | String c r =>
      let parts := split_on sep r in
      if bool_decide (c = sep) then "" :: parts
      else match parts with
           | p :: ps => String c p :: ps
           | [] => [String c ""]
           end
  end.

Definition endswith_slash (s : string) : bool :=
  match last (list_ascii_of_string s) with
  | Some c => bool_decide (c = "/"%char)
  | None => false
  end.

(** [os.path.join(a, b)] *)
Definition path_join (a b : string) : string :=
  if String.prefix "/" b then b
  else if bool_decide (a = "") || endswith_slash a then a +:+ b
  else a +:+ "/" +:+ b.

(** The number of leading slashes [normpath] keeps: 0, 1, or 2. *)
Definition initial_slashes (path : string) : nat :=
  if String.prefix "/" path then
    if String.prefix "//" path && negb (String.prefix "///" path) then 2%nat else 1%nat
  else 0%nat.

(** One round of the component loop of [normpath]; [new_comps] is kept
    with its last component first. *)
Definition norm_step (slashes : nat) (new_comps : list string) (comp : string)
  : list string :=
  if bool_decide (comp = "") || bool_decide (comp = ".") then new_comps
  else if negb (bool_decide (comp = ".."))
          || (bool_decide (slashes = 0%nat) && bool_decide (new_comps = []))
          || bool_decide (head new_comps = Some "..")
  then comp :: new_comps
  else tail new_comps.

Definition norm_comps (path : string) : list string :=
  rev (fold_left (norm_step (initial_slashes path)) (split_on "/" path) []).

Definition render (slashes : nat) (comps : list string) : string :=
  String.concat "" (replicate slashes "/") +:+ String.concat "/" comps.

(** [os.path.normpath(path)] *)
Definition normpath (path : string) : string :=
  if bool_decide (path = "") then "."
  else
    let r := render (initial_slashes path) (norm_comps path) in
    if bool_decide (r = "") then "." else r.

(** The directories above a path, outermost first; the path must be normal. *)
Definition ancestors (n : string) : list string :=
  let comps := norm_comps n in
  map (fun k => render (initial_slashes n) (take k comps))
      (seq 1 (length comps - 1)).

(** ** File system calls

    Paths are resolved by normalising them: there are no symbolic links.
    The working directory and the root always exist.  The file system
    refuses an operation only when a regular file stands where a directory
    is needed or the reverse. *)

Definition is_root (n : string) : bool :=
  bool_decide (n = ".") || bool_decide (n = "/") || bool_decide (n = "//").

Definition isdir (p : string) (w : World) : bool :=
  negb (bool_decide (p = "")) &&
  (is_root (normpath p) || bool_decide (normpath p ∈ dirs w)).

Definition isfile (p : string) (w : World) : bool :=
  negb (bool_decide (p = "")) && bool_decide (is_Some (files w !! normpath p)).

(** [os.path.exists(p)] *)
Definition path_exists (p : string) : Py bool :=
  fun w => (Ok (isdir p w || isfile p w), w).

(** [os.mkdir] along a chain of normal paths, skipping existing directories. *)
Fixpoint mkdir_chain (chain : list string) : Py unit :=
  match chain with
  | [] => ret tt
  | n :: rest =>
      fun w =>
        if isfile n w then (Raise OSError, w)
        else mkdir_chain rest (set_dirs ({[ n ]} ∪ dirs w) w)
  end.

(** [os.makedirs(name, exist_ok=exist_ok)] *)
Definition makedirs (name : string) (exist_ok : bool) : Py unit :=
  fun w =>
    if bool_decide (name = "") then (Raise OSError, w)
    else if isdir name w then
      (if exist_ok then Ok tt else Raise OSError, w)
    else mkdir_chain (ancestors (normpath name) ++ [normpath name]) w.

(** [open(n, "wb").write(data)] for a normal path [n]. *)
Definition write_file (n : string) (data : list ascii) : Py unit :=
  fun w =>
    if isdir n w then (Raise OSError, w)
    else if forallb (fun a => isdir a w) (ancestors n)
    then (Ok tt, set_files (<[ n := data ]> (files w)) w)
    else (Raise OSError, w).

(** ** Archive fetcher: [ZipFile.extractall] and [download_zipped_file] *)

(** The member name with empty, [.] and [..] components removed. *)
Definition sanitize_arcname (name : string) : string :=
  String.concat "/"
    (List.filter
       (fun x => negb (bool_decide (x = "") || bool_decide (x = ".")
                       || bool_decide (x = "..")))
       (split_on "/" name)).

(** Where [extractall(path=to_dir)] puts the member called [name]. *)
Definition extract_target (to_dir name : string) : string :=
  normpath (path_join to_dir (sanitize_arcname name)).

(** [os.path.dirname] of a normal path: its innermost ancestor, if any. *)
Definition upperdirs (n : string) : option string := last (ancestors n).

(** Create the directories above [targetpath] unless they are there. *)
Definition make_upperdirs (targetpath : string) : Py unit :=
  match upperdirs targetpath with
  | Some up =>
      ex <- path_exists up ;;
      if ex then ret tt else makedirs up true
  | None => ret tt
  end.

(** [ZipFile._extract_member].  A file member whose cleaned name is empty
    is refused ([ValueError]; older interpreters fail on opening the
    directory instead). *)
Definition extract_member (to_dir : string) (member : string * list ascii)
  : Py unit :=
  let '(name, data) := member in
  let arcname := sanitize_arcname name in
  if bool_decide (arcname = "") && negb (endswith_slash name) then raise ValueError
  else
    let targetpath := normpath (path_join to_dir arcname) in
    make_upperdirs targetpath ;;;
    if endswith_slash name then
      isd <- (fun w => (Ok (isdir targetpath w), w)) ;;
      if isd then ret tt else mkdir_chain [targetpath]
    else write_file targetpath data.

(** [ZipFile.extractall(path=to_dir)] *)
Fixpoint extractall (to_dir : string) (archive : Archive) : Py unit :=
  match archive with
  | [] => ret tt
  | member :: rest => extract_member to_dir member ;;; extractall to_dir rest
  end.

(** [requests.get(url)] *)
Definition requests_get (url : string) : Py Response :=
  fun w => (archive_server w url, log_request (DownloadRequest url) w).

(** [response.raise_for_status()] *)
Definition raise_for_status (response : Response) : Py unit :=
  if (400 <=? status_code response) && (status_code response <? 600)
  then raise (HTTPError (status_code response))
  else ret tt.

(** [ZipFile(BytesIO(response.content))] *)
Definition ZipFile (response : Response) : Py Archive :=
  match content response with
  | Some archive => ret archive
  | None => raise BadZipFile
  end.

(** Lines 102-103: create [to_dir] unless something is there already. *)
Definition ensure_dir (to_dir : string) : Py unit :=
  ex <- path_exists to_dir ;;
  if ex then ret tt else makedirs to_dir false.

Definition download_zipped_file (url to_dir : string) : Py string :=
  ensure_dir to_dir ;;;
  response <- requests_get url ;;
  raise_for_status response ;;;
  zipfile <- ZipFile response ;;
  name <- lift (first_item (map fst zipfile)) ;;
  extractall to_dir zipfile ;;;
  ret (path_join to_dir name).

(** ** Lookup store: [append_to_table] and [lookup_leis]

    Table names are keys as given: they are taken to hold no double quote,
    and names that differ in letter case are kept apart. *)

Definition ns_Document : string := "urn:iso:std:iso:20022:tech:xsd:auth.017.001.02".

(** The Clark name of [Document:<local>]. *)
Definition Document (local : string) : string := "{" +:+ ns_Document +:+ "}" +:+ local.

(** XPath [//Document:RefData]: every such element of the document. *)
Definition xpath_RefData (root : Element) : list Element :=
  List.filter (fun e => bool_decide (tag e = Document "RefData"))
    (root :: descendants root).

(** XPath [Document:FinInstrmGnlAttrbts/Document:Id] relative to a record. *)
Definition xpath_Id (ref_data : Element) : list Element :=
  flat_map (xpath_child (Document "Id"))
    (xpath_child (Document "FinInstrmGnlAttrbts") ref_data).

(** XPath [Document:Issr] relative to a record. *)
Definition xpath_Issr (ref_data : Element) : list Element :=
  xpath_child (Document "Issr") ref_data.

(** The body of the [for ref_data in ...] loop: the pair it appends. *)
Definition parse_ref_data (ref_data : Element)
  : result (option string * option string) :=
  result_bind (first_item (xpath_Id ref_data)) (fun id_el =>
  let isin := text id_el in
  result_bind (first_item (xpath_Issr ref_data)) (fun issr_el =>
  let lei := text issr_el in
  Ok (isin, lei))).

Fixpoint parse_records (records : list Element)
  (args : list (option string * option string))
  : result (list (option string * option string)) :=
  match records with
  | [] => Ok args
  | ref_data :: rest =>
      result_bind (parse_ref_data ref_data) (fun pair =>
      parse_records rest (args ++ [pair]))
  end.

(** The database behind [sql.connect(db_file)]; a missing file is empty. *)
Definition database (db_file : string) (w : World) : gmap string Table :=
  default ∅ (sqlite w !! db_file).

(** [CREATE TABLE IF NOT EXISTS "<table>" (...)]: DDL is committed at once. *)
Definition create_table (db_file table : string) : Py unit :=
  fun w =>
    let db := database db_file w in
    match db !! table with
    | Some _ => (Ok tt, w)
    | None => (Ok tt, set_sqlite (<[ db_file := <[ table := [] ]> db ]> (sqlite w)) w)
    end.

Definition has_isin (isin : string) (t : Table) : bool :=
  existsb (fun r => bool_decide (r.1 = Some isin)) t.

(** [INSERT OR IGNORE INTO t (isin, lei) VALUES (?, ?)]: a row that breaks
    NOT NULL on [lei] or uniqueness of [isin] is skipped. *)
Definition insert_or_ignore (t : Table) (arg : option string * option string)
  : Table :=
  match arg with
  | (_, None) => t
  | (None, Some lei) => t ++ [(None, lei)]
  | (Some isin, Some lei) =>
      if has_isin isin t then t else t ++ [(Some isin, lei)]
  end.

(** [cursor.executemany(INSERT OR IGNORE ...)] inside the open transaction:
    [t] is the transaction's view of the table, [i] the index of the next row,
    [fault] the row at which storage fails. *)
Fixpoint executemany (fault : option nat) (i : nat) (t : Table)
  (args : list (option string * option string)) : result Table :=
  match args with
  | [] => Ok t
  | arg :: rest =>
      if bool_decide (fault = Some i) then Raise OperationalError
      else executemany fault (S i) (insert_or_ignore t arg) rest
  end.

(** [conn.commit()]: the transaction's view of [table] becomes the stored one. *)
Definition commit (db_file table : string) (t : Table) : Py unit :=
  fun w =>
    (Ok tt,
     set_sqlite (<[ db_file := <[ table := t ]> (database db_file w) ]> (sqlite w)) w).

Definition append_to_table (table xml_file db_file : string) : Py unit :=
  create_table db_file table ;;;
  root <- (fun w => (etree_parse w xml_file, w)) ;;
  args <- lift (parse_records (xpath_RefData root) []) ;;
  pending <- (fun w =>
    (executemany (storage_fault w) 0
       (default [] (database db_file w !! table)) args, w)) ;;
  commit db_file table pending.

(** [cursor.execute(SELECT lei FROM "<table>" WHERE isin=?, (i,))] followed by
    [cursor.fetchone()]: the first matching row as a 1-tuple, or [None]. *)
Definition select_lei (db_file table i : string) : Py (option string) :=
  fun w =>
    match database db_file w !! table with
    | None => (Raise OperationalError, w)
    | Some t =>
        (Ok (snd <$> head (List.filter (fun r => bool_decide (r.1 = Some i)) t)), w)
    end.

(** [row[0]] on the result of [fetchone()] *)
Definition subscript0 (row : option string) : result string :=
  match row with
  | Some lei => Ok lei
  | None => Raise TypeError
  end.

Fixpoint lookup_leis_loop (isins : list string) (table db_file : string)
  (results : list string) : Py (list string) :=
  match isins with
  | [] => ret results
  | i :: rest =>
      row <- select_lei db_file table i ;;
      lei <- lift (subscript0 row) ;;
      lookup_leis_loop rest table db_file (results ++ [lei])
  end.

Definition lookup_leis (isins : list string) (table db_file : string)
  : Py (list string) :=
  lookup_leis_loop isins table db_file [].

(** ** [get_xml_files] *)

(** [download_zipped_file(url, to_dir)] for an entry of the URL list.  An
    entry is [None] when its download link had no text; [requests] then
    refuses the URL for want of a scheme ([MissingSchema], a [ValueError])
    and sends nothing. *)
Definition download_listed (url : option string) (to_dir : string) : Py string :=
  match url with
  | Some u => download_zipped_file u to_dir
  | None => ensure_dir to_dir ;;; raise ValueError
  end.

(** [[download_zipped_file(url, data_dir) for url in urls]] *)
Fixpoint download_each (urls : list (option string)) (data_dir : string)
  : Py (list string) :=
  match urls with
  | [] => ret []
  | url :: rest =>
      fpath <- download_listed url data_dir ;;
      fpaths <- download_each rest data_dir ;;
      ret (fpath :: fpaths)
  end.

Definition get_xml_files (fuel : nat) (ftype data_dir : string)
  (from_date to_date : option datetime) (force_dl : bool) : Py (list string) :=
  ensure_dir data_dir ;;;
  urls <- get_file_urls fuel from_date to_date ftype ;;
  download_each urls data_dir.

(** * Specification-side vocabulary *)

(** ** Manifest entries and the type filter *)

Record ManifestEntry : Type := mk_ManifestEntry {
  fileName : string;
  downloadUrl : string
}.

(** The text of the first [<str name="n">] below [e], if there is one. *)
Definition field (n : string) (e : Element) : option string :=
  match xpath_str_named n e with
  | fe :: _ => text fe
  | [] => None
  end.

(** A result document that exposes both fields, read as a manifest entry. *)
Definition manifest_entry (e : Element) : option ManifestEntry :=
  match field "file_name" e, field "download_link" e with
  | Some fn, Some dl => Some (mk_ManifestEntry fn dl)
  | _, _ => None
  end.

(** The filtering rule in the spec's words: the filter is empty, or the file
    name is the fixed prefix, then a letter of the filter, then anything. *)
Definition kept (ftype fname : string) : Prop :=
  ftype = "" \/
  exists (f : ascii) (rest : string),
    In f (list_ascii_of_string ftype) /\ fname = "FULINS_" +:+ String f rest.

Definition keptb (ftype fname : string) : bool :=
  bool_decide (ftype = "")
  || existsb (fun f => String.prefix (FNAME_START f) fname) (list_ascii_of_string ftype).

(** What the parser is to return for a list of manifest entries. *)
Definition page_urls (ftype : string) (ms : list ManifestEntry) : list (option string) :=
  map (fun m => Some (downloadUrl m)) (List.filter (fun m => keptb ftype (fileName m)) ms).

(** A result document built from a manifest entry, and a page around them. *)
Definition doc_of (m : ManifestEntry) : Element :=
  Elem "doc" ∅ None
    [ Elem "str" {[ "name" := "file_name" ]} (Some (fileName m)) [];
      Elem "str" {[ "name" := "download_link" ]} (Some (downloadUrl m)) [] ].

Definition response_of (num_found : string) (docs : list Element) : Element :=
  Elem "response" ∅ None
    [ Elem "lst" {[ "name" := "responseHeader" ]} None [];
      Elem "result" (<[ "numFound" := num_found ]> {[ "name" := "response" ]}) None docs ].

(** The manifest of the spec's filter example. *)
Definition bond_and_equity : list ManifestEntry :=
  [ mk_ManifestEntry "FULINS_B_1" "http://firds/b1.zip";
    mk_ManifestEntry "FULINS_E_2" "http://firds/e2.zip" ].

(** ** Pagination *)

(** The query [_request_file_urls] sends for a window, an offset and a page size. *)
Definition search_query (from_date to_date : datetime) (start rows : Z) : Query :=
  mk_Query (year from_date) (month from_date) (day from_date)
           (year to_date) (month to_date) (day to_date) start rows.

(** The world after further requests have been logged. *)
Definition log_requests (rs : list Request) (w : World) : World :=
  mk_World (today w) (search_endpoint w) (archive_server w)
    (requests_log w ++ rs) (dirs w) (files w) (etree_parse w) (sqlite w)
    (storage_fault w).

(** A search endpoint holding the manifest [ms] answers query [q] with [root]:
    the total is the size of the manifest, and the page holds the [rows q]
    entries from offset [start q] on. *)
Definition serves (ms : list ManifestEntry) (q : Query) (root : Element) : Prop :=
  numFound root = Ok (Z.of_nat (length ms)) /\
  exists page,
    child_at root 1 = Ok page /\
    Forall2 (fun e m => manifest_entry e = Some m) (children page)
      (take (Z.to_nat (rows q)) (drop (Z.to_nat (start q)) ms)).

(** The offsets 0, R, 2R, ... up to the first one with offset + R >= N. *)
Definition page_offsets (N R : Z) : list Z :=
  map (fun k => R * Z.of_nat k) (seq 0 (S (Z.to_nat ((N - 1) / R)))).

(** [n] offsets from [start] on, [rows] apart. *)
Fixpoint offsets_from (n : nat) (start rows : Z) : list Z :=
  match n with
  | O => []
  | S n' => start :: offsets_from n' (start + rows) rows
  end.

(** Decimal numerals, for the simulated endpoint. *)
Definition digit_char (d : nat) : ascii := ascii_of_nat (48 + d).

Fixpoint decimal (fuel n : nat) (acc : string) : string :=
  match fuel with
  | O => acc
  | S fuel' =>
      let acc := String (digit_char (n mod 10)) acc in
      if (n <? 10)%nat then acc else decimal fuel' (n / 10) acc
  end.

Definition str_of_nat (n : nat) : string := decimal (S n) n "".

(** A simulated endpoint: it holds [ms] and pages through it as asked. *)
Definition simulated_endpoint (ms : list ManifestEntry) (q : Query) : result Element :=
  Ok (response_of (str_of_nat (length ms))
        (map doc_of (take (Z.to_nat (rows q)) (drop (Z.to_nat (start q)) ms)))).

(** A manifest of [n] files, numbered from [k]. *)
Fixpoint numbered_manifest (n k : nat) : list ManifestEntry :=
  match n with
  | O => []
  | S n' =>
      mk_ManifestEntry ("FULINS_E_" +:+ str_of_nat k) ("http://firds/" +:+ str_of_nat k)
      :: numbered_manifest n' (S k)
  end.

(** Wednesday 4 November 2026, 09:30. *)
Definition a_wednesday : datetime := mk_datetime 739924 34200000000.

(** A world with nothing on disk whose search endpoint holds [ms]. *)
Definition simulated_world (ms : list ManifestEntry) : World :=
  mk_World a_wednesday (simulated_endpoint ms) (fun _ => Raise ConnectionError)
    [] ∅ ∅ (fun _ => Raise OSError) ∅ None.

(** The same time of day, seven days earlier. *)
Definition week_before (d : datetime) : datetime :=
  mk_datetime (ordinal d - 7) (microsecond_of_day d).

(** The days a query covers: its first and its last, as (year, month, day). *)
Definition query_window (r : Request) : option ((Z * Z * Z) * (Z * Z * Z)) :=
  match r with
  | SearchRequest q =>
      Some ((from_year q, from_month q, from_day q), (to_year q, to_month q, to_day q))
  | DownloadRequest _ => None
  end.

Definition ymd (d : datetime) : Z * Z * Z := (year d, month d, day d).

(** ** File system changes *)

(** The world with another directory set and other files. *)
Definition with_fs (d : gset string) (f : gmap string (list ascii)) (w : World) : World :=
  set_files f (set_dirs d w).

(** [w'] differs from [w] at most in the file system, where nothing that
    existed has disappeared. *)
Definition fs_grows (w w' : World) : Prop :=
  w' = with_fs (dirs w') (files w') w
  /\ dirs w ⊆ dirs w'
  /\ dom (files w) ⊆ dom (files w').

(** The status codes [raise_for_status] rejects: client and server errors. *)
Definition non_success (status : Z) : Prop := 400 <= status < 600.

(** A world with an empty disk whose archive server answers every URL with
    [response]. *)
Definition archive_world (response : Response) : World :=
  mk_World a_wednesday (fun _ => Raise ConnectionError) (fun _ => Ok response)
    [] ∅ ∅ (fun _ => Raise OSError) ∅ None.

(** An archive holding the single file [AB.xml]. *)
Definition AB_archive : Archive := [("AB.xml", list_ascii_of_string "<BizData/>")].

(** The world in which the file system part of a download to [to_dir] of
    [archive] from [url] has run: directory step, request, extraction. *)
Definition after_download (url to_dir : string) (archive : Archive) (w : World) : World :=
  (extractall to_dir archive
     (log_request (DownloadRequest url) (ensure_dir to_dir w).2)).2.

(** The archive server of the examples answers with [AB_archive]. *)
Definition AB_world : World := archive_world (mk_Response 200 (Some AB_archive)).

(** The same server answering 404 with a body that is no archive. *)
Definition not_found_world : World := archive_world (mk_Response 404 None).

(** ** Lookup store *)

(** The committed rows of [table] in [db_file]; none if there is no such table. *)
Definition stored (db_file table : string) (w : World) : Table :=
  default [] (database db_file w !! table).

(** The rows stored for one [isin]. *)
Definition rows_of (isin : string) (t : Table) : Table :=
  List.filter (fun r => bool_decide (r.1 = Some isin)) t.

(** A record lacks a required field: no identifier element or no issuer
    element at the fixed paths. *)
Definition lacks_field (ref_data : Element) : Prop :=
  xpath_Id ref_data = [] \/ xpath_Issr ref_data = [].

(** A reference-data record with both fields. *)
Definition RefData_of (isin lei : string) : Element :=
  Elem (Document "RefData") ∅ None
    [ Elem (Document "FinInstrmGnlAttrbts") ∅ None
        [ Elem (Document "Id") ∅ (Some isin) [];
          Elem (Document "ShrtNm") ∅ (Some "N/A") [] ];
      Elem (Document "Issr") ∅ (Some lei) [] ].

(** A record with an identifier and no issuer element. *)
Definition RefData_without_Issr (isin : string) : Element :=
  Elem (Document "RefData") ∅ None
    [ Elem (Document "FinInstrmGnlAttrbts") ∅ None
        [ Elem (Document "Id") ∅ (Some isin) [] ] ].

(** A reference document around the given records. *)
Definition reference_document (records : list Element) : Element :=
  Elem "{urn:iso:std:iso:20022:tech:xsd:head.003.001.01}BizData" ∅ None
    [ Elem "{urn:iso:std:iso:20022:tech:xsd:head.003.001.01}Hdr" ∅ None
        [ Elem "{urn:iso:std:iso:20022:tech:xsd:head.001.001.01}AppHdr" ∅ None [] ];
      Elem "{urn:iso:std:iso:20022:tech:xsd:head.003.001.01}Pyld" ∅ None
        [ Elem (Document "Document") ∅ None
            [ Elem (Document "FinInstrmRptgRefDataRpt") ∅ None records ] ] ].

(** The documents on disk in the examples. *)
Definition example_documents (path : string) : result Element :=
  if bool_decide (path = "a.xml") then
    Ok (reference_document [RefData_of "DE0001" "LEI-A"])
  else if bool_decide (path = "b.xml") then
    Ok (reference_document [RefData_of "DE0001" "LEI-B"])
  else if bool_decide (path = "xz.xml") then
    Ok (reference_document [RefData_of "X" "LEI-X"; RefData_of "Z" "LEI-Z"])
  else if bool_decide (path = "broken.xml") then
    Ok (reference_document
          [RefData_of "X" "LEI-X"; RefData_without_Issr "Y"; RefData_of "Z" "LEI-Z"])
  else Raise OSError.

(** A world with those documents, the given tables in [firds.db], and the
    given storage fault. *)
Definition store_world (tables : gmap string Table) (fault : option nat) : World :=
  mk_World a_wednesday (fun _ => Raise ConnectionError) (fun _ => Raise ConnectionError)
    [] ∅ ∅ example_documents {[ "firds.db" := tables ]} fault.

Definition DEFAULT_DB_FILE : string := "firds.db".

(** The world after a call of [append_to_table]. *)
Definition after_append (table xml_file db_file : string) (w : World) : World :=
  (append_to_table table xml_file db_file w).2.

(** A store whose table [equities] knows X and Z, and not Y. *)
Definition xz_world : World :=
  store_world {[ "equities" := [(Some "X", "LEI-X"); (Some "Z", "LEI-Z")] ]} None.

(** What one page request of [get_file_urls] yields: the answer of the
    endpoint to the query at [offset], parsed under the filter. *)
Definition fetch_page (endpoint : Query -> result Element)
  (from_date to_date : datetime) (ftype : string) (rows offset : Z)
  : result (list (option string)) :=
  result_bind (endpoint (search_query from_date to_date offset rows))
    (fun root => _parse_file_urls root ftype).

(** A search endpoint that reports 10000 files on its first page and 0 on
    every other, and serves three numbered entries on each page. *)
Definition boasting_endpoint (q : Query) : result Element :=
  Ok (response_of (if start q =? 0 then "10000" else "0")
        (map doc_of (numbered_manifest 3 (Z.to_nat (start q))))).

Definition boasting_world : World :=
  mk_World a_wednesday boasting_endpoint (fun _ => Raise ConnectionError)
    [] ∅ ∅ (fun _ => Raise OSError) ∅ None.

(** An endpoint that holds 250 entries and loses the connection at offset 200. *)
Definition failing_endpoint (q : Query) : result Element :=
  if start q =? 200 then Raise ConnectionError
  else simulated_endpoint (numbered_manifest 250 0) q.

Definition failing_world : World :=
  mk_World a_wednesday failing_endpoint (fun _ => Raise ConnectionError)
    [] ∅ ∅ (fun _ => Raise OSError) ∅ None.

(** A server that cannot be reached. *)
Definition unreachable_world : World :=
  mk_World a_wednesday (fun _ => Raise ConnectionError) (fun _ => Raise ConnectionError)
    [] ∅ ∅ (fun _ => Raise OSError) ∅ None.

(** An archive whose second member has no name left once cleaned. *)
Definition half_good_archive : Archive :=
  [("AB.xml", list_ascii_of_string "<BizData/>"); ("..", []); ("CD.xml", [])].

Definition half_good_world : World :=
  archive_world (mk_Response 200 (Some half_good_archive)).

(** The URL names an archive whose first member is [name]; [fpath] is where
    [download_zipped_file] says it put it under [data_dir]. *)
Definition fetched_from (w : World) (data_dir url fpath : string) : Prop :=
  exists (response : Response) (name : string) (data : list ascii) (rest : Archive),
    archive_server w url = Ok response
    /\ content response = Some ((name, data) :: rest)
    /\ fpath = path_join data_dir name.

(** A world whose search endpoint holds the bond and the equity file and
    whose archive server answers every URL with [AB_archive]. *)
Definition pipeline_world : World :=
  mk_World a_wednesday (simulated_endpoint bond_and_equity)
    (fun _ => Ok (mk_Response 200 (Some AB_archive)))
    [] ∅ ∅ (fun _ => Raise OSError) ∅ None.

(** The same manifest, with an archive server that knows the bond file only. *)
Definition bond_only_world : World :=
  mk_World a_wednesday (simulated_endpoint bond_and_equity)
    (fun url => if bool_decide (url = "http://firds/b1.zip")
                then Ok (mk_Response 200 (Some AB_archive))
                else Ok (mk_Response 404 None))
    [] ∅ ∅ (fun _ => Raise OSError) ∅ None.

(** The identifiers a table holds, in row order; NULL keys are left out. *)
Definition keys (t : Table) : list string := omap fst t.

(** The identifiers of a batch, in document order. *)
Definition batch_isins (args : list (option string * option string)) : list string :=
  omap fst args.

(** * Properties *)

(** ** Strings *)

Lemma append_cons (c : ascii) (p r : string) :
  String c p +:+ r = String c (p +:+ r).
Proof. reflexivity. Qed.

Lemma prefix_app (p s : string) :
  String.prefix p s = true <-> exists rest, s = p +:+ rest.
Proof.
  revert s. induction p as [|c p IH]; intros s; simpl.
  - split; [intros _; exists s; reflexivity | intros _; destruct s; reflexivity].
  - destruct s as [|d s]; simpl.
    + split; [discriminate | intros [rest H]; discriminate].
    + destruct (Ascii.ascii_dec c d) as [->|Hne].
      * rewrite IH.
        split; intros [rest H]; exists rest; rewrite append_cons in *; congruence.
      * split; [discriminate | intros [rest H]; rewrite append_cons in H; congruence].
Qed.

Lemma keptb_kept (ftype fname : string) :
  keptb ftype fname = true <-> kept ftype fname.
Proof.
  unfold keptb, kept. rewrite orb_true_iff, bool_decide_eq_true, existsb_exists.
  split; (intros [H|H]; [left; exact H | right]).
  - destruct H as (f & Hin & Hp). apply prefix_app in Hp as [rest ->].
    exists f, rest. split; [exact Hin | reflexivity].
  - destruct H as (f & rest & Hin & ->). exists f. split; [exact Hin|].
    apply prefix_app. exists rest. reflexivity.
Qed.

(** ** Manifest parser *)

Lemma any_startswith_Some (s : string) (l : list ascii) :
  any_startswith (Some s) l
  = Ok (existsb (fun f => String.prefix (FNAME_START f) s) l).
Proof.
  induction l as [|f l IH]; simpl; [reflexivity|].
  destruct (String.prefix (FNAME_START f) s); simpl; [reflexivity | exact IH].
Qed.

Lemma parse_entry_manifest (ftype : string) (e : Element) (m : ManifestEntry) :
  manifest_entry e = Some m ->
  parse_entry ftype e = Ok (page_urls ftype [m]).
Proof.
  unfold manifest_entry, field, parse_entry, page_urls.
  destruct (xpath_str_named "file_name" e) as [|fe fes]; [discriminate|].
  destruct (text fe) as [fn|] eqn:Hfn; [|discriminate].
  destruct (xpath_str_named "download_link" e) as [|ue ues]; [discriminate|].
  destruct (text ue) as [dl|] eqn:Hdl; [|discriminate].
  intros [= <-]. simpl. unfold keptb.
  case_bool_decide as Hft; simpl.
  - rewrite Hdl. reflexivity.
  - rewrite Hfn, any_startswith_Some. simpl.
    destruct (existsb _ _); simpl; [rewrite Hdl|]; reflexivity.
Qed.

Lemma page_urls_app (ftype : string) (a b : list ManifestEntry) :
  page_urls ftype (a ++ b) = page_urls ftype a ++ page_urls ftype b.
Proof. unfold page_urls. rewrite List.filter_app, map_app. reflexivity. Qed.

Lemma parse_entries_manifest (ftype : string) (es : list Element)
  (ms : list ManifestEntry) (urls : list (option string)) :
  Forall2 (fun e m => manifest_entry e = Some m) es ms ->
  parse_entries ftype es urls = Ok (urls ++ page_urls ftype ms).
Proof.
  intros H. revert urls. induction H as [|e m es ms Hem _ IH]; intros urls; simpl.
  - rewrite app_nil_r. reflexivity.
  - rewrite (parse_entry_manifest _ _ _ Hem). simpl. rewrite IH.
    change (m :: ms) with ([m] ++ ms). rewrite page_urls_app, app_assoc.
    reflexivity.
Qed.

Lemma parse_file_urls_manifest (ftype : string) (root page : Element)
  (ms : list ManifestEntry) :
  child_at root 1 = Ok page ->
  Forall2 (fun e m => manifest_entry e = Some m) (children page) ms ->
  _parse_file_urls root ftype = Ok (page_urls ftype ms).
Proof.
  intros Hp Hms. unfold _parse_file_urls. rewrite Hp. simpl.
  apply (parse_entries_manifest ftype _ _ [] Hms).
Qed.

(** C6.  On a page whose result documents each expose a file name and a
    download link, [_parse_file_urls] returns, in page order, the download
    links of exactly the entries the filter keeps, and it raises nothing;
    an entry is kept if and only if the filter is empty or its file name is
    ["FULINS_"] followed by a letter of the filter. *)
Theorem parse_file_urls_filter (root page : Element) (ms : list ManifestEntry)
  (ftype : string) :
  child_at root 1 = Ok page ->
  Forall2 (fun e m => manifest_entry e = Some m) (children page) ms ->
  _parse_file_urls root ftype
  = Ok (map (fun m => Some (downloadUrl m))
          (List.filter (fun m => keptb ftype (fileName m)) ms))
  /\ (forall m, keptb ftype (fileName m) = true <-> kept ftype (fileName m)).
Proof.
  intros Hp Hms. split.
  - exact (parse_file_urls_manifest ftype root page ms Hp Hms).
  - intros m. apply keptb_kept.
Qed.

Lemma parse_file_urls_filter_witness :
  _parse_file_urls (response_of "2" (map doc_of bond_and_equity)) "B"
  = Ok [Some "http://firds/b1.zip"]
  /\ (forall m, keptb "B" (fileName m) = true <-> kept "B" (fileName m)).
Proof.
  apply (parse_file_urls_filter
           (response_of "2" (map doc_of bond_and_equity))
           (Elem "result" (<[ "numFound" := "2" ]> {[ "name" := "response" ]}) None
              (map doc_of bond_and_equity))
           bond_and_equity "B").
  - reflexivity.
  - repeat constructor.
Defined.

Example parse_file_urls_no_filter :
  _parse_file_urls (response_of "2" (map doc_of bond_and_equity)) ""
  = Ok [Some "http://firds/b1.zip"; Some "http://firds/e2.zip"].
Proof. vm_compute. reflexivity. Qed.

Example parse_file_urls_two_letters :
  _parse_file_urls (response_of "2" (map doc_of bond_and_equity)) "EB"
  = Ok [Some "http://firds/b1.zip"; Some "http://firds/e2.zip"].
Proof. vm_compute. reflexivity. Qed.

(** A filtered-out document needs no download link; a kept one does. *)
Example parse_file_urls_missing_link :
  let doc := Elem "doc" ∅ None
               [Elem "str" {[ "name" := "file_name" ]} (Some "FULINS_E_2") []] in
  _parse_file_urls (response_of "1" [doc]) "B" = Ok []
  /\ _parse_file_urls (response_of "1" [doc]) "E" = Raise IndexError.
Proof. vm_compute. split; reflexivity. Qed.

(** ** Date range paginator *)

Lemma log_requests_nil (w : World) : log_requests [] w = w.
Proof. destruct w. unfold log_requests. simpl. rewrite app_nil_r. reflexivity. Qed.

Lemma log_requests_cons (r : Request) (rs : list Request) (w : World) :
  log_requests rs (log_request r w) = log_requests (r :: rs) w.
Proof.
  unfold log_requests, log_request. simpl. rewrite <- app_assoc. reflexivity.
Qed.

Lemma default_window_world (from_date to_date : option datetime) (w : World) :
  (default_window from_date to_date w).2 = w.
Proof.
  unfold default_window, bind, datetime_today, lift, ret.
  destruct from_date as [f|]; [destruct to_date; reflexivity|].
  simpl. destruct (datetime_sub _ _); reflexivity.
Qed.

Lemma offsets_from_closed (n : nat) (start rows : Z) :
  offsets_from n start rows = map (fun k => start + rows * Z.of_nat k) (seq 0 n).
Proof.
  revert start. induction n as [|n IH]; intros start; simpl; [reflexivity|].
  f_equal; [lia|]. rewrite IH, <- seq_shift, map_map.
  apply map_ext. intros k. lia.
Qed.

Lemma iterations_done (N start rows : Z) :
  0 < rows -> N <= start + rows -> Z.to_nat ((N - start - 1) / rows) = 0%nat.
Proof.
  intros Hr Hle.
  assert ((N - start - 1) / rows < 1) by (apply Z.div_lt_upper_bound; lia).
  lia.
Qed.

Lemma iterations_more (N start rows : Z) :
  0 < rows -> start + rows < N ->
  Z.to_nat ((N - start - 1) / rows)
  = S (Z.to_nat ((N - (start + rows) - 1) / rows)).
Proof.
  intros Hr Hlt.
  replace (N - start - 1) with ((N - (start + rows) - 1) + 1 * rows) by lia.
  rewrite Z.div_add by lia.
  assert (0 <= (N - (start + rows) - 1) / rows) by (apply Z.div_pos; lia).
  lia.
Qed.

(** The loop against an endpoint that serves the manifest [ms]: it asks for
    the remaining pages, one request each, and appends what the filter keeps. *)
Lemma get_file_urls_loop_serves (ms : list ManifestEntry)
  (endpoint : Query -> result Element) (from_date to_date : datetime)
  (ftype : string) (rows : Z) :
  0 < rows ->
  (forall q, exists root, endpoint q = Ok root /\ serves ms q root) ->
  forall (fuel : nat) (start : Z) (urls : list (option string)) (w : World),
    search_endpoint w = endpoint ->
    0 <= start ->
    (Z.to_nat ((Z.of_nat (length ms) - start - 1) / rows) <= fuel)%nat ->
    get_file_urls_loop fuel from_date to_date ftype (Z.of_nat (length ms))
      start rows urls w
    = (Ok (urls ++ page_urls ftype (drop (Z.to_nat (start + rows)) ms)),
       log_requests
         (map (fun o => SearchRequest (search_query from_date to_date o rows))
            (offsets_from (Z.to_nat ((Z.of_nat (length ms) - start - 1) / rows))
               (start + rows) rows))
         w).
Proof.
  intros Hrows Hserve fuel.
  induction fuel as [|fuel IH]; intros start urls w Hw Hstart Hfuel.
  - assert (Hn : Z.to_nat ((Z.of_nat (length ms) - start - 1) / rows) = 0%nat) by lia.
    rewrite Hn. simpl. rewrite log_requests_nil.
    destruct (Z.gtb_spec (Z.of_nat (length ms)) (start + rows)) as [Hgt|Hle].
    + rewrite iterations_more in Hn by lia. discriminate.
    + unfold ret. rewrite drop_ge by lia. unfold page_urls. simpl.
      rewrite app_nil_r. reflexivity.
  - simpl.
    destruct (Z.gtb_spec (Z.of_nat (length ms)) (start + rows)) as [Hgt|Hle].
    + rewrite iterations_more in Hfuel |- * by lia. simpl offsets_from.
      destruct (Hserve (search_query from_date to_date (start + rows) rows))
        as (root & Hroot & _ & page & Hpage & Hdocs).
      unfold search_query in Hdocs. simpl in Hdocs.
      unfold bind at 1. unfold _request_file_urls at 1. rewrite Hw.
      fold (search_query from_date to_date (start + rows) rows). rewrite Hroot.
      unfold bind at 1. unfold lift at 1.
      rewrite (parse_file_urls_manifest ftype root page _ Hpage Hdocs).
      rewrite IH by (simpl; lia || assumption).
      simpl map. rewrite log_requests_cons. f_equal. f_equal.
      rewrite <- app_assoc, <- page_urls_app. f_equal. f_equal.
      replace (Z.to_nat (start + rows + rows))
        with (Z.to_nat (start + rows) + Z.to_nat rows)%nat by lia.
      rewrite <- drop_drop. apply take_drop.
    + rewrite iterations_done by lia. simpl. rewrite log_requests_nil.
      unfold ret. rewrite drop_ge by lia. unfold page_urls. simpl.
      rewrite app_nil_r. reflexivity.
Qed.

Lemma page_offsets_from (N R : Z) :
  page_offsets N R = 0 :: offsets_from (Z.to_nat ((N - 1) / R)) R R.
Proof.
  unfold page_offsets. change (seq 0 (S ?n)) with (0%nat :: seq 1 n).
  simpl map. f_equal; [lia|].
  rewrite offsets_from_closed, <- seq_shift, map_map.
  apply map_ext. intros k. lia.
Qed.

Lemma page_offsets_stop (N : Z) (k : nat) (o : Z) :
  page_offsets N 100 !! k = Some o ->
  o = 100 * Z.of_nat k /\
  (N <= o + 100 <-> S k = length (page_offsets N 100)).
Proof.
  unfold page_offsets. rewrite length_map, length_seq, list_lookup_fmap.
  intros H. destruct (seq 0 _ !! k) as [j|] eqn:Hj; [|discriminate].
  apply lookup_seq in Hj as [-> Hlt]. simpl in H. injection H as <-.
  split; [reflexivity|].
  pose proof (Z.div_mod (N - 1) 100 ltac:(lia)) as Hdm.
  pose proof (Z.mod_pos_bound (N - 1) 100 ltac:(lia)) as Hmb.
  lia.
Qed.

Lemma page_urls_no_filter (ms : list ManifestEntry) :
  page_urls "" ms = map (fun m => Some (downloadUrl m)) ms.
Proof.
  unfold page_urls. f_equal. induction ms as [|m ms IH]; [reflexivity|].
  simpl. rewrite IH. reflexivity.
Qed.

(** C3.  Against an endpoint that holds [N] entries and serves them a page
    at a time, [get_file_urls] (page size 100) returns, given fuel for its
    loop, what the filter keeps of all [N] entries in page order, having sent
    one request per offset 0, 100, 200, ... and no other; the offset at
    position [k] is [100 * k], and the last offset is the first one with
    offset + 100 >= N.  With an empty filter the result is the download
    links of all [N] entries. *)
Theorem get_file_urls_paginates (ms : list ManifestEntry) (w : World)
  (from_date to_date : option datetime) (f t : datetime) (ftype : string)
  (fuel : nat) :
  default_window from_date to_date w = (Ok (f, t), w) ->
  (forall q, exists root, search_endpoint w q = Ok root /\ serves ms q root) ->
  (Z.to_nat (Z.of_nat (length ms) / 100) <= fuel)%nat ->
  get_file_urls fuel from_date to_date ftype w
  = (Ok (page_urls ftype ms),
     log_requests
       (map (fun o => SearchRequest (search_query f t o 100))
          (page_offsets (Z.of_nat (length ms)) 100))
       w)
  /\ (forall (k : nat) (o : Z),
        page_offsets (Z.of_nat (length ms)) 100 !! k = Some o ->
        o = 100 * Z.of_nat k /\
        (Z.of_nat (length ms) <= o + 100
         <-> S k = length (page_offsets (Z.of_nat (length ms)) 100)))
  /\ (ftype = "" ->
      page_urls ftype ms = map (fun m => Some (downloadUrl m)) ms
      /\ length (page_urls ftype ms) = length ms).
Proof.
  intros Hwin Hserve Hfuel. split; [|split].
  - unfold get_file_urls. unfold bind at 1. rewrite Hwin.
    destruct (Hserve (search_query f t 0 100))
      as (root & Hroot & Hnum & page & Hpage & Hdocs).
    unfold search_query in Hdocs. simpl in Hdocs. rewrite drop_0 in Hdocs.
    unfold bind at 1. unfold _request_file_urls at 1.
    fold (search_query f t 0 100). rewrite Hroot.
    unfold bind at 1. unfold lift at 1. rewrite Hnum.
    unfold bind at 1. unfold lift at 1.
    rewrite (parse_file_urls_manifest ftype root page _ Hpage Hdocs).
    rewrite (get_file_urls_loop_serves ms (search_endpoint w) f t ftype 100
               ltac:(lia) Hserve fuel 0 _
               (log_request (SearchRequest (search_query f t 0 100)) w)
               eq_refl ltac:(lia)).
    + rewrite log_requests_cons, page_offsets_from. simpl map.
      rewrite <- page_urls_app.
      change (Z.to_nat (0 + 100)) with (Z.to_nat 100).
      rewrite (take_drop (Z.to_nat 100) ms).
      replace (Z.of_nat (length ms) - 0 - 1) with (Z.of_nat (length ms) - 1) by lia.
      reflexivity.
    + assert ((Z.of_nat (length ms) - 0 - 1) / 100 <= Z.of_nat (length ms) / 100)
        by (apply Z.div_le_mono; lia).
      lia.
  - intros k o. apply page_offsets_stop.
  - intros ->. split; [apply page_urls_no_filter|].
    rewrite page_urls_no_filter. apply length_map.
Qed.

Lemma manifest_entry_doc_of (m : ManifestEntry) : manifest_entry (doc_of m) = Some m.
Proof. destruct m as [fn dl]. reflexivity. Qed.

Lemma simulated_endpoint_serves (ms : list ManifestEntry) :
  int_of_str (str_of_nat (length ms)) = Ok (Z.of_nat (length ms)) ->
  forall q, exists root, simulated_endpoint ms q = Ok root /\ serves ms q root.
Proof.
  intros Hnum q. eexists. split; [reflexivity|]. split.
  - unfold numFound, response_of, child_at. simpl.
    rewrite lookup_insert_eq. exact Hnum.
  - eexists. split; [reflexivity|]. simpl.
    induction (take _ _) as [|m l IH]; constructor.
    + apply manifest_entry_doc_of.
    + exact IH.
Qed.

Lemma get_file_urls_paginates_witness :
  get_file_urls 2 (Some a_wednesday) (Some a_wednesday) ""
    (simulated_world (numbered_manifest 250 0))
  = (Ok (page_urls "" (numbered_manifest 250 0)),
     log_requests
       (map (fun o => SearchRequest (search_query a_wednesday a_wednesday o 100))
          (page_offsets (Z.of_nat (length (numbered_manifest 250 0))) 100))
       (simulated_world (numbered_manifest 250 0)))
  /\ (forall (k : nat) (o : Z),
        page_offsets (Z.of_nat (length (numbered_manifest 250 0))) 100 !! k = Some o ->
        o = 100 * Z.of_nat k /\
        (Z.of_nat (length (numbered_manifest 250 0)) <= o + 100
         <-> S k = length (page_offsets (Z.of_nat (length (numbered_manifest 250 0))) 100)))
  /\ ("" = "" ->
      page_urls "" (numbered_manifest 250 0)
      = map (fun m => Some (downloadUrl m)) (numbered_manifest 250 0)
      /\ length (page_urls "" (numbered_manifest 250 0))
         = length (numbered_manifest 250 0)).
Proof.
  apply (get_file_urls_paginates (numbered_manifest 250 0)
           (simulated_world (numbered_manifest 250 0))
           (Some a_wednesday) (Some a_wednesday) a_wednesday a_wednesday "" 2).
  - reflexivity.
  - apply simulated_endpoint_serves. vm_compute. reflexivity.
  - vm_compute. lia.
Defined.

(** The spec's end-to-end case: total 250, page size 100. *)
Example get_file_urls_250 :
  let run := get_file_urls 2 (Some a_wednesday) (Some a_wednesday) ""
               (simulated_world (numbered_manifest 250 0)) in
  map (fun r => match r with SearchRequest q => Some (start q, rows q) | _ => None end)
    (requests_log run.2)
  = [Some (0, 100); Some (100, 100); Some (200, 100)]
  /\ (exists urls, run.1 = Ok urls /\ length urls = 250%nat).
Proof.
  split; [vm_compute; reflexivity|].
  eexists. split; [vm_compute; reflexivity|]. reflexivity.
Qed.

(** An exact multiple of the page size: 200 entries take two requests. *)
Example get_file_urls_200 :
  map (fun r => match r with SearchRequest q => Some (start q) | _ => None end)
    (requests_log
       (get_file_urls 1 (Some a_wednesday) (Some a_wednesday) ""
          (simulated_world (numbered_manifest 200 0))).2)
  = [Some 0; Some 100].
Proof. vm_compute. reflexivity. Qed.

(** Without fuel for the second page the run does not finish. *)
Example get_file_urls_fuel :
  (get_file_urls 1 (Some a_wednesday) (Some a_wednesday) ""
     (simulated_world (numbered_manifest 250 0))).1 = OutOfFuel.
Proof. vm_compute. reflexivity. Qed.

(** ** The time window *)

(** Whatever the endpoint answers, every request of the loop is a search
    request for the window the loop was entered with. *)
Lemma get_file_urls_loop_log (from_date to_date : datetime) (ftype : string)
  (N rows : Z) (fuel : nat) :
  forall (start : Z) (urls : list (option string)) (w : World),
  exists offsets,
    requests_log
      (get_file_urls_loop fuel from_date to_date ftype N start rows urls w).2
    = requests_log w
      ++ map (fun o => SearchRequest (search_query from_date to_date o rows)) offsets.
Proof.
  induction fuel as [|fuel IH]; intros start urls w; simpl.
  - exists []. simpl. rewrite app_nil_r. destruct (N >? start + rows); reflexivity.
  - destruct (N >? start + rows).
    2: { exists []. simpl. rewrite app_nil_r. reflexivity. }
    unfold bind at 1. unfold _request_file_urls at 1.
    fold (search_query from_date to_date (start + rows) rows).
    destruct (search_endpoint w _) as [root|e|].
    2,3: exists [start + rows]; reflexivity.
    unfold bind at 1. unfold lift at 1.
    destruct (_parse_file_urls root ftype) as [new|e|].
    2,3: exists [start + rows]; reflexivity.
    destruct (IH (start + rows) (urls ++ new)
                (log_request (SearchRequest
                   (search_query from_date to_date (start + rows) rows)) w))
      as [offsets Hlog].
    exists ((start + rows) :: offsets). rewrite Hlog. simpl.
    rewrite <- app_assoc. reflexivity.
Qed.

Lemma get_file_urls_log (from_date to_date : option datetime) (f t : datetime)
  (ftype : string) (fuel : nat) (w : World) :
  default_window from_date to_date w = (Ok (f, t), w) ->
  exists offsets,
    requests_log (get_file_urls fuel from_date to_date ftype w).2
    = requests_log w
      ++ map (fun o => SearchRequest (search_query f t o 100)) (0 :: offsets).
Proof.
  intros Hwin. unfold get_file_urls. unfold bind at 1. rewrite Hwin.
  unfold bind at 1. unfold _request_file_urls at 1.
  fold (search_query f t 0 100).
  destruct (search_endpoint w _) as [root|e|].
  2,3: exists []; reflexivity.
  unfold bind at 1. unfold lift at 1.
  destruct (numFound root) as [N|e|].
  2,3: exists []; reflexivity.
  unfold bind at 1. unfold lift at 1.
  destruct (_parse_file_urls root ftype) as [urls|e|].
  2,3: exists []; reflexivity.
  destruct (get_file_urls_loop_log f t ftype N 100 fuel 0 urls
              (log_request (SearchRequest (search_query f t 0 100)) w))
    as [offsets Hlog].
  exists offsets. rewrite Hlog. simpl. rewrite <- app_assoc. reflexivity.
Qed.

Lemma default_window_today (to_date : option datetime) (w : World) :
  8 <= ordinal (today w) <= MAXORDINAL ->
  default_window None to_date w = (Ok (week_before (today w), today w), w).
Proof.
  intros Hrange. unfold default_window, bind, datetime_today, lift, ret.
  unfold datetime_sub, timedelta_weeks, week_before.
  replace (ordinal (today w) - 7 * 1) with (ordinal (today w) - 7) by lia.
  destruct (Z.leb_spec 1 (ordinal (today w) - 7)); [|lia].
  destruct (Z.leb_spec (ordinal (today w) - 7) MAXORDINAL); [|unfold MAXORDINAL in *; lia].
  reflexivity.
Qed.

Lemma search_query_window (f t : datetime) (o r : Z) :
  query_window (SearchRequest (search_query f t o r)) = Some (ymd f, ymd t).
Proof. reflexivity. Qed.

Lemma requests_window (f t : datetime) (offsets : list Z) (old new : list Request) :
  new = old ++ map (fun o => SearchRequest (search_query f t o 100)) (0 :: offsets) ->
  exists sent, new = old ++ sent /\ sent <> [] /\
    Forall (fun r => query_window r = Some (ymd f, ymd t)) sent.
Proof.
  intros ->. eexists. split; [reflexivity|]. split; [discriminate|].
  apply Forall_forall. intros r Hin. apply list_elem_of_In, in_map_iff in Hin.
  destruct Hin as (o & <- & _). apply search_query_window.
Qed.

(** C9.  With no dates given, the window runs from the same time one week
    before today to today; with only [from_date] given, it runs from
    [from_date] to [from_date].  In both cases [get_file_urls] sends at
    least one request, and each request it sends is for the days of that
    window: from today's date minus seven days to today's date in the first
    case, from and to the date of [from_date] in the second. *)
Theorem default_window_defaults (w : World) (f : datetime) (ftype : string)
  (fuel : nat) :
  8 <= ordinal (today w) <= MAXORDINAL ->
  (default_window None None w = (Ok (week_before (today w), today w), w)
   /\ ordinal (week_before (today w)) = ordinal (today w) - 7
   /\ exists sent,
        requests_log (get_file_urls fuel None None ftype w).2
        = requests_log w ++ sent
        /\ sent <> []
        /\ Forall (fun r => query_window r
                            = Some (ymd (week_before (today w)), ymd (today w))) sent)
  /\
  (default_window (Some f) None w = (Ok (f, f), w)
   /\ exists sent,
        requests_log (get_file_urls fuel (Some f) None ftype w).2
        = requests_log w ++ sent
        /\ sent <> []
        /\ Forall (fun r => query_window r = Some (ymd f, ymd f)) sent).
Proof.
  intros Hrange. split; [split; [|split]|split].
  - apply default_window_today. exact Hrange.
  - reflexivity.
  - destruct (get_file_urls_log None None _ _ ftype fuel w
                (default_window_today None w Hrange)) as [offsets Hlog].
    exact (requests_window _ _ offsets _ _ Hlog).
  - reflexivity.
  - destruct (get_file_urls_log (Some f) None f f ftype fuel w eq_refl)
      as [offsets Hlog].
    exact (requests_window _ _ offsets _ _ Hlog).
Qed.

Lemma default_window_defaults_witness :
  (default_window None None (simulated_world bond_and_equity)
   = (Ok (mk_datetime 739917 34200000000, a_wednesday), simulated_world bond_and_equity)
   /\ ordinal (week_before a_wednesday) = 739924 - 7
   /\ exists sent,
        requests_log (get_file_urls 0 None None "B" (simulated_world bond_and_equity)).2
        = [] ++ sent
        /\ sent <> []
        /\ Forall (fun r => query_window r
                            = Some (ymd (week_before a_wednesday), ymd a_wednesday)) sent)
  /\
  (default_window (Some a_wednesday) None (simulated_world bond_and_equity)
   = (Ok (a_wednesday, a_wednesday), simulated_world bond_and_equity)
   /\ exists sent,
        requests_log
          (get_file_urls 0 (Some a_wednesday) None "B" (simulated_world bond_and_equity)).2
        = [] ++ sent
        /\ sent <> []
        /\ Forall (fun r => query_window r = Some (ymd a_wednesday, ymd a_wednesday)) sent).
Proof.
  apply (default_window_defaults (simulated_world bond_and_equity) a_wednesday "B" 0).
  vm_compute. split; discriminate.
Defined.

(** On 4 November 2026 the default query covers 28 October to 4 November. *)
Example default_query_dates :
  map query_window
    (requests_log (get_file_urls 0 None None "" (simulated_world bond_and_equity)).2)
  = [Some ((2026, 10, 28), (2026, 11, 4))].
Proof. vm_compute. reflexivity. Qed.

(** C10.  With [from_date] absent, a supplied [to_date] is not used: the
    window is again one week before today to today, the call behaves exactly
    as the call without dates, and each request it sends is for the days from
    today's date minus seven days to today's date. *)
Theorem to_date_without_from_date (w : World) (t : datetime) (ftype : string)
  (fuel : nat) :
  8 <= ordinal (today w) <= MAXORDINAL ->
  default_window None (Some t) w = (Ok (week_before (today w), today w), w)
  /\ get_file_urls fuel None (Some t) ftype w = get_file_urls fuel None None ftype w
  /\ exists sent,
       requests_log (get_file_urls fuel None (Some t) ftype w).2
       = requests_log w ++ sent
       /\ sent <> []
       /\ Forall (fun r => query_window r
                           = Some (ymd (week_before (today w)), ymd (today w))) sent.
Proof.
  intros Hrange. split; [|split].
  - apply default_window_today. exact Hrange.
  - reflexivity.
  - destruct (get_file_urls_log None (Some t) _ _ ftype fuel w
                (default_window_today (Some t) w Hrange)) as [offsets Hlog].
    exact (requests_window _ _ offsets _ _ Hlog).
Qed.

(** 15 October 2017, midnight: [FIRST_FIRDS_DATE]. *)
Lemma to_date_without_from_date_witness :
  default_window None (Some (mk_datetime 736617 0)) (simulated_world bond_and_equity)
  = (Ok (week_before a_wednesday, a_wednesday), simulated_world bond_and_equity)
  /\ get_file_urls 0 None (Some (mk_datetime 736617 0)) "" (simulated_world bond_and_equity)
     = get_file_urls 0 None None "" (simulated_world bond_and_equity)
  /\ exists sent,
       requests_log
         (get_file_urls 0 None (Some (mk_datetime 736617 0)) ""
            (simulated_world bond_and_equity)).2
       = [] ++ sent
       /\ sent <> []
       /\ Forall (fun r => query_window r
                           = Some (ymd (week_before a_wednesday), ymd a_wednesday)) sent.
Proof.
  apply (to_date_without_from_date (simulated_world bond_and_equity)
           (mk_datetime 736617 0) "" 0).
  vm_compute. split; discriminate.
Defined.

Example to_date_is_dropped :
  map query_window
    (requests_log
       (get_file_urls 0 None (Some (mk_datetime 736617 0)) ""
          (simulated_world bond_and_equity)).2)
  = [Some ((2026, 10, 28), (2026, 11, 4))].
Proof. vm_compute. reflexivity. Qed.

(** ** File system steps *)

Lemma with_fs_same (w : World) : with_fs (dirs w) (files w) w = w.
Proof. destruct w. reflexivity. Qed.

Lemma fs_grows_refl (w : World) : fs_grows w w.
Proof. split; [symmetry; apply with_fs_same | split; reflexivity]. Qed.

Lemma fs_grows_trans (w1 w2 w3 : World) :
  fs_grows w1 w2 -> fs_grows w2 w3 -> fs_grows w1 w3.
Proof.
  intros (E12 & D12 & F12) (E23 & D23 & F23). split; [|split].
  - rewrite E23 at 1. rewrite E12. reflexivity.
  - set_solver.
  - set_solver.
Qed.

Lemma fs_grows_log (r : Request) (w w' : World) :
  fs_grows w w' -> fs_grows (log_request r w) (log_request r w').
Proof.
  intros (E & D & F). split; [|split; assumption].
  rewrite E at 1. reflexivity.
Qed.

Lemma fs_grows_isdir (p : string) (w w' : World) :
  fs_grows w w' -> isdir p w = true -> isdir p w' = true.
Proof.
  intros (_ & D & _). unfold isdir.
  rewrite !andb_true_iff, !orb_true_iff, !bool_decide_eq_true.
  intros [Hp [Hr|Hd]]; (split; [exact Hp|]); [left; exact Hr | right; set_solver].
Qed.

Lemma fs_grows_isfile (p : string) (w w' : World) :
  fs_grows w w' -> isfile p w = true -> isfile p w' = true.
Proof.
  intros (_ & _ & F). unfold isfile.
  rewrite !andb_true_iff, !bool_decide_eq_true.
  intros [Hp Hf]. split; [exact Hp|].
  apply elem_of_dom. apply elem_of_dom in Hf. set_solver.
Qed.

Lemma mkdir_chain_spec (chain : list string) :
  forall (w : World),
    let run := mkdir_chain chain w in
    files run.2 = files w
    /\ fs_grows w run.2
    /\ (run.1 = Ok tt \/ run.1 = Raise OSError)
    /\ (run.1 = Ok tt -> dirs run.2 = list_to_set chain ∪ dirs w).
Proof.
  induction chain as [|n chain IH]; intros w; simpl.
  - split; [reflexivity|]. split; [apply fs_grows_refl|].
    split; [left; reflexivity|]. intros _. set_solver.
  - destruct (isfile n w).
    + simpl. split; [reflexivity|]. split; [apply fs_grows_refl|].
      split; [right; reflexivity | discriminate].
    + specialize (IH (set_dirs ({[n]} ∪ dirs w) w)).
      simpl in IH. destruct IH as (Hf & Hg & Hr & Hd).
      split; [exact Hf|]. split; [|split; [exact Hr|]].
      * apply (fs_grows_trans _ (set_dirs ({[n]} ∪ dirs w) w)); [|exact Hg].
        split; [|split]; simpl; [|set_solver|reflexivity].
        destruct w. reflexivity.
      * intros Hok. rewrite (Hd Hok). simpl. set_solver.
Qed.

Lemma makedirs_spec (name : string) (exist_ok : bool) (w : World) :
  let run := makedirs name exist_ok w in
  files run.2 = files w
  /\ fs_grows w run.2
  /\ (run.1 = Ok tt \/ run.1 = Raise OSError)
  /\ (run.1 = Ok tt -> isdir name run.2 = true).
Proof.
  unfold makedirs. case_bool_decide as Hname.
  { simpl. split; [reflexivity|]. split; [apply fs_grows_refl|].
    split; [right; reflexivity | discriminate]. }
  destruct (isdir name w) eqn:Hd.
  { simpl. split; [reflexivity|]. split; [apply fs_grows_refl|].
    split; [destruct exist_ok; [left|right]; reflexivity|]. intros _. exact Hd. }
  destruct (mkdir_chain_spec (ancestors (normpath name) ++ [normpath name]) w)
    as (Hf & Hg & Hr & Hdirs).
  split; [exact Hf|]. split; [exact Hg|]. split; [exact Hr|].
  intros Hok. specialize (Hdirs Hok). unfold isdir.
  rewrite andb_true_iff, orb_true_iff, negb_true_iff, !bool_decide_eq_true.
  split; [apply bool_decide_eq_false; exact Hname|]. right.
  rewrite Hdirs, list_to_set_app_L.
  apply elem_of_union_l, elem_of_union_r. simpl.
  apply elem_of_union_l, elem_of_singleton. reflexivity.
Qed.

Lemma ensure_dir_spec (to_dir : string) (w : World) :
  let run := ensure_dir to_dir w in
  files run.2 = files w
  /\ fs_grows w run.2
  /\ (run.1 = Ok tt \/ run.1 = Raise OSError)
  /\ (run.1 = Ok tt -> isdir to_dir run.2 || isfile to_dir run.2 = true)
  /\ (run.1 = Ok tt -> isdir to_dir w || isfile to_dir w = false ->
      isdir to_dir run.2 = true).
Proof.
  unfold ensure_dir, bind, path_exists.
  destruct (isdir to_dir w || isfile to_dir w) eqn:Hex.
  - simpl. split; [reflexivity|]. split; [apply fs_grows_refl|].
    split; [left; reflexivity|]. split; [intros _; exact Hex | discriminate].
  - destruct (makedirs_spec to_dir false w) as (Hf & Hg & Hr & Hd).
    split; [exact Hf|]. split; [exact Hg|]. split; [exact Hr|].
    split; [intros Hok; rewrite (Hd Hok); reflexivity | intros Hok _; exact (Hd Hok)].
Qed.

Lemma make_upperdirs_spec (targetpath : string) (w : World) :
  let run := make_upperdirs targetpath w in
  files run.2 = files w
  /\ fs_grows w run.2
  /\ (run.1 = Ok tt \/ run.1 = Raise OSError).
Proof.
  unfold make_upperdirs. destruct (upperdirs targetpath) as [up|].
  - unfold bind, path_exists. destruct (isdir up w || isfile up w).
    + simpl. split; [reflexivity|]. split; [apply fs_grows_refl | left; reflexivity].
    + destruct (makedirs_spec up true w) as (Hf & Hg & Hr & _).
      split; [exact Hf|]. split; [exact Hg | exact Hr].
  - simpl. split; [reflexivity|]. split; [apply fs_grows_refl | left; reflexivity].
Qed.

Lemma write_file_spec (n : string) (data : list ascii) (w : World) :
  let run := write_file n data w in
  fs_grows w run.2
  /\ (run.1 = Ok tt \/ run.1 = Raise OSError)
  /\ (run.1 = Ok tt -> files run.2 = <[ n := data ]> (files w)).
Proof.
  unfold write_file. destruct (isdir n w).
  { simpl. split; [apply fs_grows_refl|]. split; [right; reflexivity | discriminate]. }
  destruct (forallb _ _).
  - simpl. split; [|split; [left; reflexivity | reflexivity]].
    split; [|split]; simpl; [destruct w; reflexivity | reflexivity |].
    rewrite dom_insert_L. set_solver.
  - simpl. split; [apply fs_grows_refl|]. split; [right; reflexivity | discriminate].
Qed.

Lemma extract_member_spec (to_dir name : string) (data : list ascii) (w : World) :
  let run := extract_member to_dir (name, data) w in
  fs_grows w run.2
  /\ run.1 <> OutOfFuel
  /\ (run.1 = Ok tt ->
      files run.2
      = if endswith_slash name then files w
        else <[ extract_target to_dir name := data ]> (files w)).
Proof.
  unfold extract_member, extract_target.
  destruct (bool_decide (sanitize_arcname name = "") && negb (endswith_slash name)).
  { unfold raise. simpl. split; [apply fs_grows_refl|]. split; discriminate. }
  set (targetpath := normpath (path_join to_dir (sanitize_arcname name))).
  unfold bind.
  destruct (make_upperdirs_spec targetpath w) as (Hf1 & Hg1 & Hr1).
  destruct (make_upperdirs targetpath w) as [r1 w1]. simpl in Hf1, Hg1, Hr1.
  destruct Hr1 as [-> | ->].
  2: { simpl. split; [exact Hg1|]. split; discriminate. }
  destruct (endswith_slash name).
  - destruct (isdir targetpath w1).
    + simpl. split; [exact Hg1|]. split; [discriminate|]. intros _. exact Hf1.
    + destruct (mkdir_chain_spec [targetpath] w1) as (Hf2 & Hg2 & Hr2 & _).
      split; [exact (fs_grows_trans _ _ _ Hg1 Hg2)|].
      split; [destruct Hr2 as [-> | ->]; discriminate|].
      intros _. rewrite Hf2. exact Hf1.
  - destruct (write_file_spec targetpath data w1) as (Hg2 & Hr2 & Hf2).
    split; [exact (fs_grows_trans _ _ _ Hg1 Hg2)|].
    split; [destruct Hr2 as [-> | ->]; discriminate|].
    intros Hok. rewrite (Hf2 Hok), Hf1. reflexivity.
Qed.

Lemma extractall_cons (to_dir : string) (member : string * list ascii)
  (rest : Archive) (w : World) :
  extractall to_dir (member :: rest) w
  = match extract_member to_dir member w with
    | (Ok _, w') => extractall to_dir rest w'
    | (Raise e, w') => (Raise e, w')
    | (OutOfFuel, w') => (OutOfFuel, w')
    end.
Proof. reflexivity. Qed.

Lemma extractall_grows (to_dir : string) (archive : Archive) :
  forall w, fs_grows w (extractall to_dir archive w).2
            /\ (extractall to_dir archive w).1 <> OutOfFuel.
Proof.
  induction archive as [|[name data] rest IH]; intros w.
  - split; [apply fs_grows_refl | discriminate].
  - rewrite extractall_cons.
    destruct (extract_member_spec to_dir name data w) as (Hg & Hr & _).
    destruct (extract_member to_dir (name, data) w) as [[[]|e|] w1];
      cbn [fst snd] in Hg, Hr |- *.
    + destruct (IH w1) as [Hg' Hr'].
      split; [exact (fs_grows_trans _ _ _ Hg Hg') | exact Hr'].
    + split; [exact Hg | discriminate].
    + contradiction.
Qed.

(** A successful extraction leaves a path alone unless a file member of the
    archive is extracted to it. *)
Lemma extractall_other (to_dir key : string) (archive : Archive) :
  forall w,
    (extractall to_dir archive w).1 = Ok tt ->
    Forall (fun m => extract_target to_dir m.1 <> key) archive ->
    files (extractall to_dir archive w).2 !! key = files w !! key.
Proof.
  induction archive as [|[name data] rest IH]; intros w Hok Hne.
  - reflexivity.
  - apply Forall_cons in Hne as [Hne1 Hne]. cbn [fst] in Hne1.
    rewrite extractall_cons in Hok |- *.
    destruct (extract_member_spec to_dir name data w) as (_ & _ & Hf).
    destruct (extract_member to_dir (name, data) w) as [[[]|e|] w1];
      cbn [fst snd] in Hf, Hok |- *; try discriminate.
    rewrite (IH w1 Hok Hne), (Hf eq_refl).
    destruct (endswith_slash name); [reflexivity|].
    apply lookup_insert_ne. exact Hne1.
Qed.

(** A successful extraction writes every file member to its target, where
    it stays unless a later member goes to the same target. *)
Lemma extractall_member (to_dir name : string) (data : list ascii)
  (before after : Archive) :
  forall w,
    (extractall to_dir (before ++ (name, data) :: after) w).1 = Ok tt ->
    endswith_slash name = false ->
    Forall (fun m => extract_target to_dir m.1 <> extract_target to_dir name) after ->
    files (extractall to_dir (before ++ (name, data) :: after) w).2
      !! extract_target to_dir name = Some data.
Proof.
  induction before as [|[n d] before IH]; intros w Hok Hfile Hafter.
  - change ([] ++ ?l) with l in Hok |- *.
    rewrite extractall_cons in Hok |- *.
    destruct (extract_member_spec to_dir name data w) as (_ & _ & Hf).
    destruct (extract_member to_dir (name, data) w) as [[[]|e|] w1];
      cbn [fst snd] in Hf, Hok |- *; try discriminate.
    rewrite (extractall_other _ _ _ w1 Hok Hafter), (Hf eq_refl), Hfile.
    apply lookup_insert_eq.
  - change (((n, d) :: before) ++ ?l) with ((n, d) :: (before ++ l)) in Hok |- *.
    rewrite extractall_cons in Hok |- *.
    destruct (extract_member to_dir (n, d) w) as [[[]|e|] w1];
      cbn [fst snd] in Hok |- *; try discriminate.
    apply IH; assumption.
Qed.

(** ** Archive fetcher *)

Lemma fs_grows_env (w w' : World) :
  fs_grows w w' ->
  archive_server w' = archive_server w /\ requests_log w' = requests_log w.
Proof. intros (E & _ & _). rewrite E. split; reflexivity. Qed.

(** The steps of [download_zipped_file] up to the status check. *)
Lemma download_zipped_file_request (w : World) (url to_dir : string)
  (response : Response) :
  (ensure_dir to_dir w).1 = Ok tt ->
  archive_server w url = Ok response ->
  download_zipped_file url to_dir w
  = bind (raise_for_status response)
      (fun _ =>
         zipfile <- ZipFile response ;;
         name <- lift (first_item (map fst zipfile)) ;;
         extractall to_dir zipfile ;;;
         ret (path_join to_dir name))
      (log_request (DownloadRequest url) (ensure_dir to_dir w).2).
Proof.
  intros Hdir Hget. unfold download_zipped_file.
  destruct (ensure_dir_spec to_dir w) as (_ & Hg & _).
  apply fs_grows_env in Hg as [Hsrv _].
  unfold bind at 1. destruct (ensure_dir to_dir w) as [r w1].
  cbn [fst snd] in Hdir, Hsrv |- *. subst r.
  unfold bind at 1. unfold requests_get at 1. rewrite Hsrv, Hget. reflexivity.
Qed.

(** C8.  When the directory step has gone through and the server answers
    with a client or server error status, [download_zipped_file] raises
    [HTTPError], a NetworkError, straight after the one request it sent: the
    world is the one left by the directory step with that request logged, so
    no file has been written. *)
Theorem download_zipped_file_error_status (w : World) (url to_dir : string)
  (response : Response) :
  (ensure_dir to_dir w).1 = Ok tt ->
  archive_server w url = Ok response ->
  non_success (status_code response) ->
  (download_zipped_file url to_dir w).1 = Raise (HTTPError (status_code response))
  /\ is_NetworkError (HTTPError (status_code response)) = true
  /\ (download_zipped_file url to_dir w).2
     = log_request (DownloadRequest url) (ensure_dir to_dir w).2
  /\ files (download_zipped_file url to_dir w).2 = files w
  /\ requests_log (download_zipped_file url to_dir w).2
     = requests_log w ++ [DownloadRequest url].
Proof.
  intros Hdir Hget [Hlo Hhi].
  rewrite (download_zipped_file_request w url to_dir response Hdir Hget).
  unfold bind, raise_for_status.
  destruct (Z.leb_spec 400 (status_code response)); [|lia].
  destruct (Z.ltb_spec (status_code response) 600); [|lia].
  cbn [andb raise fst snd].
  destruct (ensure_dir_spec to_dir w) as (Hf & Hg & _).
  apply fs_grows_env in Hg as [_ Hlog].
  split; [reflexivity|]. split; [reflexivity|]. split; [reflexivity|].
  split; [exact Hf|]. cbn [log_request requests_log]. rewrite Hlog. reflexivity.
Qed.

Lemma download_zipped_file_error_status_witness :
  (download_zipped_file "http://firds/AB.zip" "D" not_found_world).1
  = Raise (HTTPError 404)
  /\ is_NetworkError (HTTPError 404) = true
  /\ (download_zipped_file "http://firds/AB.zip" "D" not_found_world).2
     = log_request (DownloadRequest "http://firds/AB.zip")
         (ensure_dir "D" not_found_world).2
  /\ files (download_zipped_file "http://firds/AB.zip" "D" not_found_world).2 = ∅
  /\ requests_log (download_zipped_file "http://firds/AB.zip" "D" not_found_world).2
     = [] ++ [DownloadRequest "http://firds/AB.zip"].
Proof.
  apply (download_zipped_file_error_status not_found_world
           "http://firds/AB.zip" "D" (mk_Response 404 None)).
  - vm_compute. reflexivity.
  - reflexivity.
  - unfold non_success. simpl. lia.
Defined.

(** C7.  When the file system refuses nothing and the server answers with a
    status that is no error and an archive with at least one member,
    [download_zipped_file] returns [to_dir] joined with the name of the first
    member.  Afterwards [to_dir] exists, as a directory if nothing was there
    before, and every file member of the archive is stored at its target
    under [to_dir], unless a later member has the same target. *)
Theorem download_zipped_file_extracts (w : World) (url to_dir : string)
  (response : Response) (name : string) (data : list ascii) (rest : Archive) :
  (ensure_dir to_dir w).1 = Ok tt ->
  archive_server w url = Ok response ->
  ~ non_success (status_code response) ->
  content response = Some ((name, data) :: rest) ->
  (extractall to_dir ((name, data) :: rest)
     (log_request (DownloadRequest url) (ensure_dir to_dir w).2)).1 = Ok tt ->
  download_zipped_file url to_dir w
  = (Ok (path_join to_dir name), after_download url to_dir ((name, data) :: rest) w)
  /\ isdir to_dir (after_download url to_dir ((name, data) :: rest) w)
     || isfile to_dir (after_download url to_dir ((name, data) :: rest) w) = true
  /\ (isdir to_dir w || isfile to_dir w = false ->
      isdir to_dir (after_download url to_dir ((name, data) :: rest) w) = true)
  /\ (forall (before after : Archive) (n : string) (d : list ascii),
        (name, data) :: rest = before ++ (n, d) :: after ->
        endswith_slash n = false ->
        Forall (fun m => extract_target to_dir m.1 <> extract_target to_dir n) after ->
        files (after_download url to_dir ((name, data) :: rest) w)
          !! extract_target to_dir n = Some d).
Proof.
  intros Hdir Hget Hstatus Hzip Hext. unfold after_download.
  set (w1 := log_request (DownloadRequest url) (ensure_dir to_dir w).2) in *.
  destruct (ensure_dir_spec to_dir w) as (_ & _ & _ & Hex & Hnew).
  destruct (extractall_grows to_dir ((name, data) :: rest) w1) as [Hg _].
  split; [|split; [|split]].
  - rewrite (download_zipped_file_request w url to_dir response Hdir Hget).
    fold w1. unfold bind at 1. unfold raise_for_status.
    assert ((400 <=? status_code response) && (status_code response <? 600) = false)
      as ->.
    { unfold non_success in Hstatus. apply andb_false_iff.
      destruct (Z.leb_spec 400 (status_code response)); [|left; reflexivity].
      destruct (Z.ltb_spec (status_code response) 600); [lia | right; reflexivity]. }
    cbn [ret]. unfold bind at 1. unfold ZipFile. rewrite Hzip. cbn [ret].
    unfold bind at 1. cbn [lift map fst first_item].
    unfold bind at 1.
    destruct (extractall to_dir ((name, data) :: rest) w1) as [r w2].
    cbn [fst snd] in Hext |- *. subst r. reflexivity.
  - specialize (Hex Hdir). apply orb_true_iff in Hex. apply orb_true_iff.
    destruct Hex as [Hd|Hf]; [left | right].
    + apply (fs_grows_isdir _ w1); [exact Hg|]. exact Hd.
    + apply (fs_grows_isfile _ w1); [exact Hg|]. exact Hf.
  - intros Hnone. apply (fs_grows_isdir _ w1); [exact Hg|].
    exact (Hnew Hdir Hnone).
  - intros before after n d Hsplit Hfile Hafter. rewrite Hsplit in Hext |- *.
    apply extractall_member; assumption.
Qed.

Lemma download_zipped_file_extracts_witness :
  download_zipped_file "http://firds/AB.zip" "D" AB_world
  = (Ok (path_join "D" "AB.xml"),
     after_download "http://firds/AB.zip" "D" AB_archive AB_world)
  /\ isdir "D" (after_download "http://firds/AB.zip" "D" AB_archive AB_world)
     || isfile "D" (after_download "http://firds/AB.zip" "D" AB_archive AB_world) = true
  /\ (isdir "D" AB_world || isfile "D" AB_world = false ->
      isdir "D" (after_download "http://firds/AB.zip" "D" AB_archive AB_world) = true)
  /\ (forall (before after : Archive) (n : string) (d : list ascii),
        AB_archive = before ++ (n, d) :: after ->
        endswith_slash n = false ->
        Forall (fun m => extract_target "D" m.1 <> extract_target "D" n) after ->
        files (after_download "http://firds/AB.zip" "D" AB_archive AB_world)
          !! extract_target "D" n = Some d).
Proof.
  apply (download_zipped_file_extracts AB_world "http://firds/AB.zip" "D"
           (mk_Response 200 (Some AB_archive))
           "AB.xml" (list_ascii_of_string "<BizData/>") []).
  - vm_compute. reflexivity.
  - reflexivity.
  - unfold non_success. simpl. lia.
  - reflexivity.
  - vm_compute. reflexivity.
Defined.

(** The spec's extraction case: the single file [AB.xml], extracted to [D]. *)
Example download_AB :
  let run := download_zipped_file "http://firds/AB.zip" "D" AB_world in
  run.1 = Ok "D/AB.xml"
  /\ files run.2 !! "D/AB.xml" = Some (list_ascii_of_string "<BizData/>")
  /\ isdir "D" run.2 = true
  /\ requests_log run.2 = [DownloadRequest "http://firds/AB.zip"].
Proof. vm_compute. repeat split; reflexivity. Qed.

(** The returned path is built from the member name as listed, the file is
    stored under the cleaned name. *)
Example download_dotted_name :
  let run := download_zipped_file "u" "D"
               (archive_world (mk_Response 200 (Some [("../x/AB.xml", [])]))) in
  run.1 = Ok "D/../x/AB.xml"
  /\ files run.2 !! "D/x/AB.xml" = Some []
  /\ files run.2 !! "x/AB.xml" = None.
Proof. vm_compute. repeat split; reflexivity. Qed.

(** An archive without members: nothing to name. *)
Example download_empty_archive :
  (download_zipped_file "u" "D" (archive_world (mk_Response 200 (Some [])))).1
  = Raise IndexError.
Proof. vm_compute. reflexivity. Qed.

(** No destination: [os.makedirs] refuses the empty path before any request. *)
Example download_empty_to_dir :
  let run := download_zipped_file "u" "" AB_world in
  run.1 = Raise OSError /\ requests_log run.2 = [].
Proof. vm_compute. split; reflexivity. Qed.

(** ** Lookup store *)

Lemma executemany_fold (fault : option nat) (args : list (option string * option string)) :
  forall (i : nat) (t : Table),
    executemany fault i t args = Ok (fold_left insert_or_ignore args t)
    \/ executemany fault i t args = Raise OperationalError.
Proof.
  induction args as [|arg args IH]; intros i t; simpl.
  - left. reflexivity.
  - case_bool_decide; [right; reflexivity | apply IH].
Qed.

Lemma executemany_no_fault (args : list (option string * option string)) :
  forall (i : nat) (t : Table),
    executemany None i t args = Ok (fold_left insert_or_ignore args t).
Proof.
  induction args as [|arg args IH]; intros i t; simpl; [reflexivity | apply IH].
Qed.

Lemma parse_ref_data_cases (ref_data : Element) :
  (lacks_field ref_data /\ parse_ref_data ref_data = Raise IndexError)
  \/ (~ lacks_field ref_data /\ exists pair, parse_ref_data ref_data = Ok pair).
Proof.
  unfold parse_ref_data, lacks_field.
  destruct (xpath_Id ref_data) as [|id_el ids]; simpl.
  { left. split; [left|]; reflexivity. }
  destruct (xpath_Issr ref_data) as [|issr_el issrs]; simpl.
  { left. split; [right|]; reflexivity. }
  right. split; [intros [H|H]; discriminate | eexists; reflexivity].
Qed.

Lemma parse_records_lacking (records : list Element) :
  Exists lacks_field records ->
  forall args, parse_records records args = Raise IndexError.
Proof.
  induction records as [|r records IH]; intros Hex args.
  - apply Exists_nil in Hex. contradiction.
  - simpl. destruct (parse_ref_data_cases r) as [[_ ->] | [Hok [pair ->]]].
    + reflexivity.
    + simpl. apply IH. apply Exists_cons in Hex as [H|H]; [contradiction | exact H].
Qed.

Lemma stored_set_sqlite (db_file table : string) (t : Table)
  (db : gmap string Table) (w : World) :
  stored db_file table (set_sqlite (<[ db_file := <[ table := t ]> db ]> (sqlite w)) w) = t.
Proof.
  unfold stored, database. simpl. rewrite lookup_insert_eq. simpl.
  rewrite lookup_insert_eq. reflexivity.
Qed.

Lemma create_table_spec (db_file table : string) (w : World) :
  (create_table db_file table w).1 = Ok tt
  /\ stored db_file table (create_table db_file table w).2 = stored db_file table w
  /\ etree_parse (create_table db_file table w).2 = etree_parse w
  /\ storage_fault (create_table db_file table w).2 = storage_fault w.
Proof.
  unfold create_table. destruct (database db_file w !! table) as [t|] eqn:Ht.
  - repeat split; reflexivity.
  - split; [reflexivity|]. split; [|split; reflexivity].
    cbn [snd]. rewrite stored_set_sqlite. unfold stored.
    unfold Table, Row in *. rewrite Ht. reflexivity.
Qed.

(** What one call of [append_to_table] does, case by case. *)
Lemma append_to_table_run (table xml_file db_file : string) (w : World) :
  let w0 := (create_table db_file table w).2 in
  append_to_table table xml_file db_file w
  = match etree_parse w xml_file with
    | Ok root =>
        match parse_records (xpath_RefData root) [] with
        | Ok args =>
            match executemany (storage_fault w) 0 (stored db_file table w) args with
            | Ok pending => (commit db_file table pending w0)
            | Raise e => (Raise e, w0)
            | OutOfFuel => (OutOfFuel, w0)
            end
        | Raise e => (Raise e, w0)
        | OutOfFuel => (OutOfFuel, w0)
        end
    | Raise e => (Raise e, w0)
    | OutOfFuel => (OutOfFuel, w0)
    end.
Proof.
  intros w0. unfold append_to_table.
  destruct (create_table_spec db_file table w) as (Hok & Hst & Hparse & Hfault).
  unfold bind at 1. fold w0 in Hok, Hst, Hparse, Hfault.
  destruct (create_table db_file table w) as [r w0'] eqn:Hc.
  cbn [fst snd] in Hok, w0. subst r w0.
  unfold bind at 1. rewrite Hparse.
  destruct (etree_parse w xml_file) as [root|e|]; try reflexivity.
  unfold bind at 1. unfold lift at 1.
  destruct (parse_records (xpath_RefData root) []) as [args|e|]; try reflexivity.
  unfold bind at 1. rewrite Hfault. fold (stored db_file table w0'). rewrite Hst.
  destruct (executemany _ _ _ _) as [pending|e|]; reflexivity.
Qed.

Lemma commit_spec (db_file table : string) (t : Table) (w : World) :
  (commit db_file table t w).1 = Ok tt
  /\ stored db_file table (commit db_file table t w).2 = t
  /\ etree_parse (commit db_file table t w).2 = etree_parse w
  /\ storage_fault (commit db_file table t w).2 = storage_fault w.
Proof.
  unfold commit. cbn [fst snd]. split; [reflexivity|].
  split; [apply stored_set_sqlite | split; reflexivity].
Qed.

(** A call leaves the documents on disk and the storage fault as they were. *)
Lemma append_to_table_env (table xml_file db_file : string) (w : World) :
  etree_parse (append_to_table table xml_file db_file w).2 = etree_parse w
  /\ storage_fault (append_to_table table xml_file db_file w).2 = storage_fault w.
Proof.
  rewrite append_to_table_run.
  destruct (create_table_spec db_file table w) as (_ & _ & Hparse & Hfault).
  destruct (etree_parse w xml_file) as [root|e|]; [|split; assumption..].
  destruct (parse_records _ _) as [args|e|]; [|split; assumption..].
  destruct (executemany _ _ _ _) as [pending|e|]; [|split; assumption..].
  destruct (commit_spec db_file table pending (create_table db_file table w).2)
    as (_ & _ & Hp & Hf).
  split; congruence.
Qed.

(** C5.  A call of [append_to_table] either returns, and then the stored
    table is the old one with every record of the file inserted (or ignored
    on conflict) in document order, or it does not return, and then the
    stored table has the rows it had before: this covers a file that cannot
    be read or parsed, a record without its fields, and a storage failure at
    any row of the bulk insert. *)
Theorem append_to_table_atomic (table xml_file db_file : string) (w : World) :
  ((append_to_table table xml_file db_file w).1 = Ok tt
   /\ exists root args,
        etree_parse w xml_file = Ok root
        /\ parse_records (xpath_RefData root) [] = Ok args
        /\ stored db_file table (append_to_table table xml_file db_file w).2
           = fold_left insert_or_ignore args (stored db_file table w))
  \/
  ((append_to_table table xml_file db_file w).1 <> Ok tt
   /\ stored db_file table (append_to_table table xml_file db_file w).2
      = stored db_file table w).
Proof.
  rewrite append_to_table_run.
  destruct (create_table_spec db_file table w) as (_ & Hst & _ & _).
  destruct (etree_parse w xml_file) as [root|e|] eqn:Hroot;
    [|right; split; [discriminate | exact Hst]..].
  destruct (parse_records (xpath_RefData root) []) as [args|e|] eqn:Hargs;
    [|right; split; [discriminate | exact Hst]..].
  destruct (executemany_fold (storage_fault w) args 0 (stored db_file table w))
    as [-> | ->].
  - left.
    destruct (commit_spec db_file table
                (fold_left insert_or_ignore args (stored db_file table w))
                (create_table db_file table w).2) as (Hok & Hstored & _ & _).
    split; [exact Hok|]. exists root, args.
    split; [reflexivity|]. split; [exact Hargs | exact Hstored].
  - right. split; [discriminate | exact Hst].
Qed.

(** A storage failure at the second of two rows: the first is not kept. *)
Example append_to_table_fault :
  let run := append_to_table "equities" "xz.xml" DEFAULT_DB_FILE
               (store_world ∅ (Some 1%nat)) in
  run.1 = Raise OperationalError
  /\ stored DEFAULT_DB_FILE "equities" run.2 = []
  /\ (lookup_leis ["X"] "equities" DEFAULT_DB_FILE run.2).1 = Raise TypeError.
Proof. vm_compute. repeat split; reflexivity. Qed.

(** The table itself is created before the file is read. *)
Example append_to_table_creates_table :
  let run := append_to_table "equities" "missing.xml" DEFAULT_DB_FILE
               (store_world ∅ None) in
  run.1 = Raise OSError
  /\ database DEFAULT_DB_FILE run.2 !! "equities" = Some [].
Proof. vm_compute. split; reflexivity. Qed.

(** C4.  If some reference-data record of the document has no identifier
    element or no issuer element, [append_to_table] raises [IndexError] for
    the whole file and the stored table keeps the rows it had: no record of
    the file is inserted, whether it comes before or after the one at fault. *)
Theorem append_to_table_all_or_nothing (table xml_file db_file : string)
  (w : World) (root : Element) :
  etree_parse w xml_file = Ok root ->
  Exists lacks_field (xpath_RefData root) ->
  (append_to_table table xml_file db_file w).1 = Raise IndexError
  /\ stored db_file table (append_to_table table xml_file db_file w).2
     = stored db_file table w.
Proof.
  intros Hroot Hlack. rewrite append_to_table_run, Hroot.
  rewrite (parse_records_lacking _ Hlack []).
  destruct (create_table_spec db_file table w) as (_ & Hst & _ & _).
  split; [reflexivity | exact Hst].
Qed.

Lemma append_to_table_all_or_nothing_witness :
  (append_to_table "equities" "broken.xml" DEFAULT_DB_FILE (store_world ∅ None)).1
  = Raise IndexError
  /\ stored DEFAULT_DB_FILE "equities"
       (append_to_table "equities" "broken.xml" DEFAULT_DB_FILE (store_world ∅ None)).2
     = stored DEFAULT_DB_FILE "equities" (store_world ∅ None).
Proof.
  apply (append_to_table_all_or_nothing "equities" "broken.xml" DEFAULT_DB_FILE
           (store_world ∅ None)
           (reference_document
              [RefData_of "X" "LEI-X"; RefData_without_Issr "Y"; RefData_of "Z" "LEI-Z"])).
  - reflexivity.
  - change (Exists lacks_field
              [RefData_of "X" "LEI-X"; RefData_without_Issr "Y"; RefData_of "Z" "LEI-Z"]).
    apply Exists_cons_tl, Exists_cons_hd. right. reflexivity.
Defined.

(** The spec's parsing case: X and Z have both fields, Y has no issuer. *)
Example append_to_table_broken :
  let run := append_to_table "equities" "broken.xml" DEFAULT_DB_FILE
               (store_world ∅ None) in
  run.1 = Raise IndexError /\ stored DEFAULT_DB_FILE "equities" run.2 = [].
Proof. vm_compute. split; reflexivity. Qed.

(** *** Insert-or-ignore *)

Lemma rows_of_app (isin : string) (a b : Table) :
  rows_of isin (a ++ b) = rows_of isin a ++ rows_of isin b.
Proof. apply List.filter_app. Qed.

Lemma has_isin_false_rows (isin : string) (t : Table) :
  has_isin isin t = false -> rows_of isin t = [].
Proof.
  induction t as [|r t IH]; simpl; [reflexivity|].
  intros H. apply orb_false_iff in H as [Hr Ht]. rewrite Hr. exact (IH Ht).
Qed.

Lemma has_isin_app (isin : string) (a b : Table) :
  has_isin isin (a ++ b) = has_isin isin a || has_isin isin b.
Proof. apply existsb_app. Qed.

Lemma insert_or_ignore_known (isin : string) (t : Table)
  (arg : option string * option string) :
  has_isin isin t = true ->
  has_isin isin (insert_or_ignore t arg) = true
  /\ rows_of isin (insert_or_ignore t arg) = rows_of isin t.
Proof.
  intros Hin. destruct arg as [[j|] [l|]]; simpl; try (split; [exact Hin | reflexivity]).
  - destruct (has_isin j t) eqn:Hj; [split; [exact Hin | reflexivity]|].
    rewrite has_isin_app, Hin, rows_of_app. split; [reflexivity|].
    simpl. case_bool_decide as Heq; [|apply app_nil_r].
    injection Heq as ->. congruence.
  - rewrite has_isin_app, Hin, rows_of_app. split; [reflexivity|].
    simpl. apply app_nil_r.
Qed.

(** First write wins, for any later batch: the rows of a stored identifier
    survive every bulk insert unchanged. *)
Lemma fold_insert_or_ignore_known (isin : string)
  (args : list (option string * option string)) :
  forall t,
    has_isin isin t = true ->
    rows_of isin (fold_left insert_or_ignore args t) = rows_of isin t.
Proof.
  induction args as [|arg args IH]; intros t Hin; simpl; [reflexivity|].
  destruct (insert_or_ignore_known isin t arg Hin) as [Hin' Hrows].
  rewrite (IH _ Hin'). exact Hrows.
Qed.

Lemma append_to_table_ok (table xml_file db_file : string) (w : World)
  (root : Element) (args : list (option string * option string)) :
  storage_fault w = None ->
  etree_parse w xml_file = Ok root ->
  parse_records (xpath_RefData root) [] = Ok args ->
  (append_to_table table xml_file db_file w).1 = Ok tt
  /\ stored db_file table (after_append table xml_file db_file w)
     = fold_left insert_or_ignore args (stored db_file table w).
Proof.
  intros Hfault Hroot Hargs. unfold after_append.
  rewrite append_to_table_run, Hroot, Hargs, Hfault, executemany_no_fault.
  destruct (commit_spec db_file table
              (fold_left insert_or_ignore args (stored db_file table w))
              (create_table db_file table w).2) as (Hok & Hst & _).
  split; assumption.
Qed.

Lemma after_append_env (table xml_file db_file : string) (w : World) :
  etree_parse (after_append table xml_file db_file w) = etree_parse w
  /\ storage_fault (after_append table xml_file db_file w) = storage_fault w.
Proof. apply append_to_table_env. Qed.

(** C2.  Take a table without [isin], a file holding the one pair
    ([isin], [lei_a]) and a file holding the one pair ([isin], [lei_b]), and
    storage that does not fail.  Appending the first file stores one row;
    appending it again changes nothing; appending the second file afterwards
    changes nothing either.  All three calls return, and the table holds
    exactly one row for [isin], with [lei_a]. *)
Theorem append_to_table_first_write_wins (w : World)
  (table db_file xml_a xml_b : string) (root_a root_b : Element)
  (isin lei_a lei_b : string) :
  storage_fault w = None ->
  etree_parse w xml_a = Ok root_a ->
  parse_records (xpath_RefData root_a) [] = Ok [(Some isin, Some lei_a)] ->
  etree_parse w xml_b = Ok root_b ->
  parse_records (xpath_RefData root_b) [] = Ok [(Some isin, Some lei_b)] ->
  has_isin isin (stored db_file table w) = false ->
  let w1 := after_append table xml_a db_file w in
  let w2 := after_append table xml_a db_file w1 in
  let w3 := after_append table xml_b db_file w2 in
  ((append_to_table table xml_a db_file w).1 = Ok tt
   /\ (append_to_table table xml_a db_file w1).1 = Ok tt
   /\ (append_to_table table xml_b db_file w2).1 = Ok tt)
  /\ stored db_file table w1 = stored db_file table w ++ [(Some isin, lei_a)]
  /\ stored db_file table w2 = stored db_file table w1
  /\ stored db_file table w3 = stored db_file table w1
  /\ rows_of isin (stored db_file table w2) = [(Some isin, lei_a)]
  /\ rows_of isin (stored db_file table w3) = [(Some isin, lei_a)].
Proof.
  intros Hfault Ha Hargs_a Hb Hargs_b Hnew w1 w2 w3.
  destruct (after_append_env table xml_a db_file w) as [Hp1 Hf1]. fold w1 in Hp1, Hf1.
  destruct (after_append_env table xml_a db_file w1) as [Hp2 Hf2]. fold w2 in Hp2, Hf2.
  destruct (append_to_table_ok table xml_a db_file w root_a _ Hfault Ha Hargs_a)
    as [Hok1 Hst1]. fold w1 in Hst1. cbn [fold_left insert_or_ignore] in Hst1.
  rewrite Hnew in Hst1.
  assert (Hin1 : has_isin isin (stored db_file table w1) = true).
  { rewrite Hst1, has_isin_app. simpl. rewrite bool_decide_eq_true_2 by reflexivity.
    rewrite orb_true_r. reflexivity. }
  destruct (append_to_table_ok table xml_a db_file w1 root_a
              [(Some isin, Some lei_a)]) as [Hok2 Hst2];
    [congruence | congruence | exact Hargs_a |].
  fold w2 in Hst2. cbn [fold_left insert_or_ignore] in Hst2.
  rewrite Hin1 in Hst2.
  destruct (append_to_table_ok table xml_b db_file w2 root_b
              [(Some isin, Some lei_b)]) as [Hok3 Hst3];
    [congruence | congruence | exact Hargs_b |].
  fold w3 in Hst3. cbn [fold_left insert_or_ignore] in Hst3.
  rewrite Hst2, Hin1 in Hst3.
  assert (Hrows : rows_of isin (stored db_file table w1) = [(Some isin, lei_a)]).
  { rewrite Hst1, rows_of_app, (has_isin_false_rows _ _ Hnew). simpl.
    rewrite bool_decide_eq_true_2 by reflexivity. reflexivity. }
  split; [split; [exact Hok1 | split; [exact Hok2 | exact Hok3]]|].
  split; [exact Hst1|]. split; [exact Hst2|]. split; [exact Hst3|].
  rewrite Hst2, Hst3. split; exact Hrows.
Qed.

Lemma append_to_table_first_write_wins_witness :
  let w := store_world ∅ None in
  let w1 := after_append "equities" "a.xml" DEFAULT_DB_FILE w in
  let w2 := after_append "equities" "a.xml" DEFAULT_DB_FILE w1 in
  let w3 := after_append "equities" "b.xml" DEFAULT_DB_FILE w2 in
  ((append_to_table "equities" "a.xml" DEFAULT_DB_FILE w).1 = Ok tt
   /\ (append_to_table "equities" "a.xml" DEFAULT_DB_FILE w1).1 = Ok tt
   /\ (append_to_table "equities" "b.xml" DEFAULT_DB_FILE w2).1 = Ok tt)
  /\ stored DEFAULT_DB_FILE "equities" w1
     = stored DEFAULT_DB_FILE "equities" w ++ [(Some "DE0001", "LEI-A")]
  /\ stored DEFAULT_DB_FILE "equities" w2 = stored DEFAULT_DB_FILE "equities" w1
  /\ stored DEFAULT_DB_FILE "equities" w3 = stored DEFAULT_DB_FILE "equities" w1
  /\ rows_of "DE0001" (stored DEFAULT_DB_FILE "equities" w2) = [(Some "DE0001", "LEI-A")]
  /\ rows_of "DE0001" (stored DEFAULT_DB_FILE "equities" w3) = [(Some "DE0001", "LEI-A")].
Proof.
  apply (append_to_table_first_write_wins (store_world ∅ None)
           "equities" DEFAULT_DB_FILE "a.xml" "b.xml"
           (reference_document [RefData_of "DE0001" "LEI-A"])
           (reference_document [RefData_of "DE0001" "LEI-B"])
           "DE0001" "LEI-A" "LEI-B").
  - reflexivity.
  - reflexivity.
  - vm_compute. reflexivity.
  - reflexivity.
  - vm_compute. reflexivity.
  - vm_compute. reflexivity.
Defined.

(** The spec's store case, run: one row, and it says LEI-A. *)
Example append_DE0001 :
  let w1 := after_append "equities" "a.xml" DEFAULT_DB_FILE (store_world ∅ None) in
  let w2 := after_append "equities" "a.xml" DEFAULT_DB_FILE w1 in
  let w3 := after_append "equities" "b.xml" DEFAULT_DB_FILE w2 in
  stored DEFAULT_DB_FILE "equities" w2 = [(Some "DE0001", "LEI-A")]
  /\ stored DEFAULT_DB_FILE "equities" w3 = [(Some "DE0001", "LEI-A")]
  /\ (lookup_leis ["DE0001"] "equities" DEFAULT_DB_FILE w3).1 = Ok ["LEI-A"].
Proof. vm_compute. repeat split; reflexivity. Qed.

(** *** Lookup *)

Lemma lookup_leis_loop_cons (i : string) (rest : list string)
  (table db_file : string) (results : list string) (w : World) :
  lookup_leis_loop (i :: rest) table db_file results w
  = match database db_file w !! table with
    | None => (Raise OperationalError, w)
    | Some t =>
        match head (rows_of i t) with
        | Some r => lookup_leis_loop rest table db_file (results ++ [r.2]) w
        | None => (Raise TypeError, w)
        end
    end.
Proof.
  simpl. unfold bind at 1. unfold select_lei at 1.
  destruct (database db_file w !! table) as [t|]; [|reflexivity].
  unfold rows_of. destruct (head _) as [r|]; reflexivity.
Qed.

Lemma has_isin_true_rows (isin : string) (t : Table) :
  has_isin isin t = true ->
  exists lei rows, rows_of isin t = (Some isin, lei) :: rows /\ In (Some isin, lei) t.
Proof.
  induction t as [|[k l] t IH]; simpl; [discriminate|].
  case_bool_decide as Hk; simpl in *.
  - intros _. subst k. exists l, (rows_of isin t). split; [reflexivity | left; reflexivity].
  - intros Hin. destruct (IH Hin) as (lei & rows & Hrows & Hmem).
    exists lei, rows. split; [exact Hrows | right; exact Hmem].
Qed.

(** When every queried identifier is stored, the result has one issuer per
    identifier, in the order asked. *)
Lemma lookup_leis_loop_found (table db_file : string) (t : Table) (w : World) :
  database db_file w !! table = Some t ->
  forall (isins : list string) (results : list string),
    Forall (fun i => has_isin i t = true) isins ->
    exists leis,
      lookup_leis_loop isins table db_file results w = (Ok (results ++ leis), w)
      /\ Forall2 (fun i lei => In (Some i, lei) t) isins leis.
Proof.
  intros Ht isins. induction isins as [|i isins IH]; intros results Hall.
  - exists []. rewrite app_nil_r. split; [reflexivity | constructor].
  - apply Forall_cons in Hall as [Hi Hall].
    rewrite lookup_leis_loop_cons, Ht.
    destruct (has_isin_true_rows i t Hi) as (lei & rows & -> & Hmem).
    cbn [head snd].
    destruct (IH (results ++ [lei]) Hall) as (leis & -> & Hleis).
    exists (lei :: leis). rewrite <- app_assoc. split; [reflexivity|].
    constructor; assumption.
Qed.

(** The first queried identifier that is not stored ends the call. *)
Lemma lookup_leis_loop_missing (table db_file : string) (t : Table) (w : World) :
  database db_file w !! table = Some t ->
  forall (isins : list string) (results : list string),
    Exists (fun i => has_isin i t = false) isins ->
    lookup_leis_loop isins table db_file results w = (Raise TypeError, w).
Proof.
  intros Ht isins. induction isins as [|i isins IH]; intros results Hex.
  - apply Exists_nil in Hex. contradiction.
  - rewrite lookup_leis_loop_cons, Ht.
    destruct (has_isin i t) eqn:Hi.
    + destruct (has_isin_true_rows i t Hi) as (lei & rows & -> & _).
      cbn [head snd]. apply IH.
      apply Exists_cons in Hex as [H|H]; [congruence | exact H].
    + rewrite (has_isin_false_rows i t Hi). reflexivity.
Qed.

(** C1.  On a table that knows X and Z and not Y, looking up X, Y, Z raises
    [TypeError]: the absent identifier ends the whole call, and no list with
    a not-found marker at its position comes back.  Without Y the same call
    returns the issuers of X and Z in the order asked. *)
Theorem lookup_leis_absent_raises :
  (lookup_leis ["X"; "Y"; "Z"] "equities" DEFAULT_DB_FILE xz_world).1 = Raise TypeError
  /\ (lookup_leis ["Z"; "X"] "equities" DEFAULT_DB_FILE xz_world).1
     = Ok ["LEI-Z"; "LEI-X"].
Proof. vm_compute. split; reflexivity. Qed.

(** The same for every table and every query with an absent identifier. *)
Lemma lookup_leis_missing (isins : list string) (table db_file : string)
  (t : Table) (w : World) :
  database db_file w !! table = Some t ->
  Exists (fun i => has_isin i t = false) isins ->
  lookup_leis isins table db_file w = (Raise TypeError, w).
Proof. intros Ht Hex. apply (lookup_leis_loop_missing table db_file t w Ht _ _ Hex). Qed.

Lemma lookup_leis_found (isins : list string) (table db_file : string)
  (t : Table) (w : World) :
  database db_file w !! table = Some t ->
  Forall (fun i => has_isin i t = true) isins ->
  exists leis,
    lookup_leis isins table db_file w = (Ok leis, w)
    /\ Forall2 (fun i lei => In (Some i, lei) t) isins leis.
Proof.
  intros Ht Hall.
  destruct (lookup_leis_loop_found table db_file t w Ht isins [] Hall)
    as (leis & Hrun & Hleis).
  exists leis. split; [exact Hrun | exact Hleis].
Qed.

(** A table that was never written to cannot be queried. *)
Example lookup_leis_no_table :
  (lookup_leis ["X"] "bonds" DEFAULT_DB_FILE xz_world).1 = Raise OperationalError.
Proof. vm_compute. reflexivity. Qed.

(** * Further properties *)

(** ** Manifest parser: the filter and malformed pages *)

Lemma any_startswith_letters (fname : option string) (l1 l2 : list ascii) :
  (forall c, In c l1 <-> In c l2) ->
  any_startswith fname l1 = any_startswith fname l2.
Proof.
  intros Hsame. destruct fname as [s|].
  - rewrite !any_startswith_Some. f_equal.
    apply eq_true_iff_eq. rewrite !existsb_exists.
    split; intros (c & Hin & Hp); exists c; (split; [apply Hsame; exact Hin | exact Hp]).
  - destruct l1 as [|a l1], l2 as [|b l2]; try reflexivity.
    + exfalso. apply (in_nil (a := b)). apply Hsame. left. reflexivity.
    + exfalso. apply (in_nil (a := a)). apply Hsame. left. reflexivity.
Qed.

Lemma empty_filter_letters (ftype : string) :
  ftype = "" <-> list_ascii_of_string ftype = [].
Proof. destruct ftype; simpl; split; intros H; (reflexivity || discriminate). Qed.

Lemma parse_entries_ext (f1 f2 : string) (entries : list Element) :
  (forall e, parse_entry f1 e = parse_entry f2 e) ->
  forall urls, parse_entries f1 entries urls = parse_entries f2 entries urls.
Proof.
  intros Hext. induction entries as [|e entries IH]; intros urls; simpl.
  - reflexivity.
  - rewrite Hext. destruct (parse_entry f2 e); simpl; [apply IH | reflexivity..].
Qed.

(** X1.  The type filter is a set of letters: two filters with the same
    letters, in whatever order and however often repeated, give the same
    result on every page, well formed or not. *)
Theorem parse_file_urls_filter_is_a_set (root : Element) (ftype1 ftype2 : string) :
  (forall c, In c (list_ascii_of_string ftype1) <-> In c (list_ascii_of_string ftype2)) ->
  _parse_file_urls root ftype1 = _parse_file_urls root ftype2.
Proof.
  intros Hsame. unfold _parse_file_urls.
  destruct (child_at root 1) as [page|e|]; simpl; try reflexivity.
  apply parse_entries_ext. intros e. unfold parse_entry.
  destruct (first_item (xpath_str_named "file_name" e)) as [fe|err|]; simpl;
    try reflexivity.
  rewrite (any_startswith_letters _ _ _ Hsame).
  assert (Hempty : bool_decide (ftype1 = "") = bool_decide (ftype2 = "")).
  { apply bool_decide_ext. rewrite !empty_filter_letters.
    destruct (list_ascii_of_string ftype1) as [|a l1],
             (list_ascii_of_string ftype2) as [|b l2].
    - tauto.
    - split; [|discriminate]. intros _. exfalso.
      apply (in_nil (a := b)). apply Hsame. left. reflexivity.
    - split; [discriminate|]. intros _. exfalso.
      apply (in_nil (a := a)). apply Hsame. left. reflexivity.
    - split; discriminate. }
  rewrite Hempty. reflexivity.
Qed.

Lemma parse_file_urls_filter_is_a_set_witness :
  _parse_file_urls (response_of "2" (map doc_of bond_and_equity)) "BE"
  = _parse_file_urls (response_of "2" (map doc_of bond_and_equity)) "EBB".
Proof.
  apply (parse_file_urls_filter_is_a_set
           (response_of "2" (map doc_of bond_and_equity)) "BE" "EBB").
  intros c. simpl. tauto.
Defined.

Lemma keptb_more_letters (f1 f2 fname : string) :
  f1 <> "" ->
  (forall c, In c (list_ascii_of_string f1) -> In c (list_ascii_of_string f2)) ->
  keptb f1 fname = true -> keptb f2 fname = true.
Proof.
  intros Hne Hsub. unfold keptb.
  rewrite !orb_true_iff, !bool_decide_eq_true, !existsb_exists.
  intros [H|(c & Hin & Hp)]; [contradiction|].
  right. exists c. split; [apply Hsub; exact Hin | exact Hp].
Qed.

Lemma page_urls_sublist (f1 f2 : string) (ms : list ManifestEntry) :
  (forall m, keptb f1 (fileName m) = true -> keptb f2 (fileName m) = true) ->
  sublist (page_urls f1 ms) (page_urls f2 ms).
Proof.
  intros Himp. unfold page_urls. induction ms as [|m ms IH]; simpl.
  - constructor.
  - destruct (keptb f1 (fileName m)) eqn:H1.
    + rewrite (Himp m H1). simpl. apply sublist_skip. exact IH.
    + destruct (keptb f2 (fileName m)); simpl; [apply sublist_cons|]; exact IH.
Qed.

(** X2.  On a page whose result documents each expose both fields, a filter
    with more letters keeps more: the result for a non-empty filter is a
    sublist (same order, some links left out) of the result for any filter
    that has all its letters, and that in turn of the unfiltered result. *)
Theorem parse_file_urls_wider_filter (root page : Element)
  (ms : list ManifestEntry) (ftype1 ftype2 : string) :
  child_at root 1 = Ok page ->
  Forall2 (fun e m => manifest_entry e = Some m) (children page) ms ->
  ftype1 <> "" ->
  (forall c, In c (list_ascii_of_string ftype1) -> In c (list_ascii_of_string ftype2)) ->
  exists urls1 urls2 all,
    _parse_file_urls root ftype1 = Ok urls1
    /\ _parse_file_urls root ftype2 = Ok urls2
    /\ _parse_file_urls root "" = Ok all
    /\ sublist urls1 urls2 /\ sublist urls2 all.
Proof.
  intros Hpage Hms Hne Hsub.
  exists (page_urls ftype1 ms), (page_urls ftype2 ms), (page_urls "" ms).
  rewrite !(parse_file_urls_manifest _ root page ms Hpage Hms).
  repeat split.
  - apply page_urls_sublist. intros m. apply keptb_more_letters; assumption.
  - apply page_urls_sublist. intros m _. reflexivity.
Qed.

Lemma parse_file_urls_wider_filter_witness :
  exists urls1 urls2 all,
    _parse_file_urls (response_of "2" (map doc_of bond_and_equity)) "B" = Ok urls1
    /\ _parse_file_urls (response_of "2" (map doc_of bond_and_equity)) "EB" = Ok urls2
    /\ _parse_file_urls (response_of "2" (map doc_of bond_and_equity)) "" = Ok all
    /\ sublist urls1 urls2 /\ sublist urls2 all.
Proof.
  apply (parse_file_urls_wider_filter
           (response_of "2" (map doc_of bond_and_equity))
           (Elem "result" (<[ "numFound" := "2" ]> {[ "name" := "response" ]}) None
              (map doc_of bond_and_equity))
           bond_and_equity "B" "EB").
  - reflexivity.
  - repeat constructor.
  - discriminate.
  - intros c. simpl. tauto.
Defined.

Lemma parse_entries_raises (ftype : string) (entries : list Element) :
  Exists (fun e => xpath_str_named "file_name" e = []) entries ->
  forall urls,
    (exists e, parse_entries ftype entries urls = Raise e)
    /\ (ftype = "" -> parse_entries ftype entries urls = Raise IndexError).
Proof.
  induction entries as [|e entries IH]; intros Hex urls.
  - apply Exists_nil in Hex. contradiction.
  - simpl. unfold parse_entry.
    destruct (xpath_str_named "file_name" e) as [|fe fes] eqn:Hfe; simpl.
    { split; [exists IndexError; reflexivity | reflexivity]. }
    apply Exists_cons in Hex as [H|Hex]; [congruence|].
    case_bool_decide as Hft; simpl.
    + destruct (first_item (xpath_str_named "download_link" e)) as [ue|err|] eqn:Hue;
        simpl.
      * apply IH. exact Hex.
      * destruct (xpath_str_named "download_link" e); simpl in Hue; [|discriminate].
        injection Hue as <-.
        split; [exists IndexError; reflexivity | reflexivity].
      * destruct (xpath_str_named "download_link" e); discriminate.
    + destruct (any_startswith (text fe) (list_ascii_of_string ftype)) as [keep|err|] eqn:Hk;
        simpl.
      * destruct keep; simpl.
        -- destruct (first_item (xpath_str_named "download_link" e)) as [ue|err|] eqn:Hue;
             simpl.
           ++ split; [apply IH; exact Hex | intros; contradiction].
           ++ split; [exists err; reflexivity | intros; contradiction].
           ++ destruct (xpath_str_named "download_link" e); discriminate.
        -- split; [apply IH; exact Hex | intros; contradiction].
      * split; [exists err; reflexivity | intros; contradiction].
      * exfalso. revert Hk. clear. generalize (list_ascii_of_string ftype).
        intros l. induction l as [|c l IHl]; simpl; [discriminate|].
        destruct (text fe) as [s|]; simpl; [|discriminate].
        destruct (String.prefix (FNAME_START c) s); [discriminate | exact IHl].
Qed.

(** X3.  One result document without a file-name field spoils its page:
    whatever the filter, [_parse_file_urls] raises and returns no link at
    all, also none of the well-formed documents; with the empty filter the
    exception is [IndexError]. *)
Theorem parse_file_urls_missing_file_name (root page : Element) (ftype : string) :
  child_at root 1 = Ok page ->
  Exists (fun e => xpath_str_named "file_name" e = []) (children page) ->
  (exists e, _parse_file_urls root ftype = Raise e)
  /\ _parse_file_urls root "" = Raise IndexError.
Proof.
  intros Hpage Hex. unfold _parse_file_urls. rewrite Hpage. simpl. split.
  - apply (parse_entries_raises ftype _ Hex []).
  - apply (parse_entries_raises "" _ Hex []). reflexivity.
Qed.

Lemma parse_file_urls_missing_file_name_witness :
  (exists e,
     _parse_file_urls
       (response_of "2" [doc_of (mk_ManifestEntry "FULINS_B_1" "u"); Elem "doc" ∅ None []])
       "B" = Raise e)
  /\ _parse_file_urls
       (response_of "2" [doc_of (mk_ManifestEntry "FULINS_B_1" "u"); Elem "doc" ∅ None []])
       "" = Raise IndexError.
Proof.
  apply (parse_file_urls_missing_file_name
           (response_of "2" [doc_of (mk_ManifestEntry "FULINS_B_1" "u"); Elem "doc" ∅ None []])
           (Elem "result" (<[ "numFound" := "2" ]> {[ "name" := "response" ]}) None
              [doc_of (mk_ManifestEntry "FULINS_B_1" "u"); Elem "doc" ∅ None []])
           "B").
  - reflexivity.
  - apply Exists_cons_tl, Exists_cons_hd. reflexivity.
Defined.

(** ** Date range paginator: any endpoint *)

(** One round of the loop, read through [fetch_page]. *)
Lemma get_file_urls_loop_step (fuel : nat) (from_date to_date : datetime)
  (ftype : string) (N start rows : Z) (urls : list (option string)) (w : World) :
  start + rows < N ->
  get_file_urls_loop (S fuel) from_date to_date ftype N start rows urls w
  = match fetch_page (search_endpoint w) from_date to_date ftype rows (start + rows) with
    | Ok new =>
        get_file_urls_loop fuel from_date to_date ftype N (start + rows) rows
          (urls ++ new)
          (log_request
             (SearchRequest (search_query from_date to_date (start + rows) rows)) w)
    | Raise e =>
        (Raise e,
         log_request
           (SearchRequest (search_query from_date to_date (start + rows) rows)) w)
    | OutOfFuel =>
        (OutOfFuel,
         log_request
           (SearchRequest (search_query from_date to_date (start + rows) rows)) w)
    end.
Proof.
  intros Hlt. simpl.
  destruct (Z.gtb_spec N (start + rows)) as [_|Hle]; [|lia].
  unfold fetch_page, bind, _request_file_urls, lift.
  fold (search_query from_date to_date (start + rows) rows).
  destruct (search_endpoint w _) as [root|e|]; reflexivity.
Qed.

Lemma get_file_urls_loop_done (fuel : nat) (from_date to_date : datetime)
  (ftype : string) (N start rows : Z) (urls : list (option string)) (w : World) :
  N <= start + rows ->
  get_file_urls_loop fuel from_date to_date ftype N start rows urls w = (Ok urls, w).
Proof.
  intros Hle. destruct fuel; simpl;
    (destruct (Z.gtb_spec N (start + rows)); [lia | reflexivity]).
Qed.

(** The start of [get_file_urls], read through [fetch_page]. *)
Lemma get_file_urls_first_page (fuel : nat) (from_date to_date : option datetime)
  (f t : datetime) (ftype : string) (w : World) (root : Element) (N : Z) :
  default_window from_date to_date w = (Ok (f, t), w) ->
  search_endpoint w (search_query f t 0 100) = Ok root ->
  numFound root = Ok N ->
  get_file_urls fuel from_date to_date ftype w
  = match fetch_page (search_endpoint w) f t ftype 100 0 with
    | Ok urls =>
        get_file_urls_loop fuel f t ftype N 0 100 urls
          (log_request (SearchRequest (search_query f t 0 100)) w)
    | Raise e => (Raise e, log_request (SearchRequest (search_query f t 0 100)) w)
    | OutOfFuel => (OutOfFuel, log_request (SearchRequest (search_query f t 0 100)) w)
    end.
Proof.
  intros Hwin Hroot Hnum. unfold get_file_urls, fetch_page.
  unfold bind at 1. rewrite Hwin.
  unfold bind at 1. unfold _request_file_urls at 1.
  fold (search_query f t 0 100). rewrite Hroot.
  unfold bind at 1. unfold lift at 1. rewrite Hnum.
  unfold bind at 1. unfold lift at 1. simpl.
  destruct (_parse_file_urls root ftype); reflexivity.
Qed.

Lemma get_file_urls_loop_pages (endpoint : Query -> result Element)
  (from_date to_date : datetime) (ftype : string) (N rows : Z)
  (page : Z -> list (option string)) :
  0 < rows ->
  (forall o, fetch_page endpoint from_date to_date ftype rows o = Ok (page o)) ->
  forall (fuel : nat) (start : Z) (urls : list (option string)) (w : World),
    search_endpoint w = endpoint ->
    (Z.to_nat ((N - start - 1) / rows) <= fuel)%nat ->
    get_file_urls_loop fuel from_date to_date ftype N start rows urls w
    = (Ok (urls ++ concat (map page
                             (offsets_from (Z.to_nat ((N - start - 1) / rows))
                                (start + rows) rows))),
       log_requests
         (map (fun o => SearchRequest (search_query from_date to_date o rows))
            (offsets_from (Z.to_nat ((N - start - 1) / rows)) (start + rows) rows))
         w).
Proof.
  intros Hrows Hpages fuel.
  induction fuel as [|fuel IH]; intros start urls w Hw Hfuel.
  - assert (Hn : Z.to_nat ((N - start - 1) / rows) = 0%nat) by lia.
    rewrite Hn. simpl offsets_from. simpl map. simpl concat.
    rewrite log_requests_nil, app_nil_r.
    apply get_file_urls_loop_done.
    destruct (Z.le_gt_cases N (start + rows)) as [H|H]; [exact H|].
    rewrite iterations_more in Hn by lia. discriminate.
  - destruct (Z.le_gt_cases N (start + rows)) as [Hle|Hgt].
    + rewrite iterations_done by lia. simpl offsets_from. simpl map. simpl concat.
      rewrite log_requests_nil, app_nil_r.
      apply get_file_urls_loop_done. exact Hle.
    + rewrite get_file_urls_loop_step by lia. rewrite Hw, Hpages.
      rewrite iterations_more in Hfuel |- * by lia.
      rewrite IH by (simpl; lia || assumption).
      simpl offsets_from. simpl map. simpl concat.
      rewrite log_requests_cons, <- app_assoc. reflexivity.
Qed.

(** X4.  The total is read once, from the first response.  Whatever totals
    and however many entries the later responses carry, as long as every
    page parses, [get_file_urls] asks for exactly the offsets 0, 100, ... up
    to the first one with offset + 100 >= N, where N is the first total, and
    returns the parsed pages joined in that order. *)
Theorem get_file_urls_total_read_once (w : World)
  (from_date to_date : option datetime) (f t : datetime) (ftype : string)
  (root : Element) (N : Z) (page : Z -> list (option string)) (fuel : nat) :
  default_window from_date to_date w = (Ok (f, t), w) ->
  search_endpoint w (search_query f t 0 100) = Ok root ->
  numFound root = Ok N ->
  (forall o, fetch_page (search_endpoint w) f t ftype 100 o = Ok (page o)) ->
  (Z.to_nat (N / 100) <= fuel)%nat ->
  get_file_urls fuel from_date to_date ftype w
  = (Ok (concat (map page (page_offsets N 100))),
     log_requests
       (map (fun o => SearchRequest (search_query f t o 100)) (page_offsets N 100))
       w).
Proof.
  intros Hwin Hroot Hnum Hpages Hfuel.
  rewrite (get_file_urls_first_page fuel _ _ f t ftype w root N Hwin Hroot Hnum).
  rewrite Hpages.
  rewrite (get_file_urls_loop_pages (search_endpoint w) f t ftype N 100 page
             ltac:(lia) Hpages fuel 0 _
             (log_request (SearchRequest (search_query f t 0 100)) w) eq_refl).
  - rewrite log_requests_cons, page_offsets_from.
    replace (N - 0 - 1) with (N - 1) by lia. reflexivity.
  - assert ((N - 0 - 1) / 100 <= N / 100) by (apply Z.div_le_mono; lia).
    lia.
Qed.

Lemma manifest_entries_doc_of (ms : list ManifestEntry) :
  Forall2 (fun e m => manifest_entry e = Some m) (map doc_of ms) ms.
Proof.
  induction ms as [|m ms IH]; constructor; [apply manifest_entry_doc_of | exact IH].
Qed.

Lemma boasting_endpoint_pages (o : Z) :
  fetch_page boasting_endpoint a_wednesday a_wednesday "" 100 o
  = Ok (page_urls "" (numbered_manifest 3 (Z.to_nat o))).
Proof.
  unfold fetch_page, boasting_endpoint. simpl.
  apply (parse_file_urls_manifest "" _
           (Elem "result"
              (<[ "numFound" := if o =? 0 then "10000" else "0" ]>
                 {[ "name" := "response" ]}) None
              (map doc_of (numbered_manifest 3 (Z.to_nat o))))).
  - reflexivity.
  - apply manifest_entries_doc_of.
Qed.

Lemma get_file_urls_total_read_once_witness :
  get_file_urls 100 (Some a_wednesday) (Some a_wednesday) "" boasting_world
  = (Ok (concat (map (fun o => page_urls "" (numbered_manifest 3 (Z.to_nat o)))
                   (page_offsets 10000 100))),
     log_requests
       (map (fun o => SearchRequest (search_query a_wednesday a_wednesday o 100))
          (page_offsets 10000 100))
       boasting_world).
Proof.
  apply (get_file_urls_total_read_once boasting_world
           (Some a_wednesday) (Some a_wednesday) a_wednesday a_wednesday ""
           (response_of "10000" (map doc_of (numbered_manifest 3 0)))
           10000 (fun o => page_urls "" (numbered_manifest 3 (Z.to_nat o))) 100).
  - reflexivity.
  - reflexivity.
  - vm_compute. reflexivity.
  - exact boasting_endpoint_pages.
  - vm_compute. lia.
Defined.

Lemma any_startswith_returns (fname : option string) (l : list ascii) :
  any_startswith fname l <> OutOfFuel.
Proof.
  induction l as [|c l IH]; simpl; [discriminate|].
  destruct fname as [s|]; simpl; [|discriminate].
  destruct (String.prefix (FNAME_START c) s); [discriminate | exact IH].
Qed.

Lemma first_item_returns {A} (l : list A) : first_item l <> OutOfFuel.
Proof. destruct l; discriminate. Qed.

Lemma parse_entry_returns (ftype : string) (e : Element) :
  parse_entry ftype e <> OutOfFuel.
Proof.
  unfold parse_entry.
  destruct (xpath_str_named "file_name" e) as [|fe fes]; simpl; [discriminate|].
  assert (Hlink : result_bind (first_item (xpath_str_named "download_link" e))
                    (fun ue => Ok [text ue]) <> OutOfFuel).
  { destruct (xpath_str_named "download_link" e); discriminate. }
  case_bool_decide; simpl; [exact Hlink|].
  pose proof (any_startswith_returns (text fe) (list_ascii_of_string ftype)) as Hany.
  destruct (any_startswith _ _) as [[|]| |]; simpl;
    [exact Hlink | discriminate | discriminate | contradiction].
Qed.

Lemma parse_file_urls_returns (root : Element) (ftype : string) :
  _parse_file_urls root ftype <> OutOfFuel.
Proof.
  unfold _parse_file_urls, child_at.
  destruct (children root !! 1%nat) as [page|]; simpl; [|discriminate].
  generalize (@nil (option string)).
  induction (children page) as [|e es IH]; intros urls; simpl; [discriminate|].
  pose proof (parse_entry_returns ftype e) as He.
  destruct (parse_entry ftype e); simpl; [apply IH | discriminate | contradiction].
Qed.

Lemma numFound_returns (root : Element) : numFound root <> OutOfFuel.
Proof.
  unfold numFound, child_at.
  destruct (children root !! 1%nat) as [page|]; simpl; [|discriminate].
  destruct (attrib page !! "numFound") as [s|]; [|discriminate].
  unfold int_of_str.
  destruct (match strip (list_ascii_of_string s) with
            | [] => (1, strip (list_ascii_of_string s))
            | c :: r => _
            end) as [sign digits].
  destruct (parse_digits 0 false digits); discriminate.
Qed.

Lemma fetch_page_returns (endpoint : Query -> result Element)
  (f t : datetime) (ftype : string) (rows o : Z) :
  (forall q, endpoint q <> OutOfFuel) ->
  fetch_page endpoint f t ftype rows o <> OutOfFuel.
Proof.
  intros Hend. unfold fetch_page. specialize (Hend (search_query f t o rows)).
  destruct (endpoint _) as [root| |]; simpl;
    [apply parse_file_urls_returns | discriminate | contradiction].
Qed.

(** With fuel for the remaining rounds the loop returns or raises, and more
    fuel changes nothing. *)
Lemma get_file_urls_loop_fuel (f t : datetime) (ftype : string) (N rows : Z)
  (endpoint : Query -> result Element) :
  0 < rows ->
  (forall q, endpoint q <> OutOfFuel) ->
  forall (fuel1 fuel2 : nat) (start : Z) (urls : list (option string)) (w : World),
    search_endpoint w = endpoint ->
    (Z.to_nat ((N - start - 1) / rows) <= fuel1)%nat ->
    (Z.to_nat ((N - start - 1) / rows) <= fuel2)%nat ->
    (get_file_urls_loop fuel1 f t ftype N start rows urls w).1 <> OutOfFuel
    /\ get_file_urls_loop fuel1 f t ftype N start rows urls w
       = get_file_urls_loop fuel2 f t ftype N start rows urls w.
Proof.
  intros Hrows Hend fuel1.
  induction fuel1 as [|fuel1 IH]; intros fuel2 start urls w Hw H1 H2.
  - assert (N <= start + rows).
    { destruct (Z.le_gt_cases N (start + rows)) as [H|H]; [exact H|].
      rewrite iterations_more in H1 by lia. lia. }
    rewrite !get_file_urls_loop_done by assumption. split; [discriminate | reflexivity].
  - destruct (Z.le_gt_cases N (start + rows)) as [Hle|Hgt].
    { rewrite !get_file_urls_loop_done by assumption.
      split; [discriminate | reflexivity]. }
    rewrite iterations_more in H1, H2 by lia.
    destruct fuel2 as [|fuel2]; [lia|].
    rewrite !get_file_urls_loop_step by lia. rewrite Hw.
    pose proof (fetch_page_returns endpoint f t ftype rows (start + rows) Hend) as Hp.
    destruct (fetch_page endpoint f t ftype rows (start + rows)) as [new|e|].
    + apply IH; [exact Hw | lia | lia].
    + split; [discriminate | reflexivity].
    + contradiction.
Qed.

(** [get_file_urls] case by case, up to the loop. *)
Lemma get_file_urls_unfold (fuel : nat) (from_date to_date : option datetime)
  (ftype : string) (w : World) :
  get_file_urls fuel from_date to_date ftype w
  = match default_window from_date to_date w with
    | (Ok (f, t), w0) =>
        let w1 := log_request (SearchRequest (search_query f t 0 100)) w0 in
        match search_endpoint w0 (search_query f t 0 100) with
        | Ok root =>
            match numFound root with
            | Ok N =>
                match _parse_file_urls root ftype with
                | Ok urls => get_file_urls_loop fuel f t ftype N 0 100 urls w1
                | Raise e => (Raise e, w1)
                | OutOfFuel => (OutOfFuel, w1)
                end
            | Raise e => (Raise e, w1)
            | OutOfFuel => (OutOfFuel, w1)
            end
        | Raise e => (Raise e, w1)
        | OutOfFuel => (OutOfFuel, w1)
        end
    | (Raise e, w0) => (Raise e, w0)
    | (OutOfFuel, w0) => (OutOfFuel, w0)
    end.
Proof.
  unfold get_file_urls. unfold bind at 1.
  destruct (default_window from_date to_date w) as [[[f t]|e|] w0]; reflexivity.
Qed.

(** X5.  The pagination loop always ends.  For every endpoint there is an
    amount of fuel from which on [get_file_urls] returns or raises, and
    every larger amount gives the same outcome and the same requests. *)
Theorem get_file_urls_terminates (w : World) (from_date to_date : option datetime)
  (ftype : string) :
  (forall q, search_endpoint w q <> OutOfFuel) ->
  exists bound : nat,
    forall fuel : nat, (bound <= fuel)%nat ->
      (get_file_urls fuel from_date to_date ftype w).1 <> OutOfFuel
      /\ get_file_urls fuel from_date to_date ftype w
         = get_file_urls bound from_date to_date ftype w.
Proof.
  intros Hend.
  pose proof (fun fuel => get_file_urls_unfold fuel from_date to_date ftype w) as Hunf.
  pose proof (default_window_world from_date to_date w) as Hw.
  assert (Hdw : (default_window from_date to_date w).1 <> OutOfFuel).
  { unfold default_window, bind, datetime_today, lift, ret.
    destruct from_date; [destruct to_date; discriminate|].
    unfold datetime_sub. destruct (_ && _); discriminate. }
  destruct (default_window from_date to_date w) as [[[f t]|e|] w0];
    simpl in Hw, Hdw; subst w0.
  2: { exists 0%nat. intros fuel _. rewrite !Hunf. split; [discriminate | reflexivity]. }
  2: { contradiction. }
  pose proof (Hend (search_query f t 0 100)) as Hq.
  destruct (search_endpoint w (search_query f t 0 100)) as [root|e|].
  2: { exists 0%nat. intros fuel _. rewrite !Hunf. split; [discriminate | reflexivity]. }
  2: { contradiction. }
  pose proof (numFound_returns root) as Hn.
  destruct (numFound root) as [N|e|].
  2: { exists 0%nat. intros fuel _. rewrite !Hunf. split; [discriminate | reflexivity]. }
  2: { contradiction. }
  pose proof (parse_file_urls_returns root ftype) as Hp.
  destruct (_parse_file_urls root ftype) as [urls|e|].
  2: { exists 0%nat. intros fuel _. rewrite !Hunf. split; [discriminate | reflexivity]. }
  2: { contradiction. }
  exists (Z.to_nat ((N - 0 - 1) / 100)). intros fuel Hfuel. rewrite !Hunf.
  cbv zeta.
  apply (get_file_urls_loop_fuel f t ftype N 100 (search_endpoint w)
           ltac:(lia) Hend fuel _ 0 urls
           (log_request (SearchRequest (search_query f t 0 100)) w)
           eq_refl Hfuel (le_n _)).
Qed.

Lemma get_file_urls_terminates_witness :
  exists bound : nat,
    forall fuel : nat, (bound <= fuel)%nat ->
      (get_file_urls fuel None None "E" failing_world).1 <> OutOfFuel
      /\ get_file_urls fuel None None "E" failing_world
         = get_file_urls bound None None "E" failing_world.
Proof.
  apply (get_file_urls_terminates failing_world None None "E").
  intros q. unfold failing_world, failing_endpoint. simpl.
  destruct (start q =? 200); discriminate.
Defined.

Lemma get_file_urls_loop_fails (f t : datetime) (ftype : string) (N rows : Z)
  (endpoint : Query -> result Element) (e : exn) :
  0 < rows ->
  forall (k fuel : nat) (start : Z) (urls : list (option string)) (w : World),
    search_endpoint w = endpoint ->
    (S k <= fuel)%nat ->
    start + rows * (Z.of_nat k + 1) < N ->
    (forall j, (1 <= j <= k)%nat ->
       exists got, fetch_page endpoint f t ftype rows (start + rows * Z.of_nat j) = Ok got) ->
    fetch_page endpoint f t ftype rows (start + rows * (Z.of_nat k + 1)) = Raise e ->
    get_file_urls_loop fuel f t ftype N start rows urls w
    = (Raise e,
       log_requests
         (map (fun o => SearchRequest (search_query f t o rows))
            (offsets_from (S k) (start + rows) rows))
         w).
Proof.
  intros Hrows k.
  induction k as [|k IH]; intros fuel start urls w Hw Hfuel Hlt Hok Hfail.
  - destruct fuel as [|fuel]; [lia|].
    rewrite get_file_urls_loop_step by lia. rewrite Hw.
    replace (start + rows * (Z.of_nat 0 + 1)) with (start + rows) in Hfail by lia.
    rewrite Hfail. simpl offsets_from. simpl map.
    rewrite <- log_requests_cons, log_requests_nil. reflexivity.
  - destruct fuel as [|fuel]; [lia|].
    rewrite get_file_urls_loop_step by nia. rewrite Hw.
    destruct (Hok 1%nat ltac:(lia)) as [got Hgot].
    replace (start + rows * Z.of_nat 1) with (start + rows) in Hgot by lia.
    rewrite Hgot.
    rewrite (IH fuel (start + rows) (urls ++ got)).
    + change (offsets_from (S (S k)) (start + rows) rows)
        with ((start + rows) :: offsets_from (S k) (start + rows + rows) rows).
      simpl map. rewrite log_requests_cons. reflexivity.
    + exact Hw.
    + lia.
    + nia.
    + intros j Hj. destruct (Hok (S j) ltac:(lia)) as [got' Hgot'].
      exists got'. rewrite <- Hgot'. f_equal. lia.
    + rewrite <- Hfail. f_equal. lia.
Qed.

(** X6.  A page that fails ends the whole run.  If the pages at offsets 0
    to 100(k-1) parse and the request at offset 100k, which the first total
    calls for, fails, then [get_file_urls] raises that error: the links of
    the pages already read are not returned, and no request goes out beyond
    offset 100k. *)
Theorem get_file_urls_page_failure (w : World)
  (from_date to_date : option datetime) (f t : datetime) (ftype : string)
  (root : Element) (N : Z) (k fuel : nat) (e : exn) :
  default_window from_date to_date w = (Ok (f, t), w) ->
  search_endpoint w (search_query f t 0 100) = Ok root ->
  numFound root = Ok N ->
  (1 <= k)%nat ->
  100 * Z.of_nat k < N ->
  (forall j, (j < k)%nat ->
     exists got, fetch_page (search_endpoint w) f t ftype 100 (100 * Z.of_nat j) = Ok got) ->
  fetch_page (search_endpoint w) f t ftype 100 (100 * Z.of_nat k) = Raise e ->
  (k <= fuel)%nat ->
  get_file_urls fuel from_date to_date ftype w
  = (Raise e,
     log_requests
       (map (fun o => SearchRequest (search_query f t o 100))
          (map (fun j => 100 * Z.of_nat j) (seq 0 (S k))))
       w).
Proof.
  intros Hwin Hroot Hnum Hk HN Hok Hfail Hfuel.
  rewrite (get_file_urls_first_page fuel _ _ f t ftype w root N Hwin Hroot Hnum).
  destruct (Hok 0%nat ltac:(lia)) as [got0 Hgot0].
  change (100 * Z.of_nat 0) with 0 in Hgot0. rewrite Hgot0.
  destruct k as [|k]; [lia|].
  rewrite (get_file_urls_loop_fails f t ftype N 100 (search_endpoint w) e ltac:(lia)
             k fuel 0 got0
             (log_request (SearchRequest (search_query f t 0 100)) w) eq_refl).
  - rewrite log_requests_cons.
    assert (Hoffs : map (fun j => 100 * Z.of_nat j) (seq 0 (S (S k)))
                    = 0 :: offsets_from (S k) (0 + 100) 100).
    { change (seq 0 (S (S k))) with (0%nat :: seq 1 (S k)).
      rewrite offsets_from_closed, <- (seq_shift (S k) 0), map_cons, map_map.
      f_equal. apply map_ext. intros j. lia. }
    rewrite Hoffs. reflexivity.
  - lia.
  - lia.
  - intros j Hj. destruct (Hok j ltac:(lia)) as [got Hgot]. exists got.
    rewrite <- Hgot. f_equal.
  - rewrite <- Hfail. f_equal. lia.
Qed.

Lemma numFound_response_of (total : string) (docs : list Element) :
  numFound (response_of total docs) = int_of_str total.
Proof.
  unfold numFound, response_of, child_at. simpl. rewrite lookup_insert_eq. reflexivity.
Qed.

Lemma failing_endpoint_pages (f t : datetime) (ftype : string) (o : Z) :
  o <> 200 ->
  fetch_page failing_endpoint f t ftype 100 o
  = Ok (page_urls ftype (take 100 (drop (Z.to_nat o) (numbered_manifest 250 0)))).
Proof.
  intros Ho. unfold fetch_page, failing_endpoint, search_query.
  cbn [start rows]. destruct (Z.eqb_spec o 200) as [|_]; [contradiction|].
  unfold simulated_endpoint. cbn [start rows result_bind].
  eapply parse_file_urls_manifest; [reflexivity|].
  apply manifest_entries_doc_of.
Qed.

Lemma get_file_urls_page_failure_witness :
  get_file_urls 5 (Some a_wednesday) (Some a_wednesday) "" failing_world
  = (Raise ConnectionError,
     log_requests
       (map (fun o => SearchRequest (search_query a_wednesday a_wednesday o 100))
          (map (fun j => 100 * Z.of_nat j) (seq 0 3)))
       failing_world).
Proof.
  apply (get_file_urls_page_failure failing_world
           (Some a_wednesday) (Some a_wednesday) a_wednesday a_wednesday ""
           (response_of (str_of_nat (length (numbered_manifest 250 0)))
              (map doc_of (take (Z.to_nat 100)
                             (drop (Z.to_nat 0) (numbered_manifest 250 0)))))
           250 2 5 ConnectionError).
  - reflexivity.
  - reflexivity.
  - rewrite numFound_response_of. vm_compute. reflexivity.
  - lia.
  - lia.
  - intros j Hj. eexists. apply failing_endpoint_pages. lia.
  - reflexivity.
  - lia.
Defined.

(** ** The time window: calendar days only *)

Lemma search_query_days (f f' t t' : datetime) (o r : Z) :
  ordinal f = ordinal f' -> ordinal t = ordinal t' ->
  search_query f t o r = search_query f' t' o r.
Proof.
  intros Hf Ht. unfold search_query, year, month, day. rewrite Hf, Ht. reflexivity.
Qed.

Lemma request_file_urls_days (f f' t t' : datetime) (o r : Z) (w : World) :
  ordinal f = ordinal f' -> ordinal t = ordinal t' ->
  _request_file_urls f t o r w = _request_file_urls f' t' o r w.
Proof.
  intros Hf Ht. unfold _request_file_urls.
  fold (search_query f t o r). fold (search_query f' t' o r).
  rewrite (search_query_days f f' t t' o r Hf Ht). reflexivity.
Qed.

Lemma get_file_urls_loop_days (f f' t t' : datetime) (ftype : string) (N rows : Z) :
  ordinal f = ordinal f' -> ordinal t = ordinal t' ->
  forall (fuel : nat) (start : Z) (urls : list (option string)) (w : World),
    get_file_urls_loop fuel f t ftype N start rows urls w
    = get_file_urls_loop fuel f' t' ftype N start rows urls w.
Proof.
  intros Hf Ht fuel. induction fuel as [|fuel IH]; intros start urls w; simpl.
  - reflexivity.
  - destruct (N >? start + rows); [|reflexivity].
    unfold bind at 1 3. rewrite (request_file_urls_days f f' t t' _ _ w Hf Ht).
    destruct (_request_file_urls f' t' (start + rows) rows w) as [[root|e|] w1];
      try reflexivity.
    unfold bind, lift. destruct (_parse_file_urls root ftype); try reflexivity.
    apply IH.
Qed.

(** X7.  Only the calendar days of the window reach the endpoint: two calls
    whose bounds fall on the same days, at whatever times of day, send the
    same requests and end the same way.  The bounds are not compared with
    each other. *)
Theorem get_file_urls_days_only (fuel : nat) (f f' t t' : datetime)
  (ftype : string) (w : World) :
  ordinal f = ordinal f' -> ordinal t = ordinal t' ->
  get_file_urls fuel (Some f) (Some t) ftype w
  = get_file_urls fuel (Some f') (Some t') ftype w.
Proof.
  intros Hf Ht. rewrite !get_file_urls_unfold. cbv zeta.
  unfold default_window, ret.
  rewrite (search_query_days f f' t t' 0 100 Hf Ht).
  destruct (search_endpoint w _) as [root|e|]; try reflexivity.
  destruct (numFound root) as [N|e|]; try reflexivity.
  destruct (_parse_file_urls root ftype) as [urls|e|]; try reflexivity.
  apply get_file_urls_loop_days; assumption.
Qed.

Lemma get_file_urls_days_only_witness :
  get_file_urls 3 (Some a_wednesday) (Some (mk_datetime 739924 0)) "E"
    (simulated_world (numbered_manifest 250 0))
  = get_file_urls 3 (Some (mk_datetime 739924 86399999999)) (Some a_wednesday) "E"
      (simulated_world (numbered_manifest 250 0)).
Proof.
  apply (get_file_urls_days_only 3 a_wednesday (mk_datetime 739924 86399999999)
           (mk_datetime 739924 0) a_wednesday "E"
           (simulated_world (numbered_manifest 250 0))).
  - reflexivity.
  - reflexivity.
Defined.

(** ** Archive fetcher: failures and what stays on disk *)

(** [download_zipped_file] once the directory step has gone through. *)
Lemma download_zipped_file_unfold (w : World) (url to_dir : string) :
  download_zipped_file url to_dir w
  = match ensure_dir to_dir w with
    | (Ok _, w1) =>
        let w2 := log_request (DownloadRequest url) w1 in
        match archive_server w url with
        | Ok response =>
            if (400 <=? status_code response) && (status_code response <? 600)
            then (Raise (HTTPError (status_code response)), w2)
            else
              match content response with
              | Some [] => (Raise IndexError, w2)
              | Some ((name, data) :: rest) =>
                  match extractall to_dir ((name, data) :: rest) w2 with
                  | (Ok _, w3) => (Ok (path_join to_dir name), w3)
                  | (Raise e, w3) => (Raise e, w3)
                  | (OutOfFuel, w3) => (OutOfFuel, w3)
                  end
              | None => (Raise BadZipFile, w2)
              end
        | Raise e => (Raise e, w2)
        | OutOfFuel => (OutOfFuel, w2)
        end
    | (Raise e, w1) => (Raise e, w1)
    | (OutOfFuel, w1) => (OutOfFuel, w1)
    end.
Proof.
  unfold download_zipped_file.
  destruct (ensure_dir_spec to_dir w) as (_ & Hg & _).
  apply fs_grows_env in Hg as [Hsrv _].
  unfold bind at 1. destruct (ensure_dir to_dir w) as [[[]|e|] w1];
    cbn [fst snd] in Hsrv |- *; try reflexivity.
  unfold bind at 1. unfold requests_get at 1. rewrite Hsrv.
  destruct (archive_server w url) as [response|e|]; try reflexivity.
  unfold bind at 1. unfold raise_for_status.
  destruct ((400 <=? status_code response) && (status_code response <? 600));
    [reflexivity|].
  cbn [ret]. unfold bind at 1. unfold ZipFile.
  destruct (content response) as [[|[name data] rest]|]; reflexivity.
Qed.

(** X8.  When the request itself fails, [download_zipped_file] raises the
    error of the transport after that one request, and writes no file; the
    destination directory, made before the request, is there all the same. *)
Theorem download_zipped_file_transport_failure (w : World) (url to_dir : string)
  (e : exn) :
  (ensure_dir to_dir w).1 = Ok tt ->
  archive_server w url = Raise e ->
  (download_zipped_file url to_dir w).1 = Raise e
  /\ requests_log (download_zipped_file url to_dir w).2
     = requests_log w ++ [DownloadRequest url]
  /\ files (download_zipped_file url to_dir w).2 = files w
  /\ (isdir to_dir w || isfile to_dir w = false ->
      isdir to_dir (download_zipped_file url to_dir w).2 = true).
Proof.
  intros Hdir Hget. rewrite download_zipped_file_unfold, Hget.
  destruct (ensure_dir_spec to_dir w) as (Hf & Hg & _ & _ & Hnew).
  apply fs_grows_env in Hg as [_ Hlog].
  destruct (ensure_dir to_dir w) as [r w1]. cbn [fst snd] in *. subst r.
  cbn [fst snd log_request requests_log files]. rewrite Hlog.
  split; [reflexivity|]. split; [reflexivity|]. split; [exact Hf|].
  intros Hnone. exact (Hnew eq_refl Hnone).
Qed.

Lemma download_zipped_file_transport_failure_witness :
  (download_zipped_file "http://firds/AB.zip" "data_files" unreachable_world).1
  = Raise ConnectionError
  /\ requests_log (download_zipped_file "http://firds/AB.zip" "data_files" unreachable_world).2
     = [] ++ [DownloadRequest "http://firds/AB.zip"]
  /\ files (download_zipped_file "http://firds/AB.zip" "data_files" unreachable_world).2 = ∅
  /\ (isdir "data_files" unreachable_world || isfile "data_files" unreachable_world = false ->
      isdir "data_files"
        (download_zipped_file "http://firds/AB.zip" "data_files" unreachable_world).2 = true).
Proof.
  apply (download_zipped_file_transport_failure unreachable_world
           "http://firds/AB.zip" "data_files" ConnectionError).
  - vm_compute. reflexivity.
  - reflexivity.
Defined.

(** X9.  A body that is no archive, or an archive without members, is
    refused before anything is extracted: with a status that is no error,
    [download_zipped_file] raises [BadZipFile] in the first case and
    [IndexError] in the second, and no file is written. *)
Theorem download_zipped_file_no_members (w : World) (url to_dir : string)
  (response : Response) :
  (ensure_dir to_dir w).1 = Ok tt ->
  archive_server w url = Ok response ->
  ~ non_success (status_code response) ->
  content response = None \/ content response = Some [] ->
  (download_zipped_file url to_dir w).1
  = Raise (match content response with None => BadZipFile | Some _ => IndexError end)
  /\ (download_zipped_file url to_dir w).2
     = log_request (DownloadRequest url) (ensure_dir to_dir w).2
  /\ files (download_zipped_file url to_dir w).2 = files w.
Proof.
  intros Hdir Hget Hstatus Hbody. rewrite download_zipped_file_unfold, Hget.
  destruct (ensure_dir_spec to_dir w) as (Hf & _).
  destruct (ensure_dir to_dir w) as [r w1]. cbn [fst snd] in *. subst r.
  assert ((400 <=? status_code response) && (status_code response <? 600) = false)
    as ->.
  { unfold non_success in Hstatus. apply andb_false_iff.
    destruct (Z.leb_spec 400 (status_code response)); [|left; reflexivity].
    destruct (Z.ltb_spec (status_code response) 600); [lia | right; reflexivity]. }
  destruct Hbody as [-> | ->]; cbn [fst snd log_request files];
    (split; [reflexivity|]; split; [reflexivity | exact Hf]).
Qed.

Lemma download_zipped_file_no_members_witness :
  (download_zipped_file "u" "D" (archive_world (mk_Response 200 (Some [])))).1
  = Raise IndexError
  /\ (download_zipped_file "u" "D" (archive_world (mk_Response 200 (Some [])))).2
     = log_request (DownloadRequest "u")
         (ensure_dir "D" (archive_world (mk_Response 200 (Some [])))).2
  /\ files (download_zipped_file "u" "D" (archive_world (mk_Response 200 (Some [])))).2 = ∅.
Proof.
  apply (download_zipped_file_no_members (archive_world (mk_Response 200 (Some [])))
           "u" "D" (mk_Response 200 (Some []))).
  - vm_compute. reflexivity.
  - reflexivity.
  - unfold non_success. simpl. lia.
  - right. reflexivity.
Defined.

Lemma write_file_files (n : string) (data : list ascii) (w : World) :
  ((write_file n data w).1 = Ok tt
   /\ files (write_file n data w).2 = <[ n := data ]> (files w))
  \/ ((write_file n data w).1 = Raise OSError
      /\ files (write_file n data w).2 = files w).
Proof.
  unfold write_file. destruct (isdir n w); [right; split; reflexivity|].
  destruct (forallb _ _); [left | right]; split; reflexivity.
Qed.

(** Whatever its outcome, extracting one member changes no file but the one
    at its target, and changes none at all unless it succeeds. *)
Lemma extract_member_files (to_dir name : string) (data : list ascii) (w : World) :
  let run := extract_member to_dir (name, data) w in
  (run.1 <> Ok tt -> files run.2 = files w)
  /\ (forall key, key <> extract_target to_dir name ->
        files run.2 !! key = files w !! key).
Proof.
  unfold extract_member, extract_target.
  destruct (bool_decide (sanitize_arcname name = "") && negb (endswith_slash name)).
  { unfold raise. simpl. split; reflexivity. }
  set (targetpath := normpath (path_join to_dir (sanitize_arcname name))).
  unfold bind.
  destruct (make_upperdirs_spec targetpath w) as (Hf1 & _ & Hr1).
  destruct (make_upperdirs targetpath w) as [r1 w1]. simpl in Hf1, Hr1.
  destruct Hr1 as [-> | ->].
  2: { simpl. rewrite Hf1. split; reflexivity. }
  destruct (endswith_slash name).
  - destruct (isdir targetpath w1).
    + simpl. rewrite Hf1. split; reflexivity.
    + destruct (mkdir_chain_spec [targetpath] w1) as (Hf2 & _).
      cbv zeta in Hf2. rewrite Hf2, Hf1. split; reflexivity.
  - destruct (write_file_files targetpath data w1) as [[Hok Hf2] | [Herr Hf2]];
      cbv zeta; rewrite Hf2, Hf1.
    + split; [intros Hne; contradiction|].
      intros key Hkey. apply lookup_insert_ne. congruence.
    + split; reflexivity.
Qed.

Lemma extractall_untouched (to_dir key : string) (archive : Archive) :
  forall w,
    Forall (fun m => extract_target to_dir m.1 <> key) archive ->
    files (extractall to_dir archive w).2 !! key = files w !! key.
Proof.
  induction archive as [|[name data] rest IH]; intros w Hne.
  - reflexivity.
  - apply Forall_cons in Hne as [Hne1 Hne]. cbn [fst] in Hne1.
    rewrite extractall_cons.
    destruct (extract_member_files to_dir name data w) as (_ & Hkey).
    specialize (Hkey key ltac:(congruence)).
    destruct (extract_member to_dir (name, data) w) as [[[]|e|] w1];
      cbn [fst snd] in Hkey |- *; [|exact Hkey..].
    rewrite (IH w1 Hne). exact Hkey.
Qed.

Lemma fs_grows_sub (w w' : World) :
  fs_grows w w' -> dirs w ⊆ dirs w' /\ dom (files w) ⊆ dom (files w').
Proof. intros (_ & D & F). split; assumption. Qed.

(** X10.  Whatever happens, a call of [download_zipped_file] sends at most
    one request, removes no directory and no file, and leaves every file as
    it was unless the archive it received has a member extracted to that
    very path. *)
Theorem download_zipped_file_keeps_files (w : World) (url to_dir : string) :
  (requests_log (download_zipped_file url to_dir w).2 = requests_log w
   \/ requests_log (download_zipped_file url to_dir w).2
      = requests_log w ++ [DownloadRequest url])
  /\ dirs w ⊆ dirs (download_zipped_file url to_dir w).2
  /\ dom (files w) ⊆ dom (files (download_zipped_file url to_dir w).2)
  /\ (forall key,
        (forall response archive,
           archive_server w url = Ok response ->
           content response = Some archive ->
           Forall (fun m => extract_target to_dir m.1 <> key) archive) ->
        files (download_zipped_file url to_dir w).2 !! key = files w !! key).
Proof.
  rewrite download_zipped_file_unfold.
  destruct (ensure_dir_spec to_dir w) as (Hf & Hg & _).
  pose proof (fs_grows_env _ _ Hg) as [_ Hlog].
  pose proof (fs_grows_sub _ _ Hg) as [Hd Hdom].
  destruct (ensure_dir to_dir w) as [r w1]. cbn [fst snd] in Hf, Hg, Hlog, Hd, Hdom.
  assert (Hbase :
    (requests_log w1 = requests_log w
     \/ requests_log w1 = requests_log w ++ [DownloadRequest url])
    /\ dirs w ⊆ dirs w1 /\ dom (files w) ⊆ dom (files w1)
    /\ (forall key : string, files w1 !! key = files w !! key)).
  { split; [left; exact Hlog|]. split; [exact Hd|]. split; [exact Hdom|].
    intros key. rewrite Hf. reflexivity. }
  assert (Hsent :
    (requests_log (log_request (DownloadRequest url) w1) = requests_log w
     \/ requests_log (log_request (DownloadRequest url) w1)
        = requests_log w ++ [DownloadRequest url])
    /\ dirs w ⊆ dirs (log_request (DownloadRequest url) w1)
    /\ dom (files w) ⊆ dom (files (log_request (DownloadRequest url) w1))
    /\ (forall key : string,
          files (log_request (DownloadRequest url) w1) !! key = files w !! key)).
  { split; [right; cbn [log_request requests_log]; rewrite Hlog; reflexivity|].
    split; [exact Hd|]. split; [exact Hdom|]. intros key. simpl. rewrite Hf. reflexivity. }
  destruct r as [[]|e|]; cbn [fst snd];
    [|destruct Hbase as (H1 & H2 & H3 & H4); repeat split; auto..].
  cbv zeta.
  destruct (archive_server w url) as [response|e|];
    [|destruct Hsent as (H1 & H2 & H3 & H4); repeat split; auto..].
  destruct ((400 <=? status_code response) && (status_code response <? 600));
    [destruct Hsent as (H1 & H2 & H3 & H4); repeat split; auto|].
  destruct (content response) as [[|[name data] rest]|] eqn:Hzip;
    [destruct Hsent as (H1 & H2 & H3 & H4); repeat split; auto| |
     destruct Hsent as (H1 & H2 & H3 & H4); repeat split; auto].
  set (w2 := log_request (DownloadRequest url) w1) in *.
  destruct (extractall_grows to_dir ((name, data) :: rest) w2) as [Hg3 _].
  pose proof (fs_grows_env _ _ Hg3) as [_ Hlog3].
  pose proof (fs_grows_sub _ _ Hg3) as [Hd3 Hdom3].
  pose proof (fun key => extractall_untouched to_dir key ((name, data) :: rest) w2)
    as Hkeep.
  destruct Hsent as (H1 & H2 & H3 & H4).
  assert (Hall :
    (requests_log (extractall to_dir ((name, data) :: rest) w2).2 = requests_log w
     \/ requests_log (extractall to_dir ((name, data) :: rest) w2).2
        = requests_log w ++ [DownloadRequest url])
    /\ dirs w ⊆ dirs (extractall to_dir ((name, data) :: rest) w2).2
    /\ dom (files w) ⊆ dom (files (extractall to_dir ((name, data) :: rest) w2).2)
    /\ (forall key,
          (forall response0 archive,
             Ok response = Ok response0 ->
             content response0 = Some archive ->
             Forall (fun m => extract_target to_dir m.1 <> key) archive) ->
          files (extractall to_dir ((name, data) :: rest) w2).2 !! key
          = files w !! key)).
  { split; [rewrite Hlog3; exact H1|].
    split; [etrans; [exact H2 | exact Hd3]|].
    split; [etrans; [exact H3 | exact Hdom3]|].
    intros key Hkey. rewrite Hkeep; [apply H4|].
    apply (Hkey response _ eq_refl Hzip). }
  destruct (extractall to_dir ((name, data) :: rest) w2) as [[[]|e|] w3];
    exact Hall.
Qed.

Lemma extractall_app (to_dir : string) (a b : Archive) :
  forall w,
    extractall to_dir (a ++ b) w
    = match extractall to_dir a w with
      | (Ok _, w') => extractall to_dir b w'
      | (Raise e, w') => (Raise e, w')
      | (OutOfFuel, w') => (OutOfFuel, w')
      end.
Proof.
  induction a as [|m a IH]; intros w.
  - reflexivity.
  - change ((m :: a) ++ b) with (m :: (a ++ b)). rewrite !extractall_cons.
    destruct (extract_member to_dir m w) as [[[]|e|] w1]; [apply IH | reflexivity..].
Qed.

(** X11.  Nothing is cleaned up when extraction fails part of the way.  If
    the members before some member are extracted and that member is
    refused, [download_zipped_file] raises the error, and the files of the
    earlier members are on disk all the same. *)
Theorem download_zipped_file_no_cleanup (w : World) (url to_dir : string)
  (response : Response) (before after : Archive) (bad : string * list ascii)
  (e : exn) :
  (ensure_dir to_dir w).1 = Ok tt ->
  archive_server w url = Ok response ->
  ~ non_success (status_code response) ->
  content response = Some (before ++ bad :: after) ->
  (extractall to_dir before
     (log_request (DownloadRequest url) (ensure_dir to_dir w).2)).1 = Ok tt ->
  (extract_member to_dir bad
     (extractall to_dir before
        (log_request (DownloadRequest url) (ensure_dir to_dir w).2)).2).1 = Raise e ->
  (download_zipped_file url to_dir w).1 = Raise e
  /\ (forall (b1 b2 : Archive) (n : string) (d : list ascii),
        before = b1 ++ (n, d) :: b2 ->
        endswith_slash n = false ->
        Forall (fun m => extract_target to_dir m.1 <> extract_target to_dir n) b2 ->
        files (download_zipped_file url to_dir w).2 !! extract_target to_dir n
        = Some d).
Proof.
  intros Hdir Hget Hstatus Hzip Hbefore Hbad.
  rewrite download_zipped_file_unfold, Hget.
  destruct (ensure_dir to_dir w) as [r w1]. cbn [fst snd] in *. subst r.
  assert ((400 <=? status_code response) && (status_code response <? 600) = false)
    as ->.
  { unfold non_success in Hstatus. apply andb_false_iff.
    destruct (Z.leb_spec 400 (status_code response)); [|left; reflexivity].
    destruct (Z.ltb_spec (status_code response) 600); [lia | right; reflexivity]. }
  rewrite Hzip. cbv zeta.
  set (w2 := log_request (DownloadRequest url) w1) in *.
  destruct (before ++ bad :: after) as [|[name data] rest] eqn:Harch.
  { destruct before; discriminate. }
  rewrite <- Harch, extractall_app.
  pose proof (fun b1 b2 n d => extractall_member to_dir n d b1 b2 w2) as Hmem.
  destruct (extractall to_dir before w2) as [r3 w3] eqn:Hrun3.
  cbn [fst snd] in Hbefore, Hbad. subst r3.
  destruct bad as [bn bd]. rewrite extractall_cons.
  destruct (extract_member_files to_dir bn bd w3) as (Hsame & _).
  destruct (extract_member to_dir (bn, bd) w3) as [r4 w4].
  cbn [fst snd] in Hbad, Hsame. subst r4. cbn [fst snd].
  split; [reflexivity|].
  intros b1 b2 n d Hsplit Hfile Hlater.
  rewrite Hsame by discriminate.
  specialize (Hmem b1 b2 n d). rewrite <- Hsplit, Hrun3 in Hmem.
  apply Hmem; [reflexivity | exact Hfile | exact Hlater].
Qed.

Lemma download_zipped_file_no_cleanup_witness :
  (download_zipped_file "u" "D" half_good_world).1 = Raise ValueError
  /\ (forall (b1 b2 : Archive) (n : string) (d : list ascii),
        [("AB.xml", list_ascii_of_string "<BizData/>")] = b1 ++ (n, d) :: b2 ->
        endswith_slash n = false ->
        Forall (fun m => extract_target "D" m.1 <> extract_target "D" n) b2 ->
        files (download_zipped_file "u" "D" half_good_world).2 !! extract_target "D" n
        = Some d).
Proof.
  apply (download_zipped_file_no_cleanup half_good_world "u" "D"
           (mk_Response 200 (Some half_good_archive))
           [("AB.xml", list_ascii_of_string "<BizData/>")] [("CD.xml", [])]
           ("..", []) ValueError).
  - vm_compute. reflexivity.
  - reflexivity.
  - unfold non_success. simpl. lia.
  - reflexivity.
  - vm_compute. reflexivity.
  - vm_compute. reflexivity.
Defined.

(** The first member stays, the third is never reached. *)
Example download_half_good :
  let run := download_zipped_file "u" "D" half_good_world in
  run.1 = Raise ValueError
  /\ files run.2 !! "D/AB.xml" = Some (list_ascii_of_string "<BizData/>")
  /\ files run.2 !! "D/CD.xml" = None.
Proof. vm_compute. repeat split; reflexivity. Qed.

(** ** [get_xml_files] *)

Lemma ensure_dir_env (to_dir : string) (w : World) :
  archive_server (ensure_dir to_dir w).2 = archive_server w
  /\ requests_log (ensure_dir to_dir w).2 = requests_log w
  /\ search_endpoint (ensure_dir to_dir w).2 = search_endpoint w.
Proof.
  destruct (ensure_dir_spec to_dir w) as (_ & (E & _ & _) & _).
  rewrite E. repeat split.
Qed.

(** One download: which server it leaves behind, what it logs, and what a
    returned path says. *)
Lemma download_zipped_file_outcome (w : World) (url to_dir : string) :
  archive_server (download_zipped_file url to_dir w).2 = archive_server w
  /\ (requests_log (download_zipped_file url to_dir w).2 = requests_log w
      \/ requests_log (download_zipped_file url to_dir w).2
         = requests_log w ++ [DownloadRequest url])
  /\ (forall fpath,
        (download_zipped_file url to_dir w).1 = Ok fpath ->
        requests_log (download_zipped_file url to_dir w).2
        = requests_log w ++ [DownloadRequest url]
        /\ fetched_from w to_dir url fpath).
Proof.
  rewrite download_zipped_file_unfold.
  destruct (ensure_dir_env to_dir w) as (Hsrv & Hlog & _).
  destruct (ensure_dir to_dir w) as [[[]|e|] w1]; cbn [fst snd] in Hsrv, Hlog |- *.
  2,3: split; [exact Hsrv|]; split; [left; exact Hlog | discriminate].
  cbv zeta.
  assert (Hsent : requests_log (log_request (DownloadRequest url) w1)
                  = requests_log w ++ [DownloadRequest url]).
  { cbn [log_request requests_log]. rewrite Hlog. reflexivity. }
  destruct (archive_server w url) as [response|e|] eqn:Hget; cbn [fst snd].
  2,3: split; [exact Hsrv|]; split; [right; exact Hsent | discriminate].
  destruct ((400 <=? status_code response) && (status_code response <? 600));
    cbn [fst snd].
  { split; [exact Hsrv|]; split; [right; exact Hsent | discriminate]. }
  destruct (content response) as [[|[name data] rest]|] eqn:Hzip; cbn [fst snd].
  1,3: split; [exact Hsrv|]; split; [right; exact Hsent | discriminate].
  destruct (extractall_grows to_dir ((name, data) :: rest)
              (log_request (DownloadRequest url) w1)) as [Hg _].
  apply fs_grows_env in Hg as [Hsrv3 Hlog3].
  destruct (extractall to_dir ((name, data) :: rest)
              (log_request (DownloadRequest url) w1)) as [[[]|e|] w3];
    cbn [fst snd] in Hsrv3, Hlog3 |- *.
  - split; [rewrite Hsrv3; exact Hsrv|].
    split; [right; rewrite Hlog3; exact Hsent|].
    intros fpath [= <-]. split; [rewrite Hlog3; exact Hsent|].
    exists response, name, data, rest. repeat split; assumption.
  - split; [rewrite Hsrv3; exact Hsrv|].
    split; [right; rewrite Hlog3; exact Hsent | discriminate].
  - split; [rewrite Hsrv3; exact Hsrv|].
    split; [right; rewrite Hlog3; exact Hsent | discriminate].
Qed.

Lemma download_each_cons (url : option string) (rest : list (option string))
  (data_dir : string) (w : World) :
  download_each (url :: rest) data_dir w
  = match download_listed url data_dir w with
    | (Ok fpath, w1) =>
        match download_each rest data_dir w1 with
        | (Ok fpaths, w2) => (Ok (fpath :: fpaths), w2)
        | (Raise e, w2) => (Raise e, w2)
        | (OutOfFuel, w2) => (OutOfFuel, w2)
        end
    | (Raise e, w1) => (Raise e, w1)
    | (OutOfFuel, w1) => (OutOfFuel, w1)
    end.
Proof.
  simpl. unfold bind at 1.
  destruct (download_listed url data_dir w) as [[fpath|e|] w1]; reflexivity.
Qed.

(** The downloads of a URL list: the requests are the URLs from the front
    of the list, in order; a returned list has one path per URL. *)
Lemma download_each_spec (data_dir : string) (server : string -> result Response)
  (urls : list (option string)) :
  forall w,
    archive_server w = server ->
    exists sent : list string,
      requests_log (download_each urls data_dir w).2
      = requests_log w ++ map DownloadRequest sent
      /\ map Some sent `prefix_of` urls
      /\ (forall fpaths,
            (download_each urls data_dir w).1 = Ok fpaths ->
            map Some sent = urls
            /\ Forall2 (fun url fpath =>
                          exists response name data rest,
                            server url = Ok response
                            /\ content response = Some ((name, data) :: rest)
                            /\ fpath = path_join data_dir name)
                 sent fpaths).
Proof.
  induction urls as [|url urls IH]; intros w Hsrv.
  - exists []. simpl. rewrite app_nil_r. split; [reflexivity|].
    split; [reflexivity|]. intros fpaths [= <-]. split; [reflexivity | constructor].
  - rewrite download_each_cons. destruct url as [u|]; simpl download_listed.
    + destruct (download_zipped_file_outcome w u data_dir) as (Hsrv1 & Hlog1 & Hok1).
      destruct (download_zipped_file u data_dir w) as [[fpath|e|] w1];
        cbn [fst snd] in Hsrv1, Hlog1, Hok1 |- *.
      * destruct (Hok1 fpath eq_refl) as [Hl1 (response & name & data & rest & Hr & Hc & Hp)].
        destruct (IH w1 ltac:(congruence)) as (sent & Hlog & Hpre & Hok).
        exists (u :: sent).
        destruct (download_each urls data_dir w1) as [[fpaths|e|] w2];
          cbn [fst snd] in Hlog, Hok |- *.
        -- split; [rewrite Hlog, Hl1, <- app_assoc; reflexivity|].
           split; [simpl; apply prefix_cons; exact Hpre|].
           intros fps [= <-]. destruct (Hok fpaths eq_refl) as [Hall Hf2].
           split; [simpl; rewrite Hall; reflexivity|].
           constructor; [|exact Hf2].
           exists response, name, data, rest. rewrite <- Hsrv. repeat split; assumption.
        -- split; [rewrite Hlog, Hl1, <- app_assoc; reflexivity|].
           split; [simpl; apply prefix_cons; exact Hpre | discriminate].
        -- split; [rewrite Hlog, Hl1, <- app_assoc; reflexivity|].
           split; [simpl; apply prefix_cons; exact Hpre | discriminate].
      * destruct Hlog1 as [Hl|Hl].
        -- exists []. simpl. rewrite app_nil_r.
           split; [exact Hl|]. split; [apply prefix_nil | discriminate].
        -- exists [u]. split; [exact Hl|].
           split; [simpl; apply prefix_cons, prefix_nil | discriminate].
      * destruct Hlog1 as [Hl|Hl].
        -- exists []. simpl. rewrite app_nil_r.
           split; [exact Hl|]. split; [apply prefix_nil | discriminate].
        -- exists [u]. split; [exact Hl|].
           split; [simpl; apply prefix_cons, prefix_nil | discriminate].
    + unfold bind, raise.
      destruct (ensure_dir_env data_dir w) as (_ & Hlog & _).
      destruct (ensure_dir data_dir w) as [[[]|e|] w1]; cbn [fst snd] in Hlog |- *;
        (exists []; simpl; rewrite app_nil_r;
         split; [exact Hlog|]; split; [apply prefix_nil | discriminate]).
Qed.

Lemma get_xml_files_unfold (fuel : nat) (ftype data_dir : string)
  (from_date to_date : option datetime) (force_dl : bool) (w : World) :
  get_xml_files fuel ftype data_dir from_date to_date force_dl w
  = match ensure_dir data_dir w with
    | (Ok _, w1) =>
        match get_file_urls fuel from_date to_date ftype w1 with
        | (Ok urls, w2) => download_each urls data_dir w2
        | (Raise e, w2) => (Raise e, w2)
        | (OutOfFuel, w2) => (OutOfFuel, w2)
        end
    | (Raise e, w1) => (Raise e, w1)
    | (OutOfFuel, w1) => (OutOfFuel, w1)
    end.
Proof.
  unfold get_xml_files. unfold bind at 1.
  destruct (ensure_dir data_dir w) as [[[]|e|] w1]; reflexivity.
Qed.

(** The search requests leave the archive server as it is. *)
Lemma get_file_urls_loop_env (f t : datetime) (ftype : string) (N rows : Z)
  (fuel : nat) :
  forall (start : Z) (urls : list (option string)) (w : World),
    archive_server (get_file_urls_loop fuel f t ftype N start rows urls w).2
    = archive_server w.
Proof.
  induction fuel as [|fuel IH]; intros start urls w; simpl.
  - destruct (N >? start + rows); reflexivity.
  - destruct (N >? start + rows); [|reflexivity].
    unfold bind at 1. unfold _request_file_urls at 1.
    destruct (search_endpoint w _) as [root|e|]; try reflexivity.
    unfold bind at 1. unfold lift at 1.
    destruct (_parse_file_urls root ftype) as [new|e|]; try reflexivity.
    rewrite IH. reflexivity.
Qed.

Lemma get_file_urls_env (fuel : nat) (from_date to_date : option datetime)
  (ftype : string) (w : World) :
  archive_server (get_file_urls fuel from_date to_date ftype w).2 = archive_server w.
Proof.
  rewrite get_file_urls_unfold.
  pose proof (default_window_world from_date to_date w) as Hw.
  destruct (default_window from_date to_date w) as [[[f t]|e|] w0];
    cbn [snd] in Hw; subst w0; try reflexivity.
  cbv zeta. destruct (search_endpoint w _) as [root|e|]; try reflexivity.
  destruct (numFound root) as [N|e|]; try reflexivity.
  destruct (_parse_file_urls root ftype) as [urls|e|]; try reflexivity.
  rewrite get_file_urls_loop_env. reflexivity.
Qed.

(** X12.  When [get_xml_files] returns, it returns one path per download
    link of the manifest, in manifest order, and each path is [data_dir]
    joined with the name of the first member of the archive the server
    holds at that link. *)
Theorem get_xml_files_paths (fuel : nat) (ftype data_dir : string)
  (from_date to_date : option datetime) (force_dl : bool) (w : World)
  (fpaths : list string) :
  (get_xml_files fuel ftype data_dir from_date to_date force_dl w).1 = Ok fpaths ->
  exists urls : list string,
    (get_file_urls fuel from_date to_date ftype (ensure_dir data_dir w).2).1
    = Ok (map Some urls)
    /\ Forall2 (fetched_from w data_dir) urls fpaths.
Proof.
  rewrite get_xml_files_unfold. intros Hok.
  destruct (ensure_dir_env data_dir w) as (Hsrv1 & _).
  destruct (ensure_dir data_dir w) as [[[]|e|] w1]; cbn [fst snd] in *;
    try discriminate.
  pose proof (get_file_urls_env fuel from_date to_date ftype w1) as Hsrv2.
  destruct (get_file_urls fuel from_date to_date ftype w1) as [[urls|e|] w2];
    cbn [fst snd] in *; try discriminate.
  destruct (download_each_spec data_dir (archive_server w) urls w2 ltac:(congruence))
    as (sent & _ & _ & Hres).
  destruct (Hres fpaths Hok) as [Hall Hf2].
  exists sent. split; [rewrite Hall; reflexivity | exact Hf2].
Qed.

Lemma get_xml_files_paths_witness :
  exists urls : list string,
    (get_file_urls 0 None None "" (ensure_dir "data_files" pipeline_world).2).1
    = Ok (map Some urls)
    /\ Forall2 (fetched_from pipeline_world "data_files") urls
         ["data_files/AB.xml"; "data_files/AB.xml"].
Proof.
  apply (get_xml_files_paths 0 "" "data_files" None None false pipeline_world
           ["data_files/AB.xml"; "data_files/AB.xml"]).
  vm_compute. reflexivity.
Defined.

(** X13.  [get_xml_files] downloads in manifest order and stops at the first
    link that fails: after the search requests, its download requests are
    the links from the front of the manifest, one each, and they are all of
    them when it returns.  When the manifest cannot be had, it downloads
    nothing. *)
Theorem get_xml_files_requests (fuel : nat) (ftype data_dir : string)
  (from_date to_date : option datetime) (force_dl : bool) (w : World) :
  (ensure_dir data_dir w).1 = Ok tt ->
  match get_file_urls fuel from_date to_date ftype (ensure_dir data_dir w).2 with
  | (Ok urls, w2) =>
      exists sent : list string,
        requests_log (get_xml_files fuel ftype data_dir from_date to_date force_dl w).2
        = requests_log w2 ++ map DownloadRequest sent
        /\ map Some sent `prefix_of` urls
        /\ (forall fpaths,
              (get_xml_files fuel ftype data_dir from_date to_date force_dl w).1
              = Ok fpaths ->
              map Some sent = urls /\ length fpaths = length urls)
  | (_, w2) =>
      requests_log (get_xml_files fuel ftype data_dir from_date to_date force_dl w).2
      = requests_log w2
      /\ forall fpaths,
           (get_xml_files fuel ftype data_dir from_date to_date force_dl w).1
           <> Ok fpaths
  end.
Proof.
  intros Hdir. rewrite get_xml_files_unfold.
  destruct (ensure_dir data_dir w) as [r1 w1]. cbn [fst snd] in *. subst r1.
  destruct (get_file_urls fuel from_date to_date ftype w1) as [[urls|e|] w2].
  - destruct (download_each_spec data_dir (archive_server w2) urls w2 eq_refl)
      as (sent & Hlog & Hpre & Hres).
    exists sent. split; [exact Hlog|]. split; [exact Hpre|].
    intros fpaths Hok. destruct (Hres fpaths Hok) as [Hall Hf2].
    split; [exact Hall|].
    apply Forall2_length in Hf2. rewrite <- Hall, length_map. symmetry. exact Hf2.
  - split; [reflexivity | discriminate].
  - split; [reflexivity | discriminate].
Qed.

Lemma get_xml_files_requests_witness :
  match get_file_urls 0 None None "" (ensure_dir "data_files" bond_only_world).2 with
  | (Ok urls, w2) =>
      exists sent : list string,
        requests_log (get_xml_files 0 "" "data_files" None None false bond_only_world).2
        = requests_log w2 ++ map DownloadRequest sent
        /\ map Some sent `prefix_of` urls
        /\ (forall fpaths,
              (get_xml_files 0 "" "data_files" None None false bond_only_world).1
              = Ok fpaths ->
              map Some sent = urls /\ length fpaths = length urls)
  | (_, w2) =>
      requests_log (get_xml_files 0 "" "data_files" None None false bond_only_world).2
      = requests_log w2
      /\ forall fpaths,
           (get_xml_files 0 "" "data_files" None None false bond_only_world).1
           <> Ok fpaths
  end.
Proof.
  apply (get_xml_files_requests 0 "" "data_files" None None false bond_only_world).
  vm_compute. reflexivity.
Defined.

(** The bond file is fetched and extracted, the equity file answers 404. *)
Example get_xml_files_bond_only :
  let run := get_xml_files 0 "" "data_files" None None false bond_only_world in
  run.1 = Raise (HTTPError 404)
  /\ files run.2 !! "data_files/AB.xml" = Some (list_ascii_of_string "<BizData/>")
  /\ drop 1 (requests_log run.2)
     = [DownloadRequest "http://firds/b1.zip"; DownloadRequest "http://firds/e2.zip"].
Proof. vm_compute. repeat split; reflexivity. Qed.

(** ** Lookup store: other tables, old rows, keys *)

Lemma database_set_sqlite (db_file db_file' : string) (db : gmap string Table)
  (w : World) :
  database db_file' (set_sqlite (<[ db_file := db ]> (sqlite w)) w)
  = if decide (db_file = db_file') then db else database db_file' w.
Proof.
  unfold database. simpl. rewrite lookup_insert. destruct (decide _); reflexivity.
Qed.







(** The table after a call: it exists, and it holds the batch folded into
    the old rows or the old rows alone. *)
Lemma append_to_table_stored (table xml_file db_file : string) (w : World) :
  database db_file (append_to_table table xml_file db_file w).2 !! table
  = Some (stored db_file table (append_to_table table xml_file db_file w).2)
  /\ (stored db_file table (append_to_table table xml_file db_file w).2
      = stored db_file table w
      \/ exists args,
           stored db_file table (append_to_table table xml_file db_file w).2
           = fold_left insert_or_ignore args (stored db_file table w)).
Proof.
  rewrite append_to_table_run.
  destruct (create_table_spec db_file table w) as (_ & Hst & _ & _).
  assert (Hex : database db_file (create_table db_file table w).2 !! table
                = Some (stored db_file table (create_table db_file table w).2)).
  { unfold stored, create_table.
    destruct (database db_file w !! table) as [t|] eqn:Ht; cbn [snd].
    - unfold Table, Row in *. rewrite Ht. reflexivity.
    - rewrite database_set_sqlite. destruct (decide _); [|contradiction].
      rewrite !lookup_insert_eq. reflexivity. }
  destruct (etree_parse w xml_file) as [root|e|];
    [|split; [exact Hex | left; exact Hst]..].
  destruct (parse_records _ _) as [args|e|];
    [|split; [exact Hex | left; exact Hst]..].
  destruct (executemany_fold (storage_fault w) args 0 (stored db_file table w))
    as [-> | ->]; [|split; [exact Hex | left; exact Hst]].
  destruct (commit_spec db_file table
              (fold_left insert_or_ignore args (stored db_file table w))
              (create_table db_file table w).2) as (_ & Hstored & _).
  split.
  - rewrite Hstored. unfold commit. cbn [snd]. rewrite database_set_sqlite.
    destruct (decide _); [|contradiction]. apply lookup_insert_eq.
  - right. exists args. exact Hstored.
Qed.


Lemma has_isin_keys (isin : string) (t : Table) :
  has_isin isin t = false <-> isin ∉ keys t.
Proof.
  unfold keys. induction t as [|[k l] t IH]; simpl.
  - split; [intros _; apply not_elem_of_nil | reflexivity].
  - rewrite orb_false_iff, IH. destruct k as [k|]; simpl.
    + split.
      * intros [H1 H2]. apply bool_decide_eq_false in H1.
        apply not_elem_of_cons. split; [congruence | exact H2].
      * intros H. apply not_elem_of_cons in H as [H1 H2].
        split; [apply bool_decide_eq_false; congruence | exact H2].
    + split; [intros [_ H]; exact H | intros H; split; [reflexivity | exact H]].
Qed.

Lemma keys_app (a b : Table) : keys (a ++ b) = keys a ++ keys b.
Proof. unfold keys. apply omap_app. Qed.

Lemma insert_or_ignore_NoDup (t : Table) (arg : option string * option string) :
  NoDup (keys t) -> NoDup (keys (insert_or_ignore t arg)).
Proof.
  intros Hnd. destruct arg as [[i|] [l|]]; simpl; try exact Hnd.
  - destruct (has_isin i t) eqn:Hi; [exact Hnd|].
    rewrite keys_app. apply NoDup_app. split; [exact Hnd|].
    split; [|apply NoDup_singleton].
    intros k Hk Hk'. apply list_elem_of_singleton in Hk'. subst k.
    apply has_isin_keys in Hi. contradiction.
  - rewrite keys_app. simpl. rewrite app_nil_r. exact Hnd.
Qed.

(** X16.  The primary key holds: if no identifier is stored twice before a
    call of [append_to_table], none is stored twice after it, whatever the
    file contains and however the call ends. *)
Theorem append_to_table_unique_isins (table xml_file db_file : string) (w : World) :
  NoDup (keys (stored db_file table w)) ->
  NoDup (keys (stored db_file table (append_to_table table xml_file db_file w).2)).
Proof.
  intros Hnd. destruct (append_to_table_stored table xml_file db_file w) as [_ Hst].
  destruct Hst as [-> | [args ->]]; [exact Hnd|].
  revert Hnd. generalize (stored db_file table w).
  induction args as [|arg args IH]; intros t Hnd; simpl; [exact Hnd|].
  apply IH. apply insert_or_ignore_NoDup. exact Hnd.
Qed.

Lemma append_to_table_unique_isins_witness :
  NoDup (keys (stored DEFAULT_DB_FILE "equities"
                 (append_to_table "equities" "xz.xml" DEFAULT_DB_FILE xz_world).2)).
Proof.
  apply (append_to_table_unique_isins "equities" "xz.xml" DEFAULT_DB_FILE xz_world).
  vm_compute. repeat constructor; set_solver.
Defined.

(** ** Lookup store: append, then look up *)

Lemma insert_or_ignore_other (i : string) (t : Table)
  (arg : option string * option string) :
  arg.1 <> Some i ->
  has_isin i (insert_or_ignore t arg) = has_isin i t
  /\ rows_of i (insert_or_ignore t arg) = rows_of i t.
Proof.
  intros Hne. destruct arg as [[j|] [l|]]; simpl in *; try (split; reflexivity).
  - destruct (has_isin j t); [split; reflexivity|].
    rewrite has_isin_app, rows_of_app. simpl.
    rewrite bool_decide_eq_false_2 by exact Hne.
    rewrite !orb_false_r, app_nil_r. split; reflexivity.
  - rewrite has_isin_app, rows_of_app. simpl.
    rewrite !orb_false_r, app_nil_r. split; reflexivity.
Qed.

Lemma fold_insert_or_ignore_other (i : string)
  (args : list (option string * option string)) :
  Forall (fun a => a.1 <> Some i) args ->
  forall t,
    has_isin i (fold_left insert_or_ignore args t) = has_isin i t
    /\ rows_of i (fold_left insert_or_ignore args t) = rows_of i t.
Proof.
  induction 1 as [|a args Ha _ IH]; intros t; simpl; [split; reflexivity|].
  destruct (IH (insert_or_ignore t a)) as [-> ->].
  apply insert_or_ignore_other. exact Ha.
Qed.

Lemma fold_insert_or_ignore_has (i : string)
  (args : list (option string * option string)) :
  forall t,
    has_isin i t = true -> has_isin i (fold_left insert_or_ignore args t) = true.
Proof.
  induction args as [|a args IH]; intros t Hin; simpl; [exact Hin|].
  apply IH. apply insert_or_ignore_known. exact Hin.
Qed.

Lemma insert_or_ignore_has (i l : string) (t : Table) :
  has_isin i (insert_or_ignore t (Some i, Some l)) = true.
Proof.
  simpl. destruct (has_isin i t) eqn:Hi; [exact Hi|].
  rewrite has_isin_app. simpl. rewrite bool_decide_eq_true_2 by reflexivity.
  rewrite orb_true_r. reflexivity.
Qed.

(** Every identifier a batch writes with an issuer is known afterwards. *)
Lemma fold_insert_or_ignore_knows (i l : string)
  (args : list (option string * option string)) :
  In (Some i, Some l) args ->
  forall t, has_isin i (fold_left insert_or_ignore args t) = true.
Proof.
  induction args as [|a args IH]; intros Hin t; [contradiction|].
  simpl. destruct Hin as [-> | Hin].
  - apply fold_insert_or_ignore_has, insert_or_ignore_has.
  - apply IH. exact Hin.
Qed.

(** The first record of a batch for a new identifier decides its issuer. *)
Lemma fold_insert_or_ignore_first (i l : string)
  (pre post : list (option string * option string)) (t : Table) :
  has_isin i t = false ->
  Forall (fun a => a.1 <> Some i) pre ->
  rows_of i (fold_left insert_or_ignore (pre ++ (Some i, Some l) :: post) t)
  = [(Some i, l)].
Proof.
  intros Hnew Hpre. rewrite fold_left_app. simpl fold_left.
  destruct (fold_insert_or_ignore_other i pre Hpre t) as [Hhas Hrows].
  rewrite Hnew in Hhas.
  rewrite fold_insert_or_ignore_known by apply insert_or_ignore_has.
  simpl. rewrite Hhas, rows_of_app, Hrows, (has_isin_false_rows i t Hnew). simpl.
  rewrite bool_decide_eq_true_2 by reflexivity. reflexivity.
Qed.

Lemma lookup_leis_loop_first (table db_file : string) (t : Table) (w : World) :
  database db_file w !! table = Some t ->
  forall (isins : list string) (results : list string),
    Forall (fun i => has_isin i t = true) isins ->
    exists leis,
      lookup_leis_loop isins table db_file results w = (Ok (results ++ leis), w)
      /\ Forall2 (fun i lei => head (rows_of i t) = Some (Some i, lei)) isins leis.
Proof.
  intros Ht isins. induction isins as [|i isins IH]; intros results Hall.
  - exists []. rewrite app_nil_r. split; [reflexivity | constructor].
  - apply Forall_cons in Hall as [Hi Hall].
    rewrite lookup_leis_loop_cons, Ht.
    destruct (has_isin_true_rows i t Hi) as (lei & rows & Hrows & _).
    rewrite Hrows. cbn [head snd].
    destruct (IH (results ++ [lei]) Hall) as (leis & -> & Hleis).
    exists (lei :: leis). rewrite <- app_assoc. split; [reflexivity|].
    constructor; [rewrite Hrows; reflexivity | exact Hleis].
Qed.

Lemma batch_isins_length (args : list (option string * option string)) :
  Forall (fun a => is_Some a.1 /\ is_Some a.2) args ->
  length (batch_isins args) = length args.
Proof.
  unfold batch_isins. induction 1 as [|[i l] args [[i' Hi] _] _ IH]; [reflexivity|].
  simpl in Hi. subst i. simpl. f_equal. exact IH.
Qed.

(** X17.  What is appended can be looked up.  After a call of
    [append_to_table] that returns, on a file whose records all carry an
    identifier and an issuer, [lookup_leis] on the identifiers of the file,
    in document order, returns one issuer for each; and for an identifier
    that was not stored before, it returns the issuer of the first record of
    the file that has that identifier. *)
Theorem append_then_lookup (table xml_file db_file : string) (w : World)
  (root : Element) (args : list (option string * option string)) :
  storage_fault w = None ->
  etree_parse w xml_file = Ok root ->
  parse_records (xpath_RefData root) [] = Ok args ->
  Forall (fun a => is_Some a.1 /\ is_Some a.2) args ->
  (exists leis,
     lookup_leis (batch_isins args) table db_file (after_append table xml_file db_file w)
     = (Ok leis, after_append table xml_file db_file w)
     /\ length leis = length args)
  /\ (forall pre post i l,
        args = pre ++ (Some i, Some l) :: post ->
        Forall (fun a => a.1 <> Some i) pre ->
        has_isin i (stored db_file table w) = false ->
        lookup_leis [i] table db_file (after_append table xml_file db_file w)
        = (Ok [l], after_append table xml_file db_file w)).
Proof.
  intros Hfault Hroot Hargs Hfull.
  destruct (append_to_table_ok table xml_file db_file w root args Hfault Hroot Hargs)
    as [_ Hst].
  destruct (append_to_table_stored table xml_file db_file w) as [Hex _].
  fold (after_append table xml_file db_file w) in Hex.
  set (w' := after_append table xml_file db_file w) in *.
  split.
  - destruct (lookup_leis_loop_first table db_file _ w' Hex (batch_isins args) [])
      as (leis & Hrun & Hleis).
    + apply Forall_forall. intros i Hi. unfold batch_isins in Hi.
      apply list_elem_of_omap in Hi as ([oi ol] & Ha & Hoi). simpl in Hoi. subst oi.
      rewrite Forall_forall in Hfull. destruct (Hfull _ Ha) as [_ [l Hl]].
      simpl in Hl. subst ol. rewrite Hst.
      apply (fold_insert_or_ignore_knows i l). apply list_elem_of_In. exact Ha.
    + exists leis. split; [exact Hrun|].
      apply Forall2_length in Hleis. rewrite <- Hleis.
      apply batch_isins_length. exact Hfull.
  - intros pre post i l Hsplit Hpre Hnew.
    unfold lookup_leis. rewrite lookup_leis_loop_cons, Hex, Hst, Hsplit.
    rewrite (fold_insert_or_ignore_first i l pre post _ Hnew Hpre). reflexivity.
Qed.

Lemma append_then_lookup_witness :
  (exists leis,
     lookup_leis (batch_isins [(Some "X", Some "LEI-X"); (Some "Z", Some "LEI-Z")])
       "bonds" DEFAULT_DB_FILE (after_append "bonds" "xz.xml" DEFAULT_DB_FILE xz_world)
     = (Ok leis, after_append "bonds" "xz.xml" DEFAULT_DB_FILE xz_world)
     /\ length leis = length [(Some "X", Some "LEI-X"); (Some "Z", Some "LEI-Z")])
  /\ (forall pre post i l,
        [(Some "X", Some "LEI-X"); (Some "Z", Some "LEI-Z")]
        = pre ++ (Some i, Some l) :: post ->
        Forall (fun a => a.1 <> Some i) pre ->
        has_isin i (stored DEFAULT_DB_FILE "bonds" xz_world) = false ->
        lookup_leis [i] "bonds" DEFAULT_DB_FILE
          (after_append "bonds" "xz.xml" DEFAULT_DB_FILE xz_world)
        = (Ok [l], after_append "bonds" "xz.xml" DEFAULT_DB_FILE xz_world)).
Proof.
  apply (append_then_lookup "bonds" "xz.xml" DEFAULT_DB_FILE xz_world
           (reference_document [RefData_of "X" "LEI-X"; RefData_of "Z" "LEI-Z"])
           [(Some "X", Some "LEI-X"); (Some "Z", Some "LEI-Z")]).
  - reflexivity.
  - reflexivity.
  - vm_compute. reflexivity.
  - repeat constructor; simpl; eexists; reflexivity.
Defined.

Lemma fold_insert_or_ignore_noop (args : list (option string * option string))
  (t : Table) :
  Forall (fun a => is_Some a.1) args ->
  (forall i l, In (Some i, Some l) args -> has_isin i t = true) ->
  fold_left insert_or_ignore args t = t.
Proof.
  induction 1 as [|[oi ol] args [i Hi] _ IH]; intros Hknown; [reflexivity|].
  simpl in Hi. subst oi.
  assert (Hone : insert_or_ignore t (Some i, ol) = t).
  { destruct ol as [l|]; [|reflexivity]. simpl.
    rewrite (Hknown i l) by (left; reflexivity). reflexivity. }
  change (fold_left insert_or_ignore ((Some i, ol) :: args) t)
    with (fold_left insert_or_ignore args (insert_or_ignore t (Some i, ol))).
  rewrite Hone. apply IH.
  intros j l Hin. apply (Hknown j l). right. exact Hin.
Qed.

(** X18.  Appending a file a second time changes nothing, provided each of
    its records has an identifier: both calls return, and the table after
    the second is the table after the first. *)
Theorem append_to_table_twice (table xml_file db_file : string) (w : World)
  (root : Element) (args : list (option string * option string)) :
  storage_fault w = None ->
  etree_parse w xml_file = Ok root ->
  parse_records (xpath_RefData root) [] = Ok args ->
  Forall (fun a => is_Some a.1) args ->
  (append_to_table table xml_file db_file w).1 = Ok tt
  /\ (append_to_table table xml_file db_file
        (after_append table xml_file db_file w)).1 = Ok tt
  /\ stored db_file table
       (after_append table xml_file db_file (after_append table xml_file db_file w))
     = stored db_file table (after_append table xml_file db_file w).
Proof.
  intros Hfault Hroot Hargs Hkeys.
  destruct (append_to_table_ok table xml_file db_file w root args Hfault Hroot Hargs)
    as [Hok1 Hst1].
  destruct (after_append_env table xml_file db_file w) as [Hp Hf].
  destruct (append_to_table_ok table xml_file db_file
              (after_append table xml_file db_file w) root args)
    as [Hok2 Hst2]; [congruence | congruence | exact Hargs |].
  split; [exact Hok1|]. split; [exact Hok2|].
  rewrite Hst2. apply fold_insert_or_ignore_noop; [exact Hkeys|].
  intros i l Hin. rewrite Hst1. apply (fold_insert_or_ignore_knows i l). exact Hin.
Qed.

Lemma append_to_table_twice_witness :
  (append_to_table "equities" "xz.xml" DEFAULT_DB_FILE (store_world ∅ None)).1 = Ok tt
  /\ (append_to_table "equities" "xz.xml" DEFAULT_DB_FILE
        (after_append "equities" "xz.xml" DEFAULT_DB_FILE (store_world ∅ None))).1 = Ok tt
  /\ stored DEFAULT_DB_FILE "equities"
       (after_append "equities" "xz.xml" DEFAULT_DB_FILE
          (after_append "equities" "xz.xml" DEFAULT_DB_FILE (store_world ∅ None)))
     = stored DEFAULT_DB_FILE "equities"
         (after_append "equities" "xz.xml" DEFAULT_DB_FILE (store_world ∅ None)).
Proof.
  apply (append_to_table_twice "equities" "xz.xml" DEFAULT_DB_FILE (store_world ∅ None)
           (reference_document [RefData_of "X" "LEI-X"; RefData_of "Z" "LEI-Z"])
           [(Some "X", Some "LEI-X"); (Some "Z", Some "LEI-Z")]).
  - reflexivity.
  - reflexivity.
  - vm_compute. reflexivity.
  - repeat constructor; simpl; eexists; reflexivity.
Defined.

(** ** Lookup: present, absent, no table *)

(** X19.  When every queried identifier is stored, [lookup_leis] returns
    one issuer per identifier, in the order asked and with repeats kept, each
    the issuer of the first stored row for its identifier, and it changes
    nothing. *)
Theorem lookup_leis_all_stored (isins : list string) (table db_file : string)
  (t : Table) (w : World) :
  database db_file w !! table = Some t ->
  Forall (fun i => has_isin i t = true) isins ->
  exists leis,
    lookup_leis isins table db_file w = (Ok leis, w)
    /\ length leis = length isins
    /\ Forall2 (fun i lei => head (rows_of i t) = Some (Some i, lei)) isins leis.
Proof.
  intros Ht Hall.
  destruct (lookup_leis_loop_first table db_file t w Ht isins [] Hall)
    as (leis & Hrun & Hleis).
  exists leis. split; [exact Hrun|].
  split; [symmetry; exact (Forall2_length _ _ _ Hleis) | exact Hleis].
Qed.

Lemma lookup_leis_all_stored_witness :
  exists leis,
    lookup_leis ["Z"; "X"; "Z"] "equities" DEFAULT_DB_FILE xz_world = (Ok leis, xz_world)
    /\ length leis = length ["Z"; "X"; "Z"]
    /\ Forall2 (fun i lei =>
                  head (rows_of i [(Some "X", "LEI-X"); (Some "Z", "LEI-Z")])
                  = Some (Some i, lei))
         ["Z"; "X"; "Z"] leis.
Proof.
  apply (lookup_leis_all_stored ["Z"; "X"; "Z"] "equities" DEFAULT_DB_FILE
           [(Some "X", "LEI-X"); (Some "Z", "LEI-Z")] xz_world).
  - vm_compute. reflexivity.
  - repeat constructor.
Defined.

(** X20.  One absent identifier fails the whole lookup: on an existing
    table, a query that contains an identifier without a row raises
    [TypeError], wherever in the query it stands and whatever else is
    asked; no issuer is returned, also none of those found before it. *)
Theorem lookup_leis_any_absent (isins : list string) (table db_file : string)
  (t : Table) (w : World) :
  database db_file w !! table = Some t ->
  Exists (fun i => has_isin i t = false) isins ->
  lookup_leis isins table db_file w = (Raise TypeError, w).
Proof.
  intros Ht Hex. exact (lookup_leis_loop_missing table db_file t w Ht isins [] Hex).
Qed.

Lemma lookup_leis_any_absent_witness :
  lookup_leis ["X"; "Z"; "Y"] "equities" DEFAULT_DB_FILE xz_world
  = (Raise TypeError, xz_world).
Proof.
  apply (lookup_leis_any_absent ["X"; "Z"; "Y"] "equities" DEFAULT_DB_FILE
           [(Some "X", "LEI-X"); (Some "Z", "LEI-Z")] xz_world).
  - vm_compute. reflexivity.
  - apply Exists_cons_tl, Exists_cons_tl, Exists_cons_hd. reflexivity.
Defined.

(** X21.  A table that does not exist cannot be queried, but it can be
    asked nothing: [lookup_leis] raises [OperationalError] for every
    non-empty query on a missing table, and returns the empty list for the
    empty query whether the table exists or not. *)
Theorem lookup_leis_missing_table (isins : list string) (table db_file : string)
  (w : World) :
  database db_file w !! table = None ->
  (isins <> [] -> lookup_leis isins table db_file w = (Raise OperationalError, w))
  /\ lookup_leis [] table db_file w = (Ok [], w).
Proof.
  intros Hnone. split; [|reflexivity].
  destruct isins as [|i isins]; [contradiction|]. intros _.
  unfold lookup_leis. rewrite lookup_leis_loop_cons, Hnone. reflexivity.
Qed.

Lemma lookup_leis_missing_table_witness :
  (["X"] <> [] ->
   lookup_leis ["X"] "bonds" DEFAULT_DB_FILE xz_world = (Raise OperationalError, xz_world))
  /\ lookup_leis [] "bonds" DEFAULT_DB_FILE xz_world = (Ok [], xz_world).
Proof.
  apply (lookup_leis_missing_table ["X"] "bonds" DEFAULT_DB_FILE xz_world).
  vm_compute. reflexivity.
Defined.
